(** * DbTool: the chunked dump / restore engine

    A shallow embedding of [dbtool/dump.py] and [dbtool/restore.py].

    Python [int] is [Z].  A Python [str] is the list of its code points and
    a [bytes] object is the list of its bytes, both as [list Z].  The
    database driver, the clock and the terminal are the environment: their
    answers are inputs of the model and their calls are events of a trace. *)

From Stdlib Require Import ZArith Lia List String Ascii Bool Decimal DecimalN.
From stdpp Require Import base option list gmap.

Set Warnings "-register-all".
Local Open Scope Z_scope.

(** ** Python strings and bytes *)

Abbreviation pystr := (list Z) (only parsing).
Abbreviation bytes := (list Z) (only parsing).

(** An ASCII literal of the source as a list of code points. *)
Definition lit (s : string) : list Z :=
  List.map (fun a => Z.of_N (N_of_ascii a)) (list_ascii_of_string s).

(** The double quote character, written by its code point. *)
Definition dquote : list Z := [34].

(** [sep.join(parts)] *)
Fixpoint join (sep : list Z) (parts : list (list Z)) : list Z :=
  match parts with
  | [] => []
  | [p] => p
  | p :: rest => p ++ sep ++ join sep rest
  end.

(** [s.startswith(p)] *)
Fixpoint startswith (p s : list Z) : bool :=
  match p, s with
  | [], _ => true
  | a :: p', b :: s' => (a =? b) && startswith p' s'
  | _ :: _, [] => false
  end.

(** [s.replace(old, new)] for a non-empty [old]: occurrences are found
    from the left and do not overlap.  [skip] counts the characters of the
    occurrence just replaced that are still to be passed over. *)
Fixpoint replace_from (old new s : list Z) (skip : nat) : list Z :=
  match s with
  | [] => []
  | x :: t =>
      match skip with
      | S k => replace_from old new t k
      | O =>
          if startswith old s
          then new ++ replace_from old new t (length old - 1)%nat
          else x :: replace_from old new t O
      end
  end.

Definition replace (old new s : list Z) : list Z := replace_from old new s O.

(** [s.split(sep)] for a one-byte separator. *)
Fixpoint split (sep : Z) (s : list Z) : list (list Z) :=
  match s with
  | [] => [[]]
  | x :: t =>
      if x =? sep then [] :: split sep t
      else match split sep t with
           | h :: r => (x :: h) :: r
           | [] => [[x]]
           end
  end.

(** [s.count(pat)] for a non-empty [pat]: occurrences that do not overlap,
    found from the left. *)
Fixpoint count_from (pat s : list Z) (skip : nat) : Z :=
  match s with
  | [] => 0
  | _ :: t =>
      match skip with
      | S k => count_from pat t k
      | O =>
          if startswith pat s
          then 1 + count_from pat t (length pat - 1)%nat
          else count_from pat t O
      end
  end.

Definition count (pat s : list Z) : Z := count_from pat s O.

(** [s.endswith(b)] for a one-byte suffix. *)
Fixpoint endswith (b : Z) (s : list Z) : bool :=
  match s with
  | [] => false
  | [x] => x =? b
  | _ :: t => endswith b t
  end.

Definition list_Z_eqb (a b : list Z) : bool := bool_decide (a = b).

(** ** Integer formatting: [str(n)] and the format spec [06d] *)

Fixpoint uint_chars (d : Decimal.uint) : list Z :=
  match d with
  | Nil => []
  | D0 d => 48 :: uint_chars d
  | D1 d => 49 :: uint_chars d
  | D2 d => 50 :: uint_chars d
  | D3 d => 51 :: uint_chars d
  | D4 d => 52 :: uint_chars d
  | D5 d => 53 :: uint_chars d
  | D6 d => 54 :: uint_chars d
  | D7 d => 55 :: uint_chars d
  | D8 d => 56 :: uint_chars d
  | D9 d => 57 :: uint_chars d
  end.

(** Left padding with the digit zero up to [width] digits. *)
Definition zero_pad (width : nat) (d : Decimal.uint) : Decimal.uint :=
  Nat.iter (width - Decimal.nb_digits d) D0 d.

(** [format(i, "0<width>d")]: the sign counts in the width. *)
Definition format_0d (width : nat) (i : Z) : list Z :=
  if i <? 0
  then 45 :: uint_chars (zero_pad (width - 1) (N.to_uint (Z.to_N (- i))))
  else uint_chars (zero_pad width (N.to_uint (Z.to_N i))).

Definition format_06d (i : Z) : list Z := format_0d 6 i.

(** [str(i)] *)
Definition py_str_int (i : Z) : list Z := format_0d 0 i.

(** ** Settings and table descriptors (config.py, db.py) *)

Module DumpSettings.
Record t := {
  dump_dir : list Z;
  chunk_rows : Z;
  compress : bool;
  compress_level : Z;
  dump_mode : list Z;
  dump_schema : bool;
  insert_batch_size : Z;
  use_transactions : bool;
  truncate_before_restore : bool;
  drop_on_restore : bool;
  recreate_schema : bool;
  disable_indexes_on_restore : bool;
  max_retries : Z;
  retry_backoff : Z
}.
End DumpSettings.

Module TableInfo.
Record t := {
  schema : list Z;
  name : list Z;
  row_estimate : Z;
  size_bytes : Z;
  total_size_bytes : Z;
  columns : list (list Z);
  pk_columns : list (list Z)
}.
End TableInfo.

(** ** The dump manifest (dump.py, [DumpManifest]) *)

Module DumpManifest.
Record t := {
  connection_name : list Z;
  database : list Z;
  table : list Z;
  schema : list Z;
  columns : list (list Z);
  pk_columns : list (list Z);
  chunk_rows : Z;
  total_rows : Z;
  chunks_completed : Z;
  chunks_total : Z;
  started_at : list Z;
  finished_at : option (list Z);
  compressed : bool;
  dump_mode : list Z;
  has_schema : bool
}.

(** [DumpManifest.chunk_filename] *)
Definition chunk_filename (self : t) (idx : Z) : list Z :=
  let ext :=
    if list_Z_eqb (dump_mode self) (lit "insert")
    then (if compressed self then lit ".sql.gz" else lit ".sql")
    else (if compressed self then lit ".csv.gz" else lit ".csv") in
  table self ++ lit "_chunk_" ++ format_06d idx ++ ext.

(** [manifest.chunks_completed = n] *)
Definition set_chunks_completed (self : t) (n : Z) : t :=
  {| connection_name := connection_name self; database := database self;
     table := table self; schema := schema self; columns := columns self;
     pk_columns := pk_columns self; chunk_rows := chunk_rows self;
     total_rows := total_rows self; chunks_completed := n;
     chunks_total := chunks_total self; started_at := started_at self;
     finished_at := finished_at self; compressed := compressed self;
     dump_mode := dump_mode self; has_schema := has_schema self |}.

(** [manifest.finished_at = s] *)
Definition set_finished_at (self : t) (s : list Z) : t :=
  {| connection_name := connection_name self; database := database self;
     table := table self; schema := schema self; columns := columns self;
     pk_columns := pk_columns self; chunk_rows := chunk_rows self;
     total_rows := total_rows self; chunks_completed := chunks_completed self;
     chunks_total := chunks_total self; started_at := started_at self;
     finished_at := Some s; compressed := compressed self;
     dump_mode := dump_mode self; has_schema := has_schema self |}.
End DumpManifest.

(** restore.py, [restore_table]: the chunk file name the loop body
    resolves, from the values read out of the manifest document. *)
Definition restore_chunk_filename
    (table_name dump_mode : list Z) (compressed : bool) (chunk_idx : Z) : list Z :=
  let ext :=
    if list_Z_eqb dump_mode (lit "insert")
    then (if compressed then lit ".sql.gz" else lit ".sql")
    else (if compressed then lit ".csv.gz" else lit ".csv") in
  table_name ++ lit "_chunk_" ++ format_06d chunk_idx ++ ext.

(** ** UTF-8 *)

Definition is_cont (b : Z) : bool := (128 <=? b) && (b <=? 191).

(** The range of the second byte after a three-byte lead. *)
Definition second_of3 (b0 b1 : Z) : bool :=
  if b0 =? 224 then (160 <=? b1) && (b1 <=? 191)
  else if b0 =? 237 then (128 <=? b1) && (b1 <=? 159)
  else is_cont b1.

(** The range of the second byte after a four-byte lead. *)
Definition second_of4 (b0 b1 : Z) : bool :=
  if b0 =? 240 then (144 <=? b1) && (b1 <=? 191)
  else if b0 =? 244 then (128 <=? b1) && (b1 <=? 143)
  else is_cont b1.

(** [s.decode("utf-8", errors="replace")]: every maximal ill-formed
    subsequence becomes one U+FFFD and decoding resumes after it. *)
Fixpoint decode_utf8_replace (s : list Z) : list Z :=
  match s with
  | [] => []
  | b0 :: r0 =>
      if (0 <=? b0) && (b0 <? 128) then b0 :: decode_utf8_replace r0
      else if (194 <=? b0) && (b0 <=? 223) then
        match r0 with
        | [] => [65533]
        | b1 :: r1 =>
            if is_cont b1
            then ((b0 - 192) * 64 + (b1 - 128)) :: decode_utf8_replace r1
            else 65533 :: decode_utf8_replace r0
        end
      else if (224 <=? b0) && (b0 <=? 239) then
        match r0 with
        | [] => [65533]
        | b1 :: r1 =>
            if second_of3 b0 b1 then
              match r1 with
              | [] => [65533]
              | b2 :: r2 =>
                  if is_cont b2
                  then ((b0 - 224) * 4096 + (b1 - 128) * 64 + (b2 - 128))
                         :: decode_utf8_replace r2
                  else 65533 :: decode_utf8_replace r1
              end
            else 65533 :: decode_utf8_replace r0
        end
      else if (240 <=? b0) && (b0 <=? 244) then
        match r0 with
        | [] => [65533]
        | b1 :: r1 =>
            if second_of4 b0 b1 then
              match r1 with
              | [] => [65533]
              | b2 :: r2 =>
                  if is_cont b2 then
                    match r2 with
                    | [] => [65533]
                    | b3 :: r3 =>
                        if is_cont b3
                        then ((b0 - 240) * 262144 + (b1 - 128) * 4096
                              + (b2 - 128) * 64 + (b3 - 128))
                               :: decode_utf8_replace r3
                        else 65533 :: decode_utf8_replace r2
                    end
                  else 65533 :: decode_utf8_replace r1
              end
            else 65533 :: decode_utf8_replace r0
        end
      else 65533 :: decode_utf8_replace r0
  end.

(** A Unicode scalar value: a code point that is not a surrogate. *)
Definition is_scalar (c : Z) : bool :=
  (0 <=? c) && (c <? 1114112) && negb ((55296 <=? c) && (c <? 57344)).

(** The UTF-8 bytes of one scalar value. *)
Definition utf8_of_scalar (c : Z) : list Z :=
  if c <? 128 then [c]
  else if c <? 2048 then [192 + c / 64; 128 + c mod 64]
  else if c <? 65536 then
    [224 + c / 4096; 128 + (c / 64) mod 64; 128 + c mod 64]
  else [240 + c / 262144; 128 + (c / 4096) mod 64;
        128 + (c / 64) mod 64; 128 + c mod 64].

Definition utf8_bytes (s : list Z) : list Z := List.flat_map utf8_of_scalar s.

(** [s.encode("utf-8")]: [None] stands for [UnicodeEncodeError]. *)
Definition encode_utf8 (s : list Z) : option (list Z) :=
  if forallb is_scalar s then Some (utf8_bytes s) else None.

(** ** Copy to insert conversion (dump.py, [_copy_to_inserts]) *)

(** [f'"{c}"'] *)
Definition quoted (c : list Z) : list Z := dquote ++ c ++ dquote.

(** The body of the loop over the fields of one line. *)
Definition field_value (f : list Z) : list Z :=
  if list_Z_eqb f (lit "\N") then lit "NULL"
  else
    let s := replace [0] (lit "\")
              (replace (lit "\t") [9]
                (replace (lit "\r") [13]
                  (replace (lit "\n") [10]
                    (replace (lit "\\") [0] f)))) in
    let text := decode_utf8_replace s in
    let text := replace (lit "'") (lit "''") text in
    lit "'" ++ text ++ lit "'".

(** The SQL values of one line: [line.split(b"\t")] and the loop over
    its fields. *)
Definition row_values (line : list Z) : list (list Z) :=
  List.map field_value (split 9 line).

(** The element appended to [batch] for one line. *)
Definition row_tuple (line : list Z) : list Z :=
  lit "  (" ++ join (lit ", ") (row_values line) ++ lit ")".

Definition insert_header (table_name : list Z) (columns : list (list Z)) : list Z :=
  let cols_quoted := join (lit ", ") (List.map quoted columns) in
  lit "INSERT INTO " ++ quoted table_name ++ lit " (" ++ cols_quoted ++ lit ") VALUES".

(** [header + "\n" + ",\n".join(batch) + ";"] *)
Definition insert_statement (header : list Z) (batch : list (list Z)) : list Z :=
  header ++ [10] ++ join (lit "," ++ [10]) batch ++ lit ";".

(** The loop over [lines], on the two accumulators of the source. *)
Fixpoint insert_loop (header : list Z) (batch_size : Z) (lines : list (list Z))
    (output_parts batch : list (list Z)) : list (list Z) * list (list Z) :=
  match lines with
  | [] => (output_parts, batch)
  | line :: rest =>
      let batch := batch ++ [row_tuple line] in
      if batch_size <=? Z.of_nat (length batch)
      then insert_loop header batch_size rest
             (output_parts ++ [insert_statement header batch]) []
      else insert_loop header batch_size rest output_parts batch
  end.

(** [lines = raw.split(b"\n")] without its last element when that is empty. *)
Definition record_lines (raw : list Z) : list (list Z) :=
  let lines := split 10 raw in
  match last lines with
  | Some [] => removelast lines
  | _ => lines
  end.

Definition _copy_to_inserts (raw : list Z) (table_name : list Z)
    (columns : list (list Z)) (batch_size : Z) : list Z :=
  match raw with
  | [] => []
  | _ :: _ =>
      let header := insert_header table_name columns in
      let lines := record_lines raw in
      let '(output_parts, batch) := insert_loop header batch_size lines [] [] in
      let output_parts :=
        match batch with
        | [] => output_parts
        | _ :: _ => output_parts ++ [insert_statement header batch]
        end in
      join [10; 10] output_parts
  end.

(** ** Insert-mode chunk files (dump.py, [_build_sql_chunk]) *)

(** Truth value of [schema_ddl : str | None]. *)
Definition ddl_truthy (schema_ddl : option (list Z)) : bool :=
  match schema_ddl with
  | Some (_ :: _) => true
  | _ => false
  end.

Definition ddl_text (schema_ddl : option (list Z)) : list Z :=
  match schema_ddl with
  | Some d => d
  | None => []
  end.

(** The list [parts] at the end of [_build_sql_chunk]; [now] is the value
    of [datetime.now().isoformat()]. *)
Definition _build_sql_chunk_parts (now : list Z) (copy_data : list Z)
    (table : TableInfo.t) (settings : DumpSettings.t)
    (schema_ddl : option (list Z)) (index_defs : list (list Z * list Z))
    (is_first is_last : bool) : list (list Z) :=
  let parts := [] in
  (* header comment *)
  let parts := parts ++ [lit "-- dbtool dump: " ++ TableInfo.name table] in
  let parts := parts ++ [lit "-- generated: " ++ now] in
  let parts :=
    if is_first
    then parts ++ [lit "-- chunk: 0 (first " ++ [8212] ++ lit " includes preamble)"]
    else parts in
  let parts :=
    if is_last then parts ++ [lit "-- chunk: last (includes epilogue)"] else parts in
  let parts := parts ++ [[]] in
  (* preamble (first chunk only) *)
  let parts :=
    if is_first then
      let parts :=
        if DumpSettings.drop_on_restore settings
        then parts
               ++ [lit "DROP TABLE IF EXISTS " ++ quoted (TableInfo.name table)
                   ++ lit " CASCADE;"]
               ++ [[]]
        else parts in
      let parts :=
        if DumpSettings.recreate_schema settings && ddl_truthy schema_ddl
        then parts ++ [lit "-- schema"] ++ [ddl_text schema_ddl] ++ [[]]
        else if DumpSettings.drop_on_restore settings && ddl_truthy schema_ddl
        then parts ++ [lit "-- schema (required after DROP)"]
               ++ [ddl_text schema_ddl] ++ [[]]
        else parts in
      let parts :=
        if DumpSettings.truncate_before_restore settings
           && negb (DumpSettings.drop_on_restore settings)
        then parts
               ++ [lit "TRUNCATE TABLE " ++ quoted (TableInfo.name table)
                   ++ lit " CASCADE;"]
               ++ [[]]
        else parts in
      let parts :=
        if DumpSettings.disable_indexes_on_restore settings
           && negb (bool_decide (index_defs = []))
        then parts ++ [lit "-- drop indexes for faster bulk load"]
               ++ List.map (fun d => lit "DROP INDEX IF EXISTS " ++ quoted (fst d) ++ lit ";")
                    index_defs
               ++ [[]]
        else parts in
      parts
    else parts in
  (* transaction open *)
  let parts :=
    if DumpSettings.use_transactions settings
    then parts ++ [lit "BEGIN;"] ++ [[]]
    else parts in
  (* data *)
  let inserts :=
    _copy_to_inserts copy_data (TableInfo.name table) (TableInfo.columns table)
      (DumpSettings.insert_batch_size settings) in
  let parts := parts ++ [inserts] in
  (* transaction close *)
  let parts :=
    if DumpSettings.use_transactions settings
    then parts ++ [lit "COMMIT;"] ++ [[]]
    else parts in
  (* epilogue (last chunk only) *)
  let parts :=
    if is_last && DumpSettings.disable_indexes_on_restore settings
       && negb (bool_decide (index_defs = []))
    then parts ++ [lit "-- rebuild indexes"]
           ++ List.map (fun d => snd d ++ lit ";") index_defs
           ++ [[]]
    else parts in
  parts.

(** [_build_sql_chunk]: the parts joined by newlines and encoded; [None]
    stands for the [UnicodeEncodeError] of [encode]. *)
Definition _build_sql_chunk (now : list Z) (copy_data : list Z)
    (table : TableInfo.t) (settings : DumpSettings.t)
    (schema_ddl : option (list Z)) (index_defs : list (list Z * list Z))
    (is_first is_last : bool) : option (list Z) :=
  encode_utf8
    (join [10]
       (_build_sql_chunk_parts now copy_data table settings schema_ddl index_defs
          is_first is_last)).

(** ** Effects: a trace of calls to the outside, and exceptions *)

Inductive exn :=
  | ConnectError
  | DatabaseError
  | StorageError
  | UnicodeError
  | ZeroDivisionError
  | MarkupError
  | ValueError
  | OverflowError
  | KeyboardInterrupt.

(** [except Exception] does not catch [KeyboardInterrupt]. *)
Definition is_Exception (e : exn) : bool :=
  match e with
  | KeyboardInterrupt => false
  | _ => true
  end.

(** What [console.print] is called with; the markup is left out. *)
Inductive message :=
  | MsgSkipCompleted (table : list Z)
  | MsgResumingDump (table : list Z) (start_chunk : Z)
  | MsgSavedSchema (table : list Z)
  | MsgSchemaFailed
  | MsgIndexFetchFailed
  | MsgCounting (table : list Z)
  | MsgCount (total_rows : Z)
  | MsgEmptyTable
  | MsgDumpDone (table : list Z) (rows_dumped chunk_idx : Z)
  | MsgDumpPaused (table : list Z) (chunk_idx chunks_total : Z)
  | MsgForceStopped (table : list Z)
  | MsgDumpFailed (table : list Z)
  | MsgNoManifest
  | MsgEmptyDump (table : list Z)
  | MsgAlreadyRestored (table : list Z)
  | MsgResumingRestore (table : list Z) (start_chunk : Z)
  | MsgRestorePaused (table : list Z) (chunk_idx : Z)
  | MsgMissingChunk (file : list Z)
  | MsgRetry (chunk_idx attempt wait : Z)
  | MsgChunkFailed (chunk_idx max_retries : Z)
  | MsgRestoreDone (table : list Z) (rows_restored chunks_total : Z)
  | MsgDropped (table : list Z)
  | MsgRecreated (table : list Z)
  | MsgNoSchemaFile
  | MsgTruncated (table : list Z)
  | MsgTruncateFailed (table : list Z)
  | MsgDroppedIndex (idx_name : list Z)
  | MsgDropIndexesFailed
  | MsgRebuilding
  | MsgRebuilt (n : Z)
  | MsgRebuildFailed.

(** The catalog queries, by what they ask. *)
Inductive query :=
  | CountRows (table : list Z)
  | PkConstraintNames (schema table : list Z)
  | NonPkIndexes (schema table : list Z).

(** Files are named relative to the table directory. *)
Inductive event :=
  | ConsolePrint (m : message)
  | Mkdir
  | GetTableDDL
  | GetIndexInfo
  | WriteSchema (ddl : list Z)
  | WriteSchemaFailed
  | WriteManifest (manifest : DumpManifest.t)
  | WriteChunk (file : list Z) (data : list Z) (level : option Z)
  | WriteChunkFailed (file : list Z) (written : list Z)
  | WriteState (chunks_restored : Z)
  | Connect
  | Close
  | Commit
  | Rollback
  | Cancel
  | Query (q : query)
  | Execute (sql : list Z)
  | CopyOut (col_list order_clause : list Z) (limit offset : Z)
  | CopyIn (copy_sql : list Z) (data : list Z)
  | Sleep (secs : Z)
  | ProgressBegin (start_chunk chunks_total : Z)
  | ProgressUpdate (rows_done chunk_idx : Z)
  | ProgressEnd.

(** How a run ends: with a value, with an exception, or cut off by the
    bound on the iterations of a [while] loop. *)
Inductive result (A : Type) :=
  | Ok (a : A)
  | Raise (e : exn)
  | Fuel.
Arguments Ok {A} a.
Arguments Raise {A} e.
Arguments Fuel {A}.

Definition M (A : Type) : Type := (list event * result A)%type.

Definition ret {A} (a : A) : M A := ([], Ok a).

Definition bind {A B} (m : M A) (f : A -> M B) : M B :=
  match m with
  | (t, Ok a) => let '(t', r) := f a in (t ++ t', r)
  | (t, Raise e) => (t, Raise e)
  | (t, Fuel) => (t, Fuel)
  end.

Definition emit (e : event) : M unit := ([e], Ok tt).

Definition raise {A} (e : exn) : M A := ([], Raise e).

(** [try: body  except Exception as e: handler(e)] *)
Definition try_except {A} (body : M A) (handler : exn -> M A) : M A :=
  match body with
  | (t, Raise e) =>
      if is_Exception e then let '(t', r) := handler e in (t ++ t', r)
      else (t, Raise e)
  | _ => body
  end.

(** [try: body  except KeyboardInterrupt: handler] *)
Definition try_except_interrupt {A} (body : M A) (handler : M A) : M A :=
  match body with
  | (t, Raise KeyboardInterrupt) => let '(t', r) := handler in (t ++ t', r)
  | _ => body
  end.

(** [try: body  finally: fin] *)
Definition try_finally {A} (body : M A) (fin : M unit) : M A :=
  match body with
  | (t, Fuel) => (t, Fuel)
  | (t, r) =>
      let '(t', r') := fin in
      (t ++ t', match r' with Ok _ => r | Raise e => Raise e | Fuel => Fuel end)
  end.

Declare Scope M_scope.
Delimit Scope M_scope with M.
Notation "x <- m ;; k" := (bind m (fun x => k))
  (at level 100, m at next level, k at level 200, right associativity) : M_scope.
Notation "m ;;; k" := (bind m (fun _ => k))
  (at level 100, k at level 200, right associativity) : M_scope.
Local Open Scope M_scope.

Definition trace {A} (m : M A) : list event := fst m.
Definition outcome {A} (m : M A) : result A := snd m.

(** [range(a, b)] *)
Definition range (a b : Z) : list Z :=
  List.map (fun i => a + Z.of_nat i) (seq 0 (Z.to_nat (b - a))).

(** ** The table directory *)

(** [json.loads] of a [manifest.json]: the keys the pipelines read.  The
    keys read with [.get] may be absent. *)
Module ManifestDoc.
Record t := {
  table : list Z;
  columns : list (list Z);
  chunks_total : Z;
  total_rows : Z;
  chunk_rows : Z;
  compressed : option bool;
  dump_mode : option (list Z);
  has_schema : option bool;
  schema : option (list Z);
  finished_at : option (list Z);
  chunks_completed : option Z
}.
End ManifestDoc.

(** The document read back from what [_write_manifest] wrote. *)
Definition doc_of_manifest (m : DumpManifest.t) : ManifestDoc.t :=
  {| ManifestDoc.table := DumpManifest.table m;
     ManifestDoc.columns := DumpManifest.columns m;
     ManifestDoc.chunks_total := DumpManifest.chunks_total m;
     ManifestDoc.total_rows := DumpManifest.total_rows m;
     ManifestDoc.chunk_rows := DumpManifest.chunk_rows m;
     ManifestDoc.compressed := Some (DumpManifest.compressed m);
     ManifestDoc.dump_mode := Some (DumpManifest.dump_mode m);
     ManifestDoc.has_schema := Some (DumpManifest.has_schema m);
     ManifestDoc.schema := Some (DumpManifest.schema m);
     ManifestDoc.finished_at := DumpManifest.finished_at m;
     ManifestDoc.chunks_completed := Some (DumpManifest.chunks_completed m) |}.

(** The files of one table directory.  [restore_state_json] is
    [Some None] for a state document without the key [chunks_restored].
    [chunk_files] maps a chunk file name to what reading it returns (after
    decompression when the file is compressed). *)
Record TableDir := {
  manifest_json : option ManifestDoc.t;
  schema_sql : option (list Z);
  restore_state_json : option (option Z);
  chunk_files : gmap (list Z) (list Z)
}.

(** The effect of one event on the table directory. *)
Definition apply_event (d : TableDir) (e : event) : TableDir :=
  match e with
  | WriteSchema ddl =>
      {| manifest_json := manifest_json d; schema_sql := Some ddl;
         restore_state_json := restore_state_json d; chunk_files := chunk_files d |}
  | WriteManifest m =>
      {| manifest_json := Some (doc_of_manifest m); schema_sql := schema_sql d;
         restore_state_json := restore_state_json d; chunk_files := chunk_files d |}
  | WriteChunk file data _ =>
      {| manifest_json := manifest_json d; schema_sql := schema_sql d;
         restore_state_json := restore_state_json d;
         chunk_files := <[file := data]> (chunk_files d) |}
  | WriteChunkFailed file written =>
      {| manifest_json := manifest_json d; schema_sql := schema_sql d;
         restore_state_json := restore_state_json d;
         chunk_files := <[file := written]> (chunk_files d) |}
  | WriteState n =>
      {| manifest_json := manifest_json d; schema_sql := schema_sql d;
         restore_state_json := Some (Some n); chunk_files := chunk_files d |}
  | _ => d
  end.

Definition apply_events (d : TableDir) (t : list event) : TableDir :=
  fold_left apply_event t d.

(** ** The dump pipeline (dump.py) *)

Module DBConfig.
Record t := {
  name : list Z;
  host : list Z;
  port : Z;
  user : list Z;
  password : list Z;
  databases : list (list Z)
}.
End DBConfig.

Inductive copy_outcome :=
  | CopyData (raw : list Z)
  | CopyFails
  | CopyInterrupted.

Inductive write_outcome :=
  | WriteOk
  | WriteFails (written : list Z).

Inductive probe_outcome (A : Type) :=
  | ProbeConnectFails
  | ProbeQueryFails
  | ProbeOk (a : A).
Arguments ProbeConnectFails {A}.
Arguments ProbeQueryFails {A}.
Arguments ProbeOk {A} a.

(** What the outside answers during one run of [dump_table]. *)
Record DumpEnv := {
  (** [get_table_ddl]; [None] when it raises *)
  ddl_result : option (list Z);
  schema_write_ok : bool;
  (** [get_index_info]; [None] when it raises *)
  index_info : option (list (list Z * list Z * bool));
  pk_names_result : probe_outcome (list (list Z));
  dump_connect_ok : bool;
  (** [SELECT count( * )]; [None] when it raises *)
  count_result : option Z;
  (** the flag [interrupted] when the loop condition reads it *)
  dump_interrupted_at : Z -> bool;
  (** the flag [interrupted] after the loop *)
  dump_interrupted_end : bool;
  copy_result : Z -> copy_outcome;
  chunk_write : Z -> write_outcome;
  (** [datetime.now().isoformat()] in [_make_manifest], in the header of
      a chunk, and at the end *)
  now_manifest : list Z;
  now_chunk : Z -> list Z;
  now_finished : list Z
}.

Definition _make_manifest (now : list Z) (db_cfg : DBConfig.t) (dbname : list Z)
    (table : TableInfo.t) (settings : DumpSettings.t)
    (total_rows chunks_completed chunks_total : Z)
    (has_schema finished : bool) : DumpManifest.t :=
  {| DumpManifest.connection_name := DBConfig.name db_cfg;
     DumpManifest.database := dbname;
     DumpManifest.table := TableInfo.name table;
     DumpManifest.schema := TableInfo.schema table;
     DumpManifest.columns := TableInfo.columns table;
     DumpManifest.pk_columns := TableInfo.pk_columns table;
     DumpManifest.chunk_rows := DumpSettings.chunk_rows settings;
     DumpManifest.total_rows := total_rows;
     DumpManifest.chunks_completed := chunks_completed;
     DumpManifest.chunks_total := chunks_total;
     DumpManifest.started_at := now;
     DumpManifest.finished_at := if finished then Some now else None;
     DumpManifest.compressed := DumpSettings.compress settings;
     DumpManifest.dump_mode := DumpSettings.dump_mode settings;
     DumpManifest.has_schema := has_schema |}.

(** [_write_manifest] as an event on the table directory; its file
    operations are [_write_manifest_ops] below. *)
Definition _write_manifest (manifest : DumpManifest.t) : M unit :=
  emit (WriteManifest manifest).

(** The count of records of a copy buffer, as [dump_table] and
    [_count_rows_for_mode] compute it. *)
Definition count_records (raw : list Z) : Z :=
  let n := count [10] raw in
  match raw with
  | [] => n
  | _ :: _ => if negb (endswith 10 raw) then n + 1 else n
  end.

Section Dump.
Variable env : DumpEnv.
Variable db_cfg : DBConfig.t.
Variable dbname : list Z.
Variable table : TableInfo.t.
Variable settings : DumpSettings.t.

(** The schema step: the value of [(schema_ddl, has_schema)] after it.
    [schema_ddl] is assigned before [schema.sql] is written. *)
Definition dump_schema_step : M (option (list Z) * bool) :=
  if DumpSettings.dump_schema settings then
    emit GetTableDDL ;;;
    match ddl_result env with
    | None => emit (ConsolePrint MsgSchemaFailed) ;;; ret (None, false)
    | Some schema_ddl =>
        if schema_write_ok env then
          emit (WriteSchema schema_ddl) ;;;
          emit (ConsolePrint (MsgSavedSchema (TableInfo.name table))) ;;;
          ret (Some schema_ddl, true)
        else
          emit WriteSchemaFailed ;;;
          emit (ConsolePrint MsgSchemaFailed) ;;;
          ret (Some schema_ddl, false)
    end
  else ret (None, false).

(** The index step: the value of [index_defs] after it. *)
Definition dump_index_step : M (list (list Z * list Z)) :=
  if list_Z_eqb (DumpSettings.dump_mode settings) (lit "insert")
     && DumpSettings.disable_indexes_on_restore settings
  then
    try_except
      (emit GetIndexInfo ;;;
       raw_indexes <- match index_info env with
                      | None => raise DatabaseError
                      | Some r => ret r
                      end ;;
       emit Connect ;;;
       pk_names <- match pk_names_result env with
                   | ProbeConnectFails => raise ConnectError
                   | ProbeQueryFails =>
                       try_finally
                         (emit (Query (PkConstraintNames (TableInfo.schema table)
                                         (TableInfo.name table))) ;;;
                          raise DatabaseError)
                         (emit Close)
                   | ProbeOk names =>
                       try_finally
                         (emit (Query (PkConstraintNames (TableInfo.schema table)
                                         (TableInfo.name table))) ;;;
                          ret names)
                         (emit Close)
                   end ;;
       ret (List.map (fun r => (fst (fst r), snd (fst r)))
              (List.filter
                 (fun r => negb (bool_decide (fst (fst r) ∈ pk_names)))
                 raw_indexes)))
      (fun _ => emit (ConsolePrint MsgIndexFetchFailed) ;;; ret [])
  else ret [].

Variable schema_ddl : option (list Z).
Variable index_defs : list (list Z * list Z).
Variable start_chunk : Z.
Variable chunks_total : Z.
Variable chunk_rows : Z.
Variable col_list order_clause : list Z.

(** One turn of the [while] loop: the new [rows_dumped], [chunk_idx]
    and [manifest]. *)
Definition dump_chunk (chunk_idx rows_dumped : Z) (manifest : DumpManifest.t)
    : M (Z * Z * DumpManifest.t) :=
  let offset := chunk_idx * chunk_rows in
  let chunk_file := DumpManifest.chunk_filename manifest chunk_idx in
  emit (CopyOut col_list order_clause chunk_rows offset) ;;;
  raw <- match copy_result env chunk_idx with
         | CopyData raw => ret raw
         | CopyFails => raise DatabaseError
         | CopyInterrupted => emit Cancel ;;; raise KeyboardInterrupt
         end ;;
  let chunk_row_count := count_records raw in
  raw <- (if list_Z_eqb (DumpSettings.dump_mode settings) (lit "insert") then
            let is_first := (chunk_idx =? 0) && (start_chunk =? 0) in
            let is_last := chunk_idx =? chunks_total - 1 in
            match _build_sql_chunk (now_chunk env chunk_idx) raw table settings
                    schema_ddl index_defs is_first is_last with
            | Some b => ret b
            | None => raise UnicodeError
            end
          else ret raw) ;;
  match chunk_write env chunk_idx with
  | WriteOk =>
      emit (WriteChunk chunk_file raw
              (if DumpSettings.compress settings
               then Some (DumpSettings.compress_level settings) else None))
  | WriteFails written =>
      emit (WriteChunkFailed chunk_file written) ;;; raise StorageError
  end ;;;
  let rows_dumped := rows_dumped + chunk_row_count in
  let chunk_idx := chunk_idx + 1 in
  let manifest := DumpManifest.set_chunks_completed manifest chunk_idx in
  _write_manifest manifest ;;;
  emit (ProgressUpdate rows_dumped chunk_idx) ;;;
  ret (rows_dumped, chunk_idx, manifest).

(** [while chunk_idx < chunks_total and not interrupted], at most
    [fuel] turns. *)
Fixpoint dump_loop (fuel : nat) (chunk_idx rows_dumped : Z)
    (manifest : DumpManifest.t) : M (Z * Z * DumpManifest.t) :=
  if (chunk_idx <? chunks_total) && negb (dump_interrupted_at env chunk_idx) then
    match fuel with
    | O => ([], Fuel)
    | S fuel' =>
        st <- dump_chunk chunk_idx rows_dumped manifest ;;
        dump_loop fuel' (snd (fst st)) (fst (fst st)) (snd st)
    end
  else ret (rows_dumped, chunk_idx, manifest).
End Dump.

(** The part of [dump_table] under [with conn.cursor() as cur]. *)
Definition dump_with_cursor (env : DumpEnv) (db_cfg : DBConfig.t) (dbname : list Z)
    (table : TableInfo.t) (settings : DumpSettings.t)
    (schema_ddl : option (list Z)) (has_schema : bool)
    (index_defs : list (list Z * list Z)) (start_chunk : Z) : M unit :=
  emit (ConsolePrint (MsgCounting (TableInfo.name table))) ;;;
  emit (Query (CountRows (TableInfo.name table))) ;;;
  total_rows <- match count_result env with
                | Some n => ret n
                | None => raise DatabaseError
                end ;;
  emit (ConsolePrint (MsgCount total_rows)) ;;;
  if total_rows =? 0 then
    emit (ConsolePrint MsgEmptyTable) ;;;
    _write_manifest
      (_make_manifest (now_manifest env) db_cfg dbname table settings 0 0 0
         has_schema true)
  else
    let chunk_rows := DumpSettings.chunk_rows settings in
    chunks_total <- (if chunk_rows =? 0 then raise ZeroDivisionError
                     else ret ((total_rows + chunk_rows - 1) / chunk_rows)) ;;
    let manifest :=
      _make_manifest (now_manifest env) db_cfg dbname table settings total_rows
        start_chunk chunks_total has_schema false in
    let order_clause :=
      match TableInfo.pk_columns table with
      | [] => lit "ctid"
      | _ :: _ => join (lit ", ") (List.map quoted (TableInfo.pk_columns table))
      end in
    let col_list := join (lit ", ") (List.map quoted (TableInfo.columns table)) in
    emit (ProgressBegin start_chunk chunks_total) ;;;
    st <- try_finally
            (let chunk_idx := start_chunk in
             let rows_dumped := start_chunk * chunk_rows in
             dump_loop env table settings schema_ddl index_defs start_chunk
               chunks_total chunk_rows col_list order_clause
               (Z.to_nat (chunks_total - start_chunk))
               chunk_idx rows_dumped manifest)
            (emit ProgressEnd) ;;
    let rows_dumped := fst (fst st) in
    let chunk_idx := snd (fst st) in
    let manifest := snd st in
    if negb (dump_interrupted_end env) then
      let manifest := DumpManifest.set_finished_at manifest (now_finished env) in
      _write_manifest manifest ;;;
      emit (ConsolePrint (MsgDumpDone (TableInfo.name table) rows_dumped chunk_idx))
    else
      emit (ConsolePrint (MsgDumpPaused (TableInfo.name table) chunk_idx chunks_total)).

(** [dump_table]; [existing] is the parsed [manifest.json] of the table
    directory when the file exists. *)
Definition dump_table (env : DumpEnv) (existing : option ManifestDoc.t)
    (db_cfg : DBConfig.t) (dbname : list Z) (table : TableInfo.t)
    (settings : DumpSettings.t) (resume : bool) : M unit :=
  emit Mkdir ;;;
  start <- match (if resume then existing else None) with
           | Some existing =>
               match ManifestDoc.finished_at existing with
               | Some (_ :: _) =>
                   emit (ConsolePrint (MsgSkipCompleted (TableInfo.name table))) ;;;
                   ret None
               | _ =>
                   let start_chunk :=
                     default 0 (ManifestDoc.chunks_completed existing) in
                   (if start_chunk >? 0
                    then emit (ConsolePrint (MsgResumingDump (TableInfo.name table) start_chunk))
                    else ret tt) ;;;
                   ret (Some start_chunk)
               end
           | None => ret (Some 0)
           end ;;
  match start with
  | None => ret tt
  | Some start_chunk =>
      sd <- dump_schema_step env table settings ;;
      let schema_ddl := fst sd in
      let has_schema := snd sd in
      index_defs <- dump_index_step env table settings ;;
      emit Connect ;;;
      (if dump_connect_ok env then ret tt else raise ConnectError) ;;;
      try_finally
        (try_except
           (try_except_interrupt
              (dump_with_cursor env db_cfg dbname table settings schema_ddl
                 has_schema index_defs start_chunk)
              (emit (ConsolePrint (MsgForceStopped (TableInfo.name table))) ;;;
               raise KeyboardInterrupt))
           (fun e =>
              emit (ConsolePrint (MsgDumpFailed (TableInfo.name table))) ;;; raise e))
        (emit Close)
  end.

(** ** The restore pipeline (restore.py) *)

(** What the database does with one attempt to apply a chunk. *)
Inductive apply_outcome :=
  | ConnectFails
  | ExecuteFails
  | CommitFails
  | Succeeds.

Definition connects (o : apply_outcome) : bool :=
  match o with ConnectFails => false | _ => true end.
Definition executes (o : apply_outcome) : bool :=
  match o with ExecuteFails => false | _ => true end.
Definition commits (o : apply_outcome) : bool :=
  match o with CommitFails => false | _ => true end.

(** What the outside answers during one run of [restore_table]. *)
Record RestoreEnv := {
  (** the flag [interrupted] at the top of the loop body *)
  restore_interrupted_at : Z -> bool;
  (** the flag [interrupted] after the loop *)
  restore_interrupted_end : bool;
  (** by chunk index and attempt number *)
  apply_result : Z -> Z -> apply_outcome;
  (** by chunk index and attempt number: whether the console accepts the
      text of the exception of the attempt inside the markup of a message;
      it does not when the text holds a closing tag that matches no open
      tag *)
  error_markup_ok : Z -> Z -> bool;
  pre_connect_ok : bool;
  pre_drop_ok : bool;
  pre_schema_ok : bool;
  pre_truncate_ok : bool;
  idx_connect_ok : bool;
  (** the rows [(indexname, indexdef)]; [None] when the query raises *)
  idx_rows : option (list (list Z * list Z));
  (** the position of the first [DROP INDEX] that raises, when one does *)
  idx_drop_fails_at : option nat;
  idx_commit_ok : bool;
  rebuild_connect_ok : bool;
  (** the position of the first [CREATE INDEX] that raises, when one does *)
  rebuild_fails_at : option nat;
  rebuild_commit_ok : bool
}.

(** [s.decode("utf-8")]: [None] stands for [UnicodeDecodeError].  A byte
    string is well formed exactly when the replacing decoder changed
    nothing, that is when its result encodes back to the same bytes. *)
Definition decode_utf8 (s : list Z) : option (list Z) :=
  let text := decode_utf8_replace s in
  if list_Z_eqb (utf8_bytes text) s then Some text else None.

Definition _count_rows_for_mode (raw_data : list Z) (dump_mode : list Z) : Z :=
  if list_Z_eqb dump_mode (lit "insert")
  then count (lit "(") raw_data - count (lit "INSERT") raw_data
  else
    let n := count [10] raw_data in
    match raw_data with
    | [] => n
    | _ :: _ => if negb (endswith 10 raw_data) then n + 1 else n
    end.

Definition ensure (ok : bool) (e : exn) : M unit :=
  if ok then ret tt else raise e.

Section Restore.
Variable env : RestoreEnv.
Variable dir : TableDir.
Variable settings : DumpSettings.t.

Definition _pre_restore (table_name : list Z) (has_schema : bool) : M unit :=
  emit Connect ;;;
  ensure (pre_connect_ok env) ConnectError ;;;
  try_finally
    ((if DumpSettings.drop_on_restore settings then
        emit (Execute (lit "DROP TABLE IF EXISTS " ++ quoted table_name
                       ++ lit " CASCADE")) ;;;
        ensure (pre_drop_ok env) DatabaseError ;;;
        emit Commit ;;;
        emit (ConsolePrint (MsgDropped table_name))
      else ret tt) ;;;
     (if DumpSettings.recreate_schema settings && has_schema then
        match schema_sql dir with
        | Some ddl =>
            emit (Execute ddl) ;;;
            ensure (pre_schema_ok env) DatabaseError ;;;
            emit Commit ;;;
            emit (ConsolePrint (MsgRecreated table_name))
        | None => emit (ConsolePrint MsgNoSchemaFile)
        end
      else ret tt) ;;;
     (if DumpSettings.truncate_before_restore settings
         && negb (DumpSettings.drop_on_restore settings)
      then
        try_except
          (emit (Execute (lit "TRUNCATE TABLE " ++ quoted table_name
                          ++ lit " CASCADE")) ;;;
           ensure (pre_truncate_ok env) DatabaseError ;;;
           emit Commit ;;;
           emit (ConsolePrint (MsgTruncated table_name)))
          (fun _ =>
             emit Rollback ;;;
             emit (ConsolePrint (MsgTruncateFailed table_name)))
      else ret tt))
    (emit Close).

(** The loop of [_drop_non_pk_indexes] from position [i] on: the events,
    the list [definitions] so far, and whether a [DROP INDEX] raised. *)
Fixpoint drop_index_loop (schema : list Z) (rows : list (list Z * list Z))
    (i : nat) (definitions : list (list Z)) : list event * list (list Z) * bool :=
  match rows with
  | [] => ([], definitions, true)
  | (idx_name, idx_def) :: rest =>
      let definitions := definitions ++ [idx_def] in
      let drop := Execute (lit "DROP INDEX IF EXISTS " ++ quoted schema ++ lit "."
                           ++ quoted idx_name) in
      if bool_decide (idx_drop_fails_at env = Some i)
      then ([drop], definitions, false)
      else
        let '(t, defs, ok) := drop_index_loop schema rest (S i) definitions in
        (drop :: ConsolePrint (MsgDroppedIndex idx_name) :: t, defs, ok)
  end.

Definition _drop_non_pk_indexes (table_name schema : list Z) : M (list (list Z)) :=
  emit Connect ;;;
  ensure (idx_connect_ok env) ConnectError ;;;
  try_finally
    (match idx_rows env with
     | None =>
         ([Query (NonPkIndexes schema table_name);
           ConsolePrint MsgDropIndexesFailed; Rollback], Ok [])
     | Some rows =>
         let '(t, definitions, ok) := drop_index_loop schema rows O [] in
         if ok && idx_commit_ok env
         then (Query (NonPkIndexes schema table_name) :: t ++ [Commit],
               Ok definitions)
         else (Query (NonPkIndexes schema table_name) :: t
                 ++ (if ok then [Commit] else [])
                 ++ [ConsolePrint MsgDropIndexesFailed; Rollback],
               Ok definitions)
     end)
    (emit Close).

(** The loop of [_rebuild_indexes] from position [i] on. *)
Fixpoint rebuild_loop (definitions : list (list Z)) (i : nat) : M unit :=
  match definitions with
  | [] => ret tt
  | defn :: rest =>
      emit (ConsolePrint MsgRebuilding) ;;;
      emit (Execute defn) ;;;
      ensure (negb (bool_decide (rebuild_fails_at env = Some i))) DatabaseError ;;;
      rebuild_loop rest (S i)
  end.

Definition _rebuild_indexes (definitions : list (list Z)) : M unit :=
  emit Connect ;;;
  ensure (rebuild_connect_ok env) ConnectError ;;;
  try_finally
    (try_except
       (rebuild_loop definitions O ;;;
        emit Commit ;;;
        ensure (rebuild_commit_ok env) DatabaseError ;;;
        emit (ConsolePrint (MsgRebuilt (Z.of_nat (length definitions)))))
       (fun _ => emit (ConsolePrint MsgRebuildFailed) ;;; emit Rollback))
    (emit Close).

Variable table_name : list Z.
Variable col_list : list Z.
Variable dump_mode : list Z.

(** One attempt: the body of the outer [try] of the retry loop, up to
    the [break]. *)
Definition apply_attempt (chunk_idx attempt : Z) (raw_data : list Z) : M unit :=
  let o := apply_result env chunk_idx attempt in
  emit Connect ;;;
  ensure (connects o) ConnectError ;;;
  try_finally
    (try_except
       ((if list_Z_eqb dump_mode (lit "insert") then
           sql <- match decode_utf8 raw_data with
                  | Some sql => ret sql
                  | None => raise UnicodeError
                  end ;;
           emit (Execute sql)
         else
           let copy_sql :=
             lit "COPY " ++ quoted table_name ++ lit " (" ++ col_list
             ++ lit ") FROM STDIN" in
           emit (CopyIn copy_sql raw_data)) ;;;
        ensure (executes o) DatabaseError ;;;
        (if DumpSettings.use_transactions settings
         then emit Commit
         else emit Commit) ;;;
        ensure (commits o) DatabaseError)
       (fun e => emit Rollback ;;; raise e))
    (emit Close).

(** [console.print] of a message that holds the text of an exception
    between the tags [[warning]] or [[error]] and [[/]]: the text is read
    as markup with the rest, and [console.print] raises [MarkupError],
    printing nothing, when the text does not go through. *)
Definition print_with_error (markup_ok : bool) (m : message) : M unit :=
  if markup_ok then emit (ConsolePrint m) else raise MarkupError.

(** The longest sleep, in seconds: [time.sleep] counts nanoseconds in a
    signed integer of 64 bits. *)
Definition sleep_max : Z := 9223372036.

(** [time.sleep(secs)] for an [int]: [OverflowError] when the length
    does not fit, [ValueError] when it is negative. *)
Definition time_sleep (secs : Z) : M unit :=
  if (secs <? - sleep_max) || (sleep_max <? secs) then raise OverflowError
  else if secs <? 0 then raise ValueError
  else emit (Sleep secs).

(** The clause [except Exception as e] of the retry loop: [None] when
    the loop goes on to the next attempt.  An exception of the clause
    itself leaves the loop in place of [e]. *)
Definition retry_handler (chunk_idx attempt : Z) (e : exn) : M (option Z) :=
  if attempt <? DumpSettings.max_retries settings then
    let wait := DumpSettings.retry_backoff settings ^ attempt in
    print_with_error (error_markup_ok env chunk_idx attempt)
      (MsgRetry chunk_idx attempt wait) ;;;
    time_sleep wait ;;;
    ret None
  else
    print_with_error (error_markup_ok env chunk_idx attempt)
      (MsgChunkFailed chunk_idx (DumpSettings.max_retries settings)) ;;;
    emit (WriteState chunk_idx) ;;;
    raise e.

(** [for attempt in range(1, max_retries + 1)] over the attempts still
    to make: the value of [rows_restored] after the loop. *)
Fixpoint apply_with_retry (attempts : list Z) (chunk_idx : Z) (raw_data : list Z)
    (chunk_row_count rows_restored : Z) : M Z :=
  match attempts with
  | [] => ret rows_restored
  | attempt :: rest =>
      r <- try_except
             (apply_attempt chunk_idx attempt raw_data ;;;
              ret (Some (rows_restored + chunk_row_count)))
             (retry_handler chunk_idx attempt) ;;
      match r with
      | Some rows_restored => ret rows_restored
      | None => apply_with_retry rest chunk_idx raw_data chunk_row_count rows_restored
      end
  end.

Variable compressed : bool.

(** How the loop over the chunks is left. *)
Inductive loop_exit := LoopDone | LoopBreak | LoopReturn.

(** [for chunk_idx in range(start_chunk, chunks_total)] over the
    indices still to visit. *)
Fixpoint restore_loop (idxs : list Z) (rows_restored : Z) : M (loop_exit * Z) :=
  match idxs with
  | [] => ret (LoopDone, rows_restored)
  | chunk_idx :: rest =>
      if restore_interrupted_at env chunk_idx then
        emit (ConsolePrint (MsgRestorePaused table_name chunk_idx)) ;;;
        ret (LoopBreak, rows_restored)
      else
        let chunk_file :=
      restore_chunk_filename table_name dump_mode compressed chunk_idx in
    match chunk_files dir !! chunk_file with
        | None =>
            emit (ConsolePrint (MsgMissingChunk chunk_file)) ;;;
            ret (LoopReturn, rows_restored)
        | Some raw_data =>
            let chunk_row_count := _count_rows_for_mode raw_data dump_mode in
            rows_restored <-
              apply_with_retry (range 1 (DumpSettings.max_retries settings + 1))
                chunk_idx raw_data chunk_row_count rows_restored ;;
            emit (WriteState (chunk_idx + 1)) ;;;
            emit (ProgressUpdate rows_restored (chunk_idx + 1)) ;;;
            restore_loop rest rows_restored
        end
  end.
End Restore.

(** [restore_table] from the point where [start_chunk] is known. *)
Definition restore_from (env : RestoreEnv) (dir : TableDir)
    (settings : DumpSettings.t) (manifest : ManifestDoc.t) (start_chunk : Z)
    : M unit :=
  let table_name := ManifestDoc.table manifest in
  let columns := ManifestDoc.columns manifest in
  let compressed := default true (ManifestDoc.compressed manifest) in
  let chunks_total := ManifestDoc.chunks_total manifest in
  let chunk_rows := ManifestDoc.chunk_rows manifest in
  let dump_mode := default (lit "copy") (ManifestDoc.dump_mode manifest) in
  let has_schema := default false (ManifestDoc.has_schema manifest) in
  (if start_chunk =? 0
   then _pre_restore env dir settings table_name has_schema
   else ret tt) ;;;
  dropped_indexes <-
    (if DumpSettings.disable_indexes_on_restore settings && (start_chunk =? 0)
     then _drop_non_pk_indexes env table_name
            (default (lit "public") (ManifestDoc.schema manifest))
     else ret []) ;;
  let col_list := join (lit ", ") (List.map quoted columns) in
  let rows_restored := start_chunk * chunk_rows in
  emit (ProgressBegin start_chunk chunks_total) ;;;
  r <- try_finally
         (restore_loop env dir settings table_name col_list dump_mode
            compressed (range start_chunk chunks_total) rows_restored)
         (emit ProgressEnd) ;;
  match fst r with
  | LoopReturn => ret tt
  | _ =>
      let rows_restored := snd r in
      (if negb (bool_decide (dropped_indexes = []))
          && negb (restore_interrupted_end env)
       then _rebuild_indexes env dropped_indexes
       else ret tt) ;;;
      (if negb (restore_interrupted_end env)
       then emit (ConsolePrint (MsgRestoreDone table_name rows_restored chunks_total))
       else ret tt)
  end.

Definition restore_table (env : RestoreEnv) (dir : TableDir)
    (settings : DumpSettings.t) : M unit :=
  match manifest_json dir with
  | None => emit (ConsolePrint MsgNoManifest)
  | Some manifest =>
      let table_name := ManifestDoc.table manifest in
      let chunks_total := ManifestDoc.chunks_total manifest in
      let total_rows := ManifestDoc.total_rows manifest in
      if total_rows =? 0 then emit (ConsolePrint (MsgEmptyDump table_name))
      else
        start <- match restore_state_json dir with
                 | Some state =>
                     let start_chunk := default 0 state in
                     if start_chunk >=? chunks_total then
                       emit (ConsolePrint (MsgAlreadyRestored table_name)) ;;; ret None
                     else
                       (if start_chunk >? 0
                        then emit (ConsolePrint (MsgResumingRestore table_name start_chunk))
                        else ret tt) ;;;
                       ret (Some start_chunk)
                 | None => ret (Some 0)
                 end ;;
        match start with
        | None => ret tt
        | Some start_chunk => restore_from env dir settings manifest start_chunk
        end
  end.

(** ** Writing the manifest file (dump.py, [_write_manifest]) *)

Inductive json :=
  | JNull
  | JBool (b : bool)
  | JInt (n : Z)
  | JStr (s : list Z)
  | JList (items : list json)
  | JDict (items : list (list Z * json)).

(** [dataclasses.asdict(manifest)] *)
Definition asdict (m : DumpManifest.t) : json :=
  JDict
    [ (lit "connection_name", JStr (DumpManifest.connection_name m));
      (lit "database", JStr (DumpManifest.database m));
      (lit "table", JStr (DumpManifest.table m));
      (lit "schema", JStr (DumpManifest.schema m));
      (lit "columns", JList (List.map JStr (DumpManifest.columns m)));
      (lit "pk_columns", JList (List.map JStr (DumpManifest.pk_columns m)));
      (lit "chunk_rows", JInt (DumpManifest.chunk_rows m));
      (lit "total_rows", JInt (DumpManifest.total_rows m));
      (lit "chunks_completed", JInt (DumpManifest.chunks_completed m));
      (lit "chunks_total", JInt (DumpManifest.chunks_total m));
      (lit "started_at", JStr (DumpManifest.started_at m));
      (lit "finished_at",
        match DumpManifest.finished_at m with
        | Some s => JStr s
        | None => JNull
        end);
      (lit "compressed", JBool (DumpManifest.compressed m));
      (lit "dump_mode", JStr (DumpManifest.dump_mode m));
      (lit "has_schema", JBool (DumpManifest.has_schema m)) ].

Definition hex_digit (n : Z) : Z := if n <? 10 then 48 + n else 87 + n.

(** [format(n, "04x")] for [0 <= n < 65536] *)
Definition hex4 (n : Z) : list Z :=
  [hex_digit (n / 4096 mod 16); hex_digit (n / 256 mod 16);
   hex_digit (n / 16 mod 16); hex_digit (n mod 16)].

(** The replacement of one character in a JSON string with
    [ensure_ascii]. *)
Definition json_escape_char (c : Z) : list Z :=
  if c =? 34 then lit "\" ++ dquote
  else if c =? 92 then lit "\\"
  else if c =? 10 then lit "\n"
  else if c =? 13 then lit "\r"
  else if c =? 9 then lit "\t"
  else if c =? 8 then lit "\b"
  else if c =? 12 then lit "\f"
  else if (32 <=? c) && (c <=? 126) then [c]
  else if c <? 65536 then lit "\u" ++ hex4 c
  else
    let n := c - 65536 in
    lit "\u" ++ hex4 (55296 + n / 1024 mod 1024)
    ++ lit "\u" ++ hex4 (56320 + n mod 1024).

Definition json_string (s : list Z) : list Z :=
  dquote ++ List.flat_map json_escape_char s ++ dquote.

Definition spaces (n : nat) : list Z := List.repeat 32 n.

(** [json.dumps(j, indent=indent)] at nesting depth [level]. *)
Fixpoint json_dumps (indent level : nat) (j : json) : list Z :=
  match j with
  | JNull => lit "null"
  | JBool true => lit "true"
  | JBool false => lit "false"
  | JInt n => py_str_int n
  | JStr s => json_string s
  | JList [] => lit "[]"
  | JList items =>
      let nl := [10] ++ spaces (indent * S level) in
      lit "[" ++ nl
      ++ join (lit "," ++ nl) (List.map (json_dumps indent (S level)) items)
      ++ [10] ++ spaces (indent * level) ++ lit "]"
  | JDict [] => lit "{}"
  | JDict items =>
      let nl := [10] ++ spaces (indent * S level) in
      lit "{" ++ nl
      ++ join (lit "," ++ nl)
           (List.map
              (fun kv =>
                 match kv with
                 | (k, v) => json_string k ++ lit ": " ++ json_dumps indent (S level) v
                 end)
              items)
      ++ [10] ++ spaces (indent * level) ++ lit "}"
  end.

(** The operations on files that a reader of the directory can see
    between. *)
Inductive fs_op :=
  | OpenTruncate (path : list Z)
  | WriteAll (path : list Z) (data : list Z)
  | CloseFile (path : list Z)
  | Rename (src dst : list Z).

(** [Path.write_text(data)]: open the file for writing, which empties
    it, write, and close. *)
Definition write_text (path data : list Z) : list fs_op :=
  [OpenTruncate path; WriteAll path data; CloseFile path].

(** The file operations of [_write_manifest(path, manifest)]. *)
Definition _write_manifest_ops (path : list Z) (manifest : DumpManifest.t)
    : list fs_op :=
  write_text path (json_dumps 2 0 (asdict manifest)).

Definition fs_step (fs : gmap (list Z) (list Z)) (op : fs_op)
    : gmap (list Z) (list Z) :=
  match op with
  | OpenTruncate path => <[path := []]> fs
  | WriteAll path data => <[path := default [] (fs !! path) ++ data]> fs
  | CloseFile _ => fs
  | Rename src dst =>
      match fs !! src with
      | Some data => <[dst := data]> (delete src fs)
      | None => fs
      end
  end.

(** The states of the file system a reader can see while [ops] run: the
    one before and the one after each operation. *)
Fixpoint fs_states (fs : gmap (list Z) (list Z)) (ops : list fs_op)
    : list (gmap (list Z) (list Z)) :=
  match ops with
  | [] => [fs]
  | op :: rest => fs :: fs_states (fs_step fs op) rest
  end.

(** ** The copy text format and SQL string literals, as the
    specification words them *)

(** The escape of one byte of a field in copy text output. *)
Definition copy_escape_byte (b : Z) : list Z :=
  if b =? 92 then lit "\\"
  else if b =? 10 then lit "\n"
  else if b =? 13 then lit "\r"
  else if b =? 9 then lit "\t"
  else [b].

(** One field: [None] is SQL NULL, [Some v] a text value. *)
Definition copy_field (v : option (list Z)) : list Z :=
  match v with
  | None => lit "\N"
  | Some s => List.flat_map copy_escape_byte (utf8_bytes s)
  end.

(** One record: the fields separated by tabs, ended by a newline. *)
Definition copy_record (row : list (option (list Z))) : list Z :=
  join [9] (List.map copy_field row) ++ [10].

Definition copy_text (rows : list (list (option (list Z)))) : list Z :=
  List.concat (List.map copy_record rows).

(** The body of a SQL string literal up to its closing quote: a doubled
    quote stands for one quote. *)
Fixpoint sql_string_body (s : list Z) : option (list Z) :=
  match s with
  | [] => None
  | c :: rest =>
      if c =? 39 then
        match rest with
        | [] => Some []
        | c' :: rest' =>
            if c' =? 39
            then option_map (cons 39) (sql_string_body rest')
            else None
        end
      else option_map (cons c) (sql_string_body rest)
  end.

(** The value a SQL value expression of the converter denotes: the
    keyword NULL, or a string literal. *)
Definition sql_value_parse (s : list Z) : option (option (list Z)) :=
  if list_Z_eqb s (lit "NULL") then Some None
  else match s with
       | 39 :: body => option_map Some (sql_string_body body)
       | _ => None
       end.

(** The least integer [n] with [n * d >= a]: the ceiling of [a / d]. *)
Definition is_ceil_div (a d n : Z) : Prop :=
  a <= n * d /\ forall k, a <= k * d -> n <= k.


(** The value of a string of decimal digits. *)
Definition dec_value (s : list Z) : Z :=
  fold_left (fun acc c => 10 * acc + (c - 48)) s 0.

Definition is_digit (c : Z) : bool := (48 <=? c) && (c <=? 57).

(** ** Sample data: the table [t(id, s)] of the end-to-end scenarios *)

Definition sample_db : DBConfig.t :=
  {| DBConfig.name := lit "local"; DBConfig.host := lit "localhost";
     DBConfig.port := 5432; DBConfig.user := lit "postgres";
     DBConfig.password := lit "secret"; DBConfig.databases := [lit "index"] |}.

Definition sample_table : TableInfo.t :=
  {| TableInfo.schema := lit "public"; TableInfo.name := lit "t";
     TableInfo.row_estimate := 3; TableInfo.size_bytes := 8192;
     TableInfo.total_size_bytes := 16384;
     TableInfo.columns := [lit "id"; lit "s"];
     TableInfo.pk_columns := [lit "id"] |}.

(** Settings with [chunk_rows=2], [compress=false], [insert_batch_size=2],
    [use_transactions=true], three attempts and base two, and the rest
    as given. *)
Definition sample_settings (dump_mode : list Z)
    (truncate_before_restore drop_on_restore recreate_schema
     disable_indexes_on_restore : bool) : DumpSettings.t :=
  {| DumpSettings.dump_dir := lit "dumps"; DumpSettings.chunk_rows := 2;
     DumpSettings.compress := false; DumpSettings.compress_level := 6;
     DumpSettings.dump_mode := dump_mode; DumpSettings.dump_schema := true;
     DumpSettings.insert_batch_size := 2;
     DumpSettings.use_transactions := true;
     DumpSettings.truncate_before_restore := truncate_before_restore;
     DumpSettings.drop_on_restore := drop_on_restore;
     DumpSettings.recreate_schema := recreate_schema;
     DumpSettings.disable_indexes_on_restore := disable_indexes_on_restore;
     DumpSettings.max_retries := 3; DumpSettings.retry_backoff := 2 |}.

Definition sample_manifest : DumpManifest.t :=
  _make_manifest (lit "2024-01-01T00:00:00") sample_db (lit "index") sample_table
    (sample_settings (lit "copy") true false false false) 3 0 2 true false.


(** A text value of the database in UTF-8: scalar values only. *)
Definition valid_text (s : list Z) : Prop :=
  Forall (fun c => is_scalar c = true) s.


(** The copy buffer of the first chunk of the sample table: the records
    [1<TAB>a] and [2<TAB>b]. *)
Definition sample_copy_data : list Z :=
  lit "1" ++ [9] ++ lit "a" ++ [10] ++ lit "2" ++ [9] ++ lit "b" ++ [10].



(** A row whose one text field is the single character U+0000. *)
Definition nul_row : list (option (list Z)) := [Some [0]].

(** A row with a NULL and the text [O'Reilly], a newline, [line2]. *)
Definition oreilly_row : list (option (list Z)) :=
  [None; Some (lit "O'Reilly" ++ [10] ++ lit "line2")].

(** ** The layout of an insert-mode chunk, section by section *)

Definition section_header (now : list Z) (table : TableInfo.t)
    (is_first is_last : bool) : list (list Z) :=
  [lit "-- dbtool dump: " ++ TableInfo.name table; lit "-- generated: " ++ now]
  ++ (if is_first
      then [lit "-- chunk: 0 (first " ++ [8212] ++ lit " includes preamble)"]
      else [])
  ++ (if is_last then [lit "-- chunk: last (includes epilogue)"] else [])
  ++ [[]].

Definition section_drop_table (table : TableInfo.t) (settings : DumpSettings.t)
    : list (list Z) :=
  if DumpSettings.drop_on_restore settings
  then [lit "DROP TABLE IF EXISTS " ++ quoted (TableInfo.name table)
        ++ lit " CASCADE;"; []]
  else [].

(** The schema section under the condition [cond]. *)
Definition section_schema_when (cond : bool) (settings : DumpSettings.t)
    (schema_ddl : option (list Z)) : list (list Z) :=
  if cond
  then [if DumpSettings.recreate_schema settings
        then lit "-- schema" else lit "-- schema (required after DROP)";
        ddl_text schema_ddl; []]
  else [].

Definition section_truncate (table : TableInfo.t) (settings : DumpSettings.t)
    : list (list Z) :=
  if DumpSettings.truncate_before_restore settings
     && negb (DumpSettings.drop_on_restore settings)
  then [lit "TRUNCATE TABLE " ++ quoted (TableInfo.name table) ++ lit " CASCADE;"; []]
  else [].

Definition section_drop_indexes (settings : DumpSettings.t)
    (index_defs : list (list Z * list Z)) : list (list Z) :=
  match index_defs with
  | [] => []
  | _ :: _ =>
      if DumpSettings.disable_indexes_on_restore settings
      then [lit "-- drop indexes for faster bulk load"]
           ++ List.map (fun d => lit "DROP INDEX IF EXISTS " ++ quoted (fst d) ++ lit ";")
                index_defs
           ++ [[]]
      else []
  end.

Definition section_rebuild_indexes (settings : DumpSettings.t)
    (index_defs : list (list Z * list Z)) : list (list Z) :=
  match index_defs with
  | [] => []
  | _ :: _ =>
      if DumpSettings.disable_indexes_on_restore settings
      then [lit "-- rebuild indexes"]
           ++ List.map (fun d => snd d ++ lit ";") index_defs
           ++ [[]]
      else []
  end.

(** The layout of a chunk when the schema section is present under
    [schema_cond]. *)
Definition chunk_layout (schema_cond : bool) (now copy_data : list Z)
    (table : TableInfo.t) (settings : DumpSettings.t)
    (schema_ddl : option (list Z)) (index_defs : list (list Z * list Z))
    (is_first is_last : bool) : list (list Z) :=
  section_header now table is_first is_last
  ++ (if is_first
      then section_drop_table table settings
           ++ section_schema_when schema_cond settings schema_ddl
           ++ section_truncate table settings
           ++ section_drop_indexes settings index_defs
      else [])
  ++ (if DumpSettings.use_transactions settings then [lit "BEGIN;"; []] else [])
  ++ [_copy_to_inserts copy_data (TableInfo.name table) (TableInfo.columns table)
        (DumpSettings.insert_batch_size settings)]
  ++ (if DumpSettings.use_transactions settings then [lit "COMMIT;"; []] else [])
  ++ (if is_last then section_rebuild_indexes settings index_defs else []).

(** One non-PK index of the sample table. *)
Definition sample_index_defs : list (list Z * list Z) :=
  [(lit "t_s_idx", lit "CREATE INDEX t_s_idx ON public.t USING btree (s)")].

(** The sample manifest after its first chunk, and a directory that
    holds the sample manifest as first written. *)
Definition sample_manifest_next : DumpManifest.t :=
  DumpManifest.set_chunks_completed sample_manifest 1.

(** [settings] with another value of [use_transactions]. *)
Definition with_use_transactions (b : bool) (s : DumpSettings.t) : DumpSettings.t :=
  {| DumpSettings.dump_dir := DumpSettings.dump_dir s;
     DumpSettings.chunk_rows := DumpSettings.chunk_rows s;
     DumpSettings.compress := DumpSettings.compress s;
     DumpSettings.compress_level := DumpSettings.compress_level s;
     DumpSettings.dump_mode := DumpSettings.dump_mode s;
     DumpSettings.dump_schema := DumpSettings.dump_schema s;
     DumpSettings.insert_batch_size := DumpSettings.insert_batch_size s;
     DumpSettings.use_transactions := b;
     DumpSettings.truncate_before_restore := DumpSettings.truncate_before_restore s;
     DumpSettings.drop_on_restore := DumpSettings.drop_on_restore s;
     DumpSettings.recreate_schema := DumpSettings.recreate_schema s;
     DumpSettings.disable_indexes_on_restore := DumpSettings.disable_indexes_on_restore s;
     DumpSettings.max_retries := DumpSettings.max_retries s;
     DumpSettings.retry_backoff := DumpSettings.retry_backoff s |}.

Definition sample_fs : gmap (list Z) (list Z) :=
  {[ lit "manifest.json" := json_dumps 2 0 (asdict sample_manifest) ]}.

(** The keys of the manifest document, in the order of the fields. *)
Definition manifest_keys : list (list Z) :=
  [ lit "connection_name"; lit "database"; lit "table"; lit "schema";
    lit "columns"; lit "pk_columns"; lit "chunk_rows"; lit "total_rows";
    lit "chunks_completed"; lit "chunks_total"; lit "started_at";
    lit "finished_at"; lit "compressed"; lit "dump_mode"; lit "has_schema" ].

Definition json_keys (j : json) : list (list Z) :=
  match j with
  | JDict items => List.map fst items
  | _ => []
  end.

(** A restore environment in which nothing is interrupted, the hooks
    succeed, and the attempts to apply a chunk end as [apply] says. *)
Definition restore_env_with (apply : Z -> Z -> apply_outcome) : RestoreEnv :=
  {| restore_interrupted_at := fun _ => false;
     restore_interrupted_end := false;
     apply_result := apply;
     error_markup_ok := fun _ _ => true;
     pre_connect_ok := true; pre_drop_ok := true; pre_schema_ok := true;
     pre_truncate_ok := true; idx_connect_ok := true; idx_rows := Some [];
     idx_drop_fails_at := None; idx_commit_ok := true;
     rebuild_connect_ok := true; rebuild_fails_at := None;
     rebuild_commit_ok := true |}.

(** A restore environment in which every attempt to apply a chunk fails
    in the database with an error whose text the console does not take. *)
Definition restore_env_markup : RestoreEnv :=
  {| restore_interrupted_at := fun _ => false;
     restore_interrupted_end := false;
     apply_result := fun _ _ => ExecuteFails;
     error_markup_ok := fun _ _ => false;
     pre_connect_ok := true; pre_drop_ok := true; pre_schema_ok := true;
     pre_truncate_ok := true; idx_connect_ok := true; idx_rows := Some [];
     idx_drop_fails_at := None; idx_commit_ok := true;
     rebuild_connect_ok := true; rebuild_fails_at := None;
     rebuild_commit_ok := true |}.

(** The sample settings of a restore that runs no step before the loop,
    with [retry_backoff] as given. *)
Definition sample_settings_backoff (retry_backoff : Z) : DumpSettings.t :=
  {| DumpSettings.dump_dir := lit "dumps"; DumpSettings.chunk_rows := 2;
     DumpSettings.compress := false; DumpSettings.compress_level := 6;
     DumpSettings.dump_mode := lit "copy"; DumpSettings.dump_schema := true;
     DumpSettings.insert_batch_size := 2;
     DumpSettings.use_transactions := true;
     DumpSettings.truncate_before_restore := false;
     DumpSettings.drop_on_restore := false;
     DumpSettings.recreate_schema := false;
     DumpSettings.disable_indexes_on_restore := false;
     DumpSettings.max_retries := 3; DumpSettings.retry_backoff := retry_backoff |}.

(** The directory of a dump of an empty table. *)
Definition sample_empty_dir : TableDir :=
  {| manifest_json :=
       Some (doc_of_manifest
               (_make_manifest (lit "2024-01-01T00:00:00") sample_db (lit "index")
                  sample_table (sample_settings (lit "copy") true false false false)
                  0 0 0 true true));
     schema_sql := None;
     restore_state_json := None;
     chunk_files := ∅ |}.

(** The directory of the copy-mode dump of the sample table: two chunks. *)
Definition sample_dir : TableDir :=
  {| manifest_json :=
       Some (doc_of_manifest
               (DumpManifest.set_finished_at
                  (DumpManifest.set_chunks_completed sample_manifest 2)
                  (lit "2024-01-01T00:00:05")));
     schema_sql := None;
     restore_state_json := None;
     chunk_files :=
       {[ lit "t_chunk_000000.csv" := sample_copy_data;
          lit "t_chunk_000001.csv" := lit "3" ++ [9] ++ lit "c" ++ [10] ]} |}.

(** ** Classes of events *)

Definition is_Connect (e : event) : bool :=
  match e with Connect => true | _ => false end.

(** The number of connections opened in a trace. *)
Definition connections (t : list event) : nat :=
  length (List.filter is_Connect t).

(** The events of a restore: it writes no file but its own state. *)
Definition restore_event (e : event) : bool :=
  match e with
  | WriteSchema _ | WriteSchemaFailed | WriteManifest _
  | WriteChunk _ _ _ | WriteChunkFailed _ _ | Mkdir
  | GetTableDDL | GetIndexInfo | CopyOut _ _ _ _ | Cancel => false
  | _ => true
  end.

(** The report of a chunk that failed on its last attempt. *)
Definition is_chunk_failed (e : event) : bool :=
  match e with ConsolePrint (MsgChunkFailed _ _) => true | _ => false end.

(** What follows one failed attempt [i] on chunk [k] when the clause
    [except] raises nothing of its own: a wait before the next attempt,
    or the state write after the last one. *)
Definition after_failed_attempt (settings : DumpSettings.t) (k i : Z) : list event :=
  if i <? DumpSettings.max_retries settings
  then [ConsolePrint (MsgRetry k i (DumpSettings.retry_backoff settings ^ i));
        Sleep (DumpSettings.retry_backoff settings ^ i)]
  else [ConsolePrint (MsgChunkFailed k (DumpSettings.max_retries settings)); WriteState k].

(** The failed attempt [i] on chunk [k] can be reported and waited for:
    the console takes the text of its error, and below the last attempt
    [retry_backoff ** i] is a length [time.sleep] accepts. *)
Definition reportable (env : RestoreEnv) (settings : DumpSettings.t) (k i : Z)
    : Prop :=
  error_markup_ok env k i = true
  /\ (i < DumpSettings.max_retries settings ->
      0 <= DumpSettings.retry_backoff settings ^ i <= sleep_max).

(** ** What the manifest writes of a dump record *)

(** [manifests_ok P prev d t]: every manifest write of the trace [t]
    satisfies [P] of the event just before it and of the table directory
    at that moment.  [prev] is the event before [t] and [d] the directory
    before [t]. *)
Fixpoint manifests_ok (P : option event -> TableDir -> DumpManifest.t -> Prop)
    (prev : option event) (d : TableDir) (t : list event) : Prop :=
  match t with
  | [] => True
  | e :: t' =>
      match e with
      | WriteManifest m => P prev d m
      | _ => True
      end
      /\ manifests_ok P (Some e) (apply_event d e) t'
  end.

(** A manifest [m] written by a dump that starts at chunk [start_chunk];
    [prev] is the event before the write and [d] the directory at that
    moment.  A manifest without [finished_at] is a progress write of the
    loop: it comes right after the complete write of the chunk file it
    records.  The manifest of a table without rows has all counts zero. *)
Definition manifest_write_ok (start_chunk : Z) (prev : option event)
    (d : TableDir) (m : DumpManifest.t) : Prop :=
  let file :=
    DumpManifest.chunk_filename m (DumpManifest.chunks_completed m - 1) in
  (DumpManifest.finished_at m = None ->
   start_chunk < DumpManifest.chunks_completed m <= DumpManifest.chunks_total m
   /\ exists data level,
        prev = Some (WriteChunk file data level)
        /\ chunk_files d !! file = Some data)
  /\ (DumpManifest.total_rows m = 0
      /\ DumpManifest.chunks_completed m = 0
      /\ DumpManifest.chunks_total m = 0
      \/ start_chunk <= DumpManifest.chunks_completed m
                     <= Z.max start_chunk (DumpManifest.chunks_total m)
         /\ (start_chunk < DumpManifest.chunks_completed m ->
             is_Some (chunk_files d !! file))).

(** The manifest writes of [t] are as [P] says wherever [t] comes in a
    run. *)
Definition manifests_closed
    (P : option event -> TableDir -> DumpManifest.t -> Prop) (t : list event)
    : Prop :=
  forall prev d, manifests_ok P prev d t.

(** Every complete write of a chunk file is followed at once by a write
    of the manifest. *)
Fixpoint chunks_recorded (t : list event) : Prop :=
  match t with
  | [] => True
  | e :: t' =>
      match e with
      | WriteChunk _ _ _ =>
          match t' with
          | WriteManifest _ :: _ => True
          | _ => False
          end
      | _ => True
      end
      /\ chunks_recorded t'
  end.

(** Whether [dump_table] returns at once because the dump is complete. *)
Definition dump_skipped (resume : bool) (existing : option ManifestDoc.t) : bool :=
  match (if resume then existing else None) with
  | Some existing =>
      match ManifestDoc.finished_at existing with
      | Some (_ :: _) => true
      | _ => false
      end
  | None => false
  end.

(** The chunk index a dump starts from. *)
Definition dump_start_chunk (resume : bool) (existing : option ManifestDoc.t) : Z :=
  match (if resume then existing else None) with
  | Some existing => default 0 (ManifestDoc.chunks_completed existing)
  | None => 0
  end.

Definition is_chunk_write (e : event) : bool :=
  match e with
  | WriteChunk _ _ _ | WriteChunkFailed _ _ => true
  | _ => false
  end.

(** A dump environment in which nothing fails and nothing interrupts:
    the table has [n] rows and [copy] is what the server sends for each
    chunk. *)
Definition dump_env_with (n : Z) (copy : Z -> list Z) : DumpEnv :=
  {| ddl_result := Some (lit "CREATE TABLE IF NOT EXISTS t (id integer, s text);");
     schema_write_ok := true;
     index_info := Some [];
     pk_names_result := ProbeOk [];
     dump_connect_ok := true;
     count_result := Some n;
     dump_interrupted_at := fun _ => false;
     dump_interrupted_end := false;
     copy_result := fun i => CopyData (copy i);
     chunk_write := fun _ => WriteOk;
     now_manifest := lit "2024-01-01T00:00:00";
     now_chunk := fun _ => lit "2024-01-01T00:00:01";
     now_finished := lit "2024-01-01T00:00:05" |}.

(** The copy buffers of the two chunks of the sample table. *)
Definition sample_copy (i : Z) : list Z :=
  if i =? 0 then sample_copy_data else lit "3" ++ [9] ++ lit "c" ++ [10].

(** The manifest left by a dump of the sample table that stopped after
    five of six chunks, when the table had twelve rows; and a directory
    that holds this manifest and no chunk file. *)
Definition sample_manifest_five : ManifestDoc.t :=
  doc_of_manifest
    (_make_manifest (lit "2024-01-01T00:00:00") sample_db (lit "index") sample_table
       (sample_settings (lit "copy") true false false false) 12 5 6 true false).

Definition sample_dir_five : TableDir :=
  {| manifest_json := Some sample_manifest_five; schema_sql := None;
     restore_state_json := None; chunk_files := ∅ |}.

(** An empty table directory. *)
Definition empty_dir : TableDir :=
  {| manifest_json := None; schema_sql := None; restore_state_json := None;
     chunk_files := ∅ |}.

(** ** More of the code: definitions *)

(** The chain of replacements that undoes the copy escapes of one field
    (dump.py, [_copy_to_inserts], the assignment of [s]). *)
Definition copy_unescape (f : list Z) : list Z :=
  replace [0] (lit "\")
    (replace (lit "\t") [9]
      (replace (lit "\r") [13]
        (replace (lit "\n") [10]
          (replace (lit "\\") [0] f)))).

(** ** Classes of restore events *)

(** What [_pre_restore], [_drop_non_pk_indexes] and [_rebuild_indexes]
    print. *)
Definition pre_message (m : message) : bool :=
  match m with
  | MsgDropped _ | MsgRecreated _ | MsgNoSchemaFile | MsgTruncated _
  | MsgTruncateFailed _ => true
  | _ => false
  end.

Definition drop_message (m : message) : bool :=
  match m with
  | MsgDroppedIndex _ | MsgDropIndexesFailed => true
  | _ => false
  end.

Definition rebuild_message (m : message) : bool :=
  match m with
  | MsgRebuilding | MsgRebuilt _ | MsgRebuildFailed => true
  | _ => false
  end.

Definition hook_message (m : message) : bool :=
  pre_message m || drop_message m || rebuild_message m.

(** The events of a step that runs statements on a connection of its
    own and prints the messages [msgs]. *)
Definition hook_event (msgs : message -> bool) (e : event) : bool :=
  match e with
  | Connect | Close | Commit | Rollback | Execute _ | Query _ => true
  | ConsolePrint m => msgs m
  | _ => false
  end.

(** The events of the attempts to apply one chunk; [insert] tells
    whether the dump is in insert mode. *)
Definition retry_event (insert : bool) (e : event) : bool :=
  match e with
  | Connect | Close | Commit | Rollback | Sleep _ | WriteState _ => true
  | Execute _ => insert
  | CopyIn _ _ => negb insert
  | ConsolePrint (MsgRetry _ _ _) | ConsolePrint (MsgChunkFailed _ _) => true
  | _ => false
  end.

(** The events of the loop over the chunks of [restore_table]. *)
Definition loop_event (insert : bool) (e : event) : bool :=
  match e with
  | ProgressUpdate _ _
  | ConsolePrint (MsgRestorePaused _ _) | ConsolePrint (MsgMissingChunk _) => true
  | _ => retry_event insert e
  end.

(** The report of a chunk file that is not there. *)
Definition is_missing_chunk (e : event) : bool :=
  match e with ConsolePrint (MsgMissingChunk _) => true | _ => false end.

(** The value of [chunks_restored] a restore starts from. *)
Definition restore_start_chunk (dir : TableDir) : Z :=
  match restore_state_json dir with
  | Some state => default 0 state
  | None => 0
  end.

(** The final manifest of the copy-mode dump of the sample table, and
    its directory after a restore that stopped after the first chunk. *)
Definition sample_manifest_done : DumpManifest.t :=
  DumpManifest.set_finished_at
    (DumpManifest.set_chunks_completed sample_manifest 2)
    (lit "2024-01-01T00:00:05").

Definition sample_dir_resumed : TableDir :=
  {| manifest_json := manifest_json sample_dir;
     schema_sql := schema_sql sample_dir;
     restore_state_json := Some (Some 1);
     chunk_files := chunk_files sample_dir |}.

(** The directory of the sample dump without its second chunk file. *)
Definition sample_dir_incomplete : TableDir :=
  {| manifest_json := manifest_json sample_dir;
     schema_sql := schema_sql sample_dir;
     restore_state_json := None;
     chunk_files := {[ lit "t_chunk_000000.csv" := sample_copy_data ]} |}.

(** The sample settings in copy mode with another value of
    [max_retries]. *)
Definition sample_settings_retries (max_retries : Z) : DumpSettings.t :=
  {| DumpSettings.dump_dir := lit "dumps"; DumpSettings.chunk_rows := 2;
     DumpSettings.compress := false; DumpSettings.compress_level := 6;
     DumpSettings.dump_mode := lit "copy"; DumpSettings.dump_schema := true;
     DumpSettings.insert_batch_size := 2;
     DumpSettings.use_transactions := true;
     DumpSettings.truncate_before_restore := true;
     DumpSettings.drop_on_restore := false;
     DumpSettings.recreate_schema := false;
     DumpSettings.disable_indexes_on_restore := false;
     DumpSettings.max_retries := max_retries; DumpSettings.retry_backoff := 2 |}.

(** ** Classes of dump events *)

Definition is_copy_out (e : event) : bool :=
  match e with CopyOut _ _ _ _ => true | _ => false end.

Definition is_copy_in (e : event) : bool :=
  match e with CopyIn _ _ => true | _ => false end.

(** The events of [dump_table] before its loop: they write neither a
    chunk file nor the manifest nor the restore state, and extract no
    rows. *)
Definition prepare_event (e : event) : bool :=
  match e with
  | WriteManifest _ | WriteChunk _ _ _ | WriteChunkFailed _ _ | WriteState _
  | CopyOut _ _ _ _ | CopyIn _ _ => false
  | _ => true
  end.

(** The records counted in the copy buffers of the chunks [a], ...,
    [b - 1]. *)
Definition rows_through (copy : Z -> list Z) (a b : Z) : Z :=
  fold_right Z.add 0 (List.map (fun i => count_records (copy i)) (range a b)).

(** [order_clause] and [col_list] of [dump_table]. *)
Definition order_clause_of (table : TableInfo.t) : list Z :=
  match TableInfo.pk_columns table with
  | [] => lit "ctid"
  | _ :: _ => join (lit ", ") (List.map quoted (TableInfo.pk_columns table))
  end.

Definition col_list_of (columns : list (list Z)) : list Z :=
  join (lit ", ") (List.map quoted columns).

(** The events of one turn of the loop of [dump_table] in copy mode when
    nothing fails: chunk [i] holds [data] and [rows_dumped] rows are
    dumped after it. *)
Definition chunk_turn (table : TableInfo.t) (settings : DumpSettings.t)
    (manifest : DumpManifest.t) (i : Z) (data : list Z) (rows_dumped : Z)
    : list event :=
  [ CopyOut (col_list_of (TableInfo.columns table)) (order_clause_of table)
      (DumpSettings.chunk_rows settings) (i * DumpSettings.chunk_rows settings);
    WriteChunk (DumpManifest.chunk_filename manifest i) data
      (if DumpSettings.compress settings
       then Some (DumpSettings.compress_level settings) else None);
    WriteManifest (DumpManifest.set_chunks_completed manifest (i + 1));
    ProgressUpdate rows_dumped (i + 1) ].

(** The statement [copy_sql] of [restore_table]. *)
Definition copy_in_sql (table_name : list Z) (columns : list (list Z)) : list Z :=
  lit "COPY " ++ quoted table_name ++ lit " (" ++ col_list_of columns
  ++ lit ") FROM STDIN".

(** The events of one turn of the loop of [restore_table] in copy mode
    when the first attempt succeeds: chunk [i] holds [data] and
    [rows_restored] rows are restored after it. *)
Definition restore_turn (table_name : list Z) (columns : list (list Z))
    (i : Z) (data : list Z) (rows_restored : Z) : list event :=
  [ Connect; CopyIn (copy_in_sql table_name columns) data; Commit; Close;
    WriteState (i + 1); ProgressUpdate rows_restored (i + 1) ].

(** ** The interrupt flag (ui.py) *)

(** The module globals behind the two-stage interrupt: [interrupted]
    and [_interrupt_count] of ui.py, and the name [interrupted] that
    [from .ui import interrupted] binds in dump.py, in restore.py and in
    cli.py. *)
Record Globals := {
  ui_interrupted : bool;
  ui_interrupt_count : Z;
  dump_interrupted : bool;
  restore_interrupted : bool;
  cli_interrupted : bool
}.

(** What [_signal_handler] prints. *)
Inductive ui_message :=
  | MsgInterruptWarning
  | MsgForceQuit.

(** [_signal_handler(sig, frame)]: the globals after it, what it prints
    and how it ends.  Its [global] statement names the globals of ui.py. *)
Definition _signal_handler (g : Globals) : Globals * list ui_message * result unit :=
  let count := ui_interrupt_count g + 1 in
  if count =? 1 then
    ({| ui_interrupted := true; ui_interrupt_count := count;
        dump_interrupted := dump_interrupted g;
        restore_interrupted := restore_interrupted g;
        cli_interrupted := cli_interrupted g |},
     [MsgInterruptWarning], Ok tt)
  else
    ({| ui_interrupted := ui_interrupted g; ui_interrupt_count := count;
        dump_interrupted := dump_interrupted g;
        restore_interrupted := restore_interrupted g;
        cli_interrupted := cli_interrupted g |},
     [MsgForceQuit], Raise KeyboardInterrupt).

(** [reset_interrupt()] *)
Definition reset_interrupt (g : Globals) : Globals :=
  {| ui_interrupted := false; ui_interrupt_count := 0;
     dump_interrupted := dump_interrupted g;
     restore_interrupted := restore_interrupted g;
     cli_interrupted := cli_interrupted g |}.

(** The module body of ui.py: [interrupted = False] and
    [_interrupt_count = 0]. *)
Definition import_ui (g : Globals) : Globals :=
  {| ui_interrupted := false; ui_interrupt_count := 0;
     dump_interrupted := dump_interrupted g;
     restore_interrupted := restore_interrupted g;
     cli_interrupted := cli_interrupted g |}.

(** [from .ui import interrupted] in dump.py, restore.py and cli.py: the
    name is bound to the value the flag has at that moment. *)
Definition import_dump (g : Globals) : Globals :=
  {| ui_interrupted := ui_interrupted g; ui_interrupt_count := ui_interrupt_count g;
     dump_interrupted := ui_interrupted g;
     restore_interrupted := restore_interrupted g;
     cli_interrupted := cli_interrupted g |}.

Definition import_restore (g : Globals) : Globals :=
  {| ui_interrupted := ui_interrupted g; ui_interrupt_count := ui_interrupt_count g;
     dump_interrupted := dump_interrupted g;
     restore_interrupted := ui_interrupted g;
     cli_interrupted := cli_interrupted g |}.

Definition import_cli (g : Globals) : Globals :=
  {| ui_interrupted := ui_interrupted g; ui_interrupt_count := ui_interrupt_count g;
     dump_interrupted := dump_interrupted g;
     restore_interrupted := restore_interrupted g;
     cli_interrupted := ui_interrupted g |}.

(** The imports at the top of cli.py, in their order: dump.py (which
    imports ui.py first), restore.py, and the names of cli.py itself. *)
Definition program_start (g : Globals) : Globals :=
  import_cli (import_restore (import_dump (import_ui g))).

(** What happens to the flag while the program runs: a SIGINT is
    delivered, or a flow calls [reset_interrupt]. *)
Inductive interrupt_op :=
  | OpSigint
  | OpReset.

Definition run_op (g : Globals) (op : interrupt_op) : Globals :=
  match op with
  | OpSigint => fst (fst (_signal_handler g))
  | OpReset => reset_interrupt g
  end.

Definition run_ops (g : Globals) (ops : list interrupt_op) : Globals :=
  fold_left run_op ops g.

(** ** The status column of the dump listings (cli.py, [_restore_status]) *)

(** [_restore_status(t_dir, m)]; [None] stands for the [KeyError] of
    [m['chunks_completed']]. *)
Definition _restore_status (dir : TableDir) (m : ManifestDoc.t) : option (list Z) :=
  match restore_state_json dir with
  | Some rstate =>
      let restored := default 0 rstate in
      if restored >=? ManifestDoc.chunks_total m
      then Some ([10003] ++ lit " restored")
      else Some ([8635] ++ lit " restored " ++ py_str_int restored ++ lit "/"
                 ++ py_str_int (ManifestDoc.chunks_total m))
  | None =>
      match ManifestDoc.finished_at m with
      | Some (_ :: _) => Some ([10003] ++ lit " dumped")
      | _ =>
          match ManifestDoc.chunks_completed m with
          | Some chunks_completed =>
              Some ([9208] ++ lit " " ++ py_str_int chunks_completed ++ lit "/"
                    ++ py_str_int (ManifestDoc.chunks_total m))
          | None => None
          end
      end
  end.

(** The directory of the sample dump after a complete restore. *)
Definition sample_dir_restored : TableDir :=
  {| manifest_json := manifest_json sample_dir;
     schema_sql := schema_sql sample_dir;
     restore_state_json := Some (Some 2);
     chunk_files := chunk_files sample_dir |}.

(** ** The schema DDL (db.py, [get_table_ddl]) *)

(** One row of the column query of [get_table_ddl]: [attname], the
    formatted type, [attnotnull] and the default expression. *)
Record ColumnRow := {
  col_name : list Z;
  col_dtype : list Z;
  col_notnull : bool;
  col_default : option (list Z)
}.

(** The element appended to [col_defs] for one row. *)
Definition column_def (c : ColumnRow) : list Z :=
  let parts := [lit "    " ++ quoted (col_name c) ++ lit " " ++ col_dtype c] in
  let parts :=
    match col_default c with
    | Some (_ :: _) => parts ++ [lit "DEFAULT " ++ default [] (col_default c)]
    | _ => parts
    end in
  let parts := if col_notnull c then parts ++ [lit "NOT NULL"] else parts in
  join (lit " ") parts.

(** The text [get_table_ddl] returns for the rows [cols] of the column
    query and the rows [indexdefs] of the index query. *)
Definition table_ddl (table : TableInfo.t) (cols : list ColumnRow)
    (indexdefs : list (list Z)) : list Z :=
  let col_defs := List.map column_def cols in
  let pk_clause :=
    match TableInfo.pk_columns table with
    | [] => []
    | _ :: _ =>
        lit "," ++ [10] ++ lit "    PRIMARY KEY ("
        ++ join (lit ", ") (List.map quoted (TableInfo.pk_columns table)) ++ lit ")"
    end in
  let schema_prefix :=
    if list_Z_eqb (TableInfo.schema table) (lit "public") then []
    else quoted (TableInfo.schema table) ++ lit "." in
  let ddl :=
    lit "CREATE TABLE IF NOT EXISTS " ++ schema_prefix ++ quoted (TableInfo.name table)
    ++ lit " (" ++ [10] in
  let ddl := ddl ++ join (lit "," ++ [10]) col_defs in
  let ddl := ddl ++ pk_clause in
  let ddl := ddl ++ [10] ++ lit ");" ++ [10] in
  fold_left (fun ddl indexdef => ddl ++ (indexdef ++ lit ";" ++ [10])) indexdefs ddl.

(** The rows of the column query for the sample table. *)
Definition sample_columns : list ColumnRow :=
  [ {| col_name := lit "id"; col_dtype := lit "integer"; col_notnull := true;
       col_default := None |};
    {| col_name := lit "s"; col_dtype := lit "text"; col_notnull := false;
       col_default := Some (lit "'x'::text") |} ].

(** * Properties *)

(** ** Integer formatting *)

Lemma uint_chars_length (u : Decimal.uint) :
  length (uint_chars u) = Decimal.nb_digits u.
Proof. induction u; simpl; congruence. Qed.

Lemma uint_chars_inj (u u' : Decimal.uint) :
  uint_chars u = uint_chars u' -> u = u'.
Proof.
  revert u'; induction u; intros u' H; destruct u'; simpl in H;
    try discriminate; try reflexivity;
    injection H as H; f_equal; auto.
Qed.

Lemma uint_chars_digits (u : Decimal.uint) :
  Forall (fun c => is_digit c = true) (uint_chars u).
Proof. induction u; simpl; constructor; auto. Qed.

Lemma of_uint_zero_pad (w : nat) (n : N) :
  N.of_uint (zero_pad w (N.to_uint n)) = n.
Proof.
  unfold zero_pad.
  rewrite <- DecimalN.Unsigned.of_uint_norm, DecimalFacts.unorm_iter_D0.
  rewrite DecimalN.Unsigned.of_uint_norm. apply DecimalN.Unsigned.of_to.
Qed.

Lemma format_0d_inj (w : nat) (i j : Z) :
  format_0d w i = format_0d w j -> i = j.
Proof.
  unfold format_0d. intros H.
  destruct (Z.ltb_spec i 0) as [Hi|Hi], (Z.ltb_spec j 0) as [Hj|Hj].
  - injection H as H. apply uint_chars_inj in H.
    apply (f_equal N.of_uint) in H. rewrite !of_uint_zero_pad in H. lia.
  - exfalso. pose proof (uint_chars_digits (zero_pad w (N.to_uint (Z.to_N j)))) as D.
    rewrite <- H in D. inversion D as [|? ? Hd]. discriminate Hd.
  - exfalso. pose proof (uint_chars_digits (zero_pad w (N.to_uint (Z.to_N i)))) as D.
    rewrite H in D. inversion D as [|? ? Hd]. discriminate Hd.
  - apply uint_chars_inj in H.
    apply (f_equal N.of_uint) in H. rewrite !of_uint_zero_pad in H. lia.
Qed.

Lemma dec_value_acc (d : Decimal.uint) (acc : positive) :
  fold_left (fun a c => 10 * a + (c - 48)) (uint_chars d) (Zpos acc)
  = Zpos (Pos.of_uint_acc d acc).
Proof.
  revert acc; induction d; intros acc; simpl; try reflexivity;
    rewrite <- IHd; f_equal; lia.
Qed.

Lemma dec_value_uint (d : Decimal.uint) :
  dec_value (uint_chars d) = Z.of_N (N.of_uint d).
Proof.
  unfold dec_value, N.of_uint.
  induction d; simpl; try reflexivity; try exact IHd; apply dec_value_acc.
Qed.

Lemma of_uint_acc_lower (d : Decimal.uint) (acc : positive) :
  Zpos acc * 10 ^ Z.of_nat (Decimal.nb_digits d) <= Zpos (Pos.of_uint_acc d acc).
Proof.
  revert acc; induction d; intros acc;
    [ simpl; lia
    | cbn [Decimal.nb_digits Pos.of_uint_acc];
      rewrite Nat2Z.inj_succ, Z.pow_succ_r by lia;
      assert (0 <= 10 ^ Z.of_nat (Decimal.nb_digits d))
        by (apply Z.pow_nonneg; lia);
      etransitivity; [| apply IHd]; nia .. ].
Qed.

Lemma to_uint_normal (n : N) : Decimal.unorm (N.to_uint n) = N.to_uint n.
Proof.
  rewrite <- DecimalN.Unsigned.to_of, DecimalN.Unsigned.of_to. reflexivity.
Qed.

Lemma nb_digits_bound (n : N) (k : nat) :
  (Z.of_N n < 10 ^ Z.of_nat (S k)) -> (Decimal.nb_digits (N.to_uint n) <= S k)%nat.
Proof.
  intros Hn.
  pose proof (to_uint_normal n) as Hnorm.
  pose proof (DecimalN.Unsigned.of_to n) as Hval.
  destruct (N.to_uint n) as [|l|l|l|l|l|l|l|l|l|l] eqn:E;
    [ simpl; lia
    | destruct l;
      [ simpl; lia
      | exfalso; rewrite DecimalFacts.unorm_D0 in Hnorm;
        match type of Hnorm with
        | Decimal.unorm ?x = _ =>
            assert (Hnil : x <> Decimal.Nil) by discriminate;
            pose proof (DecimalFacts.nb_digits_unorm x Hnil) as Hle;
            rewrite Hnorm in Hle; simpl in Hle; lia
        end .. ]
    | .. ].
  all: unfold N.of_uint in Hval; cbn [Pos.of_uint] in Hval.
  all: match type of Hval with
       | N.pos (Pos.of_uint_acc ?l ?a) = _ =>
           pose proof (of_uint_acc_lower l a) as Hlow
       end.
  all: cbn [Decimal.nb_digits].
  all: destruct (Nat.le_gt_cases (Decimal.nb_digits l) k) as [|Hgt]; [lia|exfalso].
  all: assert (Hp : 10 ^ Z.of_nat (S k) <= 10 ^ Z.of_nat (Decimal.nb_digits l))
         by (apply Z.pow_le_mono_r; lia).
  all: rewrite <- Hval in Hn; cbn [Z.of_N] in Hn.
  all: assert (0 < 10 ^ Z.of_nat (Decimal.nb_digits l)) by (apply Z.pow_pos_nonneg; lia).
  all: nia.
Qed.

Lemma zero_pad_digits (w : nat) (u : Decimal.uint) :
  Decimal.nb_digits (zero_pad w u) = Nat.max w (Decimal.nb_digits u).
Proof. unfold zero_pad. rewrite DecimalFacts.nb_digits_iter_D0. lia. Qed.

(** For an index that is not negative the name carries its decimal
    digits, at least six of them, and exactly six below one million. *)
Lemma format_06d_spec (idx : Z) :
  0 <= idx ->
  Forall (fun c => is_digit c = true) (format_06d idx)
  /\ dec_value (format_06d idx) = idx
  /\ (6 <= length (format_06d idx))%nat
  /\ (idx < 1000000 -> length (format_06d idx) = 6%nat).
Proof.
  intros H. unfold format_06d, format_0d.
  destruct (Z.ltb_spec idx 0) as [|_]; [lia|].
  repeat split.
  - apply uint_chars_digits.
  - rewrite dec_value_uint, of_uint_zero_pad. lia.
  - rewrite uint_chars_length, zero_pad_digits. lia.
  - intros Hlt. rewrite uint_chars_length, zero_pad_digits.
    pose proof (nb_digits_bound (Z.to_N idx) 5) as Hb.
    rewrite Z2N.id in Hb by lia. specialize (Hb Hlt). lia.
Qed.

(** ** Chunk file names *)

(** C10: the file name the dump writes a chunk to is the file name the
    restore resolves from the manifest the dump wrote, for every table
    name, mode, compression flag and index; the extension is [.sql] or
    [.sql.gz] in insert mode and [.csv] or [.csv.gz] in any other mode;
    the index is written in decimal, zero-padded to six digits; and two
    different indices never give the same name. *)
Theorem chunk_filename_dump_restore_agree (m : DumpManifest.t) (idx : Z) :
  let doc := doc_of_manifest m in
  let resolved j :=
    restore_chunk_filename (ManifestDoc.table doc)
      (default (lit "copy") (ManifestDoc.dump_mode doc))
      (default true (ManifestDoc.compressed doc)) j in
  DumpManifest.chunk_filename m idx = resolved idx
  /\ resolved idx
     = DumpManifest.table m ++ lit "_chunk_" ++ format_06d idx
       ++ (if bool_decide (DumpManifest.dump_mode m = lit "insert")
           then (if DumpManifest.compressed m then lit ".sql.gz" else lit ".sql")
           else (if DumpManifest.compressed m then lit ".csv.gz" else lit ".csv"))
  /\ (0 <= idx < 1000000 ->
      length (format_06d idx) = 6%nat
      /\ Forall (fun c => is_digit c = true) (format_06d idx)
      /\ dec_value (format_06d idx) = idx)
  /\ (forall j, DumpManifest.chunk_filename m idx = DumpManifest.chunk_filename m j
                -> idx = j)
  /\ (forall j, idx <> j -> resolved idx <> resolved j).
Proof.
  cbn zeta.
  assert (Hinj : forall j,
             DumpManifest.chunk_filename m idx = DumpManifest.chunk_filename m j
             -> idx = j).
  { intros j H. unfold DumpManifest.chunk_filename in H.
    apply app_inv_head in H. apply app_inv_head in H.
    apply app_inv_tail in H. apply (format_0d_inj 6), H. }
  split; [reflexivity|]. split; [reflexivity|]. split; [|split].
  - intros [H0 H1]. destruct (format_06d_spec idx H0) as (Hd & Hv & _ & Hl).
    auto.
  - exact Hinj.
  - intros j Hne H. apply Hne, Hinj. exact H.
Qed.

Lemma chunk_filename_dump_restore_agree_witness :
  DumpManifest.chunk_filename sample_manifest 1 = lit "t_chunk_000001.csv"
  /\ length (format_06d 1) = 6%nat.
Proof.
  split; [reflexivity|].
  apply (chunk_filename_dump_restore_agree sample_manifest 1). lia.
Defined.

(** ** Splitting and joining *)

Lemma split_cons_sep (sep : Z) (s : list Z) :
  split sep (sep :: s) = [] :: split sep s.
Proof. simpl. rewrite Z.eqb_refl. reflexivity. Qed.

Lemma split_nonempty (sep : Z) (s : list Z) : split sep s <> [].
Proof.
  destruct s as [|x t]; simpl; [discriminate|].
  destruct (x =? sep); [discriminate|]. destruct (split sep t); discriminate.
Qed.

Lemma split_app_sep (sep : Z) (a b : list Z) :
  Forall (fun x => x <> sep) a ->
  split sep (a ++ sep :: b) = a :: split sep b.
Proof.
  induction 1 as [|x a Hx _ IH]; [apply split_cons_sep|].
  simpl. destruct (Z.eqb_spec x sep); [contradiction|].
  rewrite IH. reflexivity.
Qed.



Lemma split_records (ls : list (list Z)) :
  Forall (Forall (fun x => x <> 10)) ls ->
  split 10 (List.concat (List.map (fun l => l ++ [10]) ls)) = ls ++ [[]].
Proof.
  induction 1 as [|l ls Hl _ IH]; [reflexivity|].
  simpl. rewrite <- app_assoc. simpl.
  rewrite split_app_sep by exact Hl. rewrite IH. reflexivity.
Qed.

Lemma record_lines_records (ls : list (list Z)) :
  Forall (Forall (fun x => x <> 10)) ls ->
  record_lines (List.concat (List.map (fun l => l ++ [10]) ls)) = ls.
Proof.
  intros H. unfold record_lines. rewrite split_records by exact H.
  rewrite last_snoc. apply removelast_last.
Qed.

Lemma count_newline_cons (x : Z) (t : list Z) :
  count [10] (x :: t) = (if x =? 10 then 1 else 0) + count [10] t.
Proof.
  unfold count. cbn [count_from startswith length Nat.sub].
  rewrite andb_true_r, Z.eqb_sym. destruct (x =? 10); reflexivity.
Qed.

Lemma endswith_cons (b x y : Z) (t : list Z) :
  endswith b (x :: y :: t) = endswith b (y :: t).
Proof. reflexivity. Qed.

Lemma split_singleton_nonempty (x : Z) (t h : list Z) :
  split 10 (x :: t) = [h] -> h <> [].
Proof.
  cbn [split]. destruct (x =? 10).
  - intros H. injection H as _ Hs. destruct (split_nonempty 10 t Hs).
  - destruct (split 10 t); intros H; inversion H; discriminate.
Qed.

Lemma split_length_last (raw : list Z) :
  Z.of_nat (length (split 10 raw)) = count [10] raw + 1
  /\ (last (split 10 raw) = Some []
      <-> raw = [] \/ endswith 10 raw = true).
Proof.
  induction raw as [|x t [IHl IHe]].
  - split; [reflexivity|]. cbn. split; auto.
  - rewrite count_newline_cons.
    pose proof (split_nonempty 10 t) as Hne.
    pose proof (split_singleton_nonempty x t) as Hs.
    cbn [split] in *.
    destruct (Z.eqb_spec x 10) as [->|Hx].
    + destruct (split 10 t) as [|h r] eqn:E; [contradiction|].
      split; [cbn [length] in *; lia|].
      rewrite last_cons_cons, IHe.
      destruct t as [|y t']; [cbn; intuition auto|].
      rewrite endswith_cons. intuition discriminate.
    + destruct (split 10 t) as [|h r] eqn:E; [contradiction|].
      split; [cbn [length] in *; lia|].
      destruct t as [|y t'].
      * cbn in E. injection E as <- <-. cbn.
        destruct (Z.eqb_spec x 10); [contradiction|]. intuition discriminate.
      * rewrite endswith_cons.
        destruct r as [|h' r'].
        -- specialize (Hs _ eq_refl).
           pose proof (split_singleton_nonempty y t' h E) as Hh.
           cbn [last] in *.
           split; [intros [= H]; discriminate H|].
           intros [H|H]; [discriminate|].
           assert (Some h = Some []) as [= ->] by (apply IHe; auto).
           contradiction.
        -- rewrite last_cons_cons, IHe. intuition discriminate.
Qed.

Lemma length_removelast {A} (l : list A) :
  length (removelast l) = (length l - 1)%nat.
Proof.
  induction l as [|x [|y l] IH]; try reflexivity.
  change (removelast (x :: y :: l)) with (x :: removelast (y :: l)).
  simpl length in *. lia.
Qed.

(** The converter sees as many records as the dump counts. *)
Lemma record_lines_count (raw : list Z) :
  Z.of_nat (length (record_lines raw)) = count_records raw.
Proof.
  unfold record_lines, count_records.
  destruct (split_length_last raw) as [Hl He].
  destruct (last (split 10 raw)) as [[|? ?]|] eqn:E.
  - rewrite length_removelast.
    assert (raw = [] \/ endswith 10 raw = true) as [->|Hend] by (apply He; reflexivity).
    + reflexivity.
    + destruct raw; [discriminate|]. rewrite Hend. simpl negb. cbv iota.
      pose proof (split_nonempty 10 (z :: raw)).
      destruct (split 10 (z :: raw)); [contradiction|]. simpl length in *. lia.
  - destruct raw as [|x t]; [simpl in E; discriminate|].
    destruct (endswith 10 (x :: t)) eqn:Hend.
    + assert (Some (z :: l) = Some []) by (apply He; auto). discriminate.
    + simpl negb. cbv iota. lia.
  - exfalso. pose proof (split_nonempty 10 raw).
    destruct (split 10 raw) as [|h r]; [contradiction|].
    clear -E. revert h E. induction r; intros h E; [discriminate|].
    rewrite last_cons_cons in E. eauto.
Qed.

(** ** Batching of the INSERT statements *)

(** The loop closes a batch each time it holds [batch_size] rows (each
    row, when [batch_size] is below one) and keeps the rows in order. *)
Lemma insert_loop_spec (header : list Z) (batch_size : Z) (lines : list (list Z)) :
  forall output_parts batch,
    (1 <= batch_size -> Z.of_nat (length batch) < batch_size) ->
    exists full rest_batch,
      insert_loop header batch_size lines output_parts batch
      = (output_parts ++ List.map (insert_statement header) full, rest_batch)
      /\ List.concat full ++ rest_batch = batch ++ List.map row_tuple lines
      /\ Forall (fun b => b <> []) full
      /\ (1 <= batch_size ->
          Forall (fun b => Z.of_nat (length b) = batch_size) full
          /\ Z.of_nat (length rest_batch) < batch_size).
Proof.
  induction lines as [|line rest IH]; intros output_parts batch Hb.
  - exists [], batch. cbn [insert_loop List.map List.concat].
    rewrite !app_nil_r. repeat split; auto.
  - cbn [insert_loop].
    destruct (Z.leb_spec batch_size (Z.of_nat (length (batch ++ [row_tuple line]))))
      as [Hle|Hgt].
    + destruct (IH (output_parts ++ [insert_statement header (batch ++ [row_tuple line])]) [])
        as (full & rb & Heq & Hcat & Hne & Hsz); [cbn; lia|].
      exists ((batch ++ [row_tuple line]) :: full), rb.
      rewrite Heq. cbn [List.map List.concat].
      rewrite <- !app_assoc. cbn [app] in *.
      split; [reflexivity|]. split; [rewrite Hcat; reflexivity|].
      split; [constructor; [destruct batch; discriminate|exact Hne]|].
      intros H1. destruct (Hsz H1) as [Hf Hr]. split; [|exact Hr].
      constructor; [|exact Hf].
      specialize (Hb H1). rewrite length_app in *. cbn [length] in *. lia.
    + destruct (IH output_parts (batch ++ [row_tuple line]))
        as (full & rb & Heq & Hcat & Hne & Hsz); [intros; lia|].
      exists full, rb. rewrite Heq, Hcat, <- app_assoc. auto.
Qed.

Lemma copy_to_inserts_nonempty (raw table_name : list Z)
    (columns : list (list Z)) (batch_size : Z) :
  raw <> [] ->
  _copy_to_inserts raw table_name columns batch_size
  = let header := insert_header table_name columns in
    let r := insert_loop header batch_size (record_lines raw) [] [] in
    join [10; 10]
      match snd r with
      | [] => fst r
      | _ :: _ => fst r ++ [insert_statement header (snd r)]
      end.
Proof.
  destruct raw; [contradiction|]. intros _. unfold _copy_to_inserts.
  destruct (insert_loop _ _ _ _ _). reflexivity.
Qed.

(** The statements [_copy_to_inserts] emits, as batches of row tuples. *)
Lemma copy_to_inserts_batches_of (raw table_name : list Z)
    (columns : list (list Z)) (batch_size : Z) :
  exists batches : list (list (list Z)),
    _copy_to_inserts raw table_name columns batch_size
    = join [10; 10]
        (List.map (insert_statement (insert_header table_name columns)) batches)
    /\ List.concat batches = List.map row_tuple (record_lines raw)
    /\ Forall (fun b => b <> []) batches
    /\ (1 <= batch_size ->
        Forall (fun b => Z.of_nat (length b) <= batch_size) batches
        /\ forall i b, batches !! i = Some b -> (S i < length batches)%nat ->
                       Z.of_nat (length b) = batch_size).
Proof.
  destruct raw as [|x raw'].
  - exists []. cbn. repeat split; auto. intros i b _ Hi. lia.
  - rewrite copy_to_inserts_nonempty by discriminate.
    set (raw := x :: raw'). cbn zeta.
    destruct (insert_loop_spec (insert_header table_name columns) batch_size
                (record_lines raw) [] []) as (full & rb & Heq & Hcat & Hne & Hsz);
      [cbn; lia|].
    rewrite Heq. cbn [app fst snd] in *.
    destruct rb as [|r rb'].
    + exists full. rewrite app_nil_r in Hcat.
      split; [reflexivity|]. split; [exact Hcat|]. split; [exact Hne|].
      intros H1. destruct (Hsz H1) as [Hf _]. split.
      * eapply Forall_impl; [exact Hf|]. cbn. intros; lia.
      * intros i b Hi _. rewrite Forall_forall in Hf. apply Hf.
        eapply list_elem_of_lookup_2, Hi.
    + exists (full ++ [r :: rb']).
      rewrite List.map_app. cbn [List.map].
      split; [reflexivity|].
      split; [rewrite concat_app; cbn; rewrite app_nil_r; exact Hcat|].
      split; [apply Forall_app; split; [exact Hne|constructor; [discriminate|constructor]]|].
      intros H1. destruct (Hsz H1) as [Hf Hr]. split.
      * apply Forall_app. split.
        -- eapply Forall_impl; [exact Hf|]. cbn. intros; lia.
        -- constructor; [lia|constructor].
      * intros i b Hi Hlt. rewrite length_app in Hlt. cbn [length] in Hlt.
        rewrite lookup_app_l in Hi by lia.
        rewrite Forall_forall in Hf. apply Hf.
        eapply list_elem_of_lookup_2, Hi.
Qed.

(** C8: for every input buffer and every batch size of at least one,
    the converter emits the rows in consecutive batches, one INSERT
    statement each: no batch is empty, none has more than
    [insert_batch_size] rows, every batch but the last has exactly
    [insert_batch_size] rows, the last partial batch is emitted, and the
    rows of all statements together are the input records, as many as the
    dump counts in the buffer. *)
Theorem copy_to_inserts_batches (raw table_name : list Z)
    (columns : list (list Z)) (insert_batch_size : Z) :
  1 <= insert_batch_size ->
  exists batches : list (list (list Z)),
    _copy_to_inserts raw table_name columns insert_batch_size
    = join [10; 10]
        (List.map (insert_statement (insert_header table_name columns)) batches)
    /\ List.concat batches = List.map row_tuple (record_lines raw)
    /\ Forall (fun b => 1 <= Z.of_nat (length b) <= insert_batch_size) batches
    /\ (forall i b, batches !! i = Some b -> (S i < length batches)%nat ->
                    Z.of_nat (length b) = insert_batch_size)
    /\ Z.of_nat (length (List.concat batches)) = count_records raw.
Proof.
  intros H1.
  destruct (copy_to_inserts_batches_of raw table_name columns insert_batch_size)
    as (batches & Heq & Hcat & Hne & Hsz).
  destruct (Hsz H1) as [Hle Hfull].
  exists batches. split; [exact Heq|]. split; [exact Hcat|].
  split; [|split; [exact Hfull|]].
  - rewrite Forall_forall in *. intros b Hb.
    specialize (Hne b Hb). specialize (Hle b Hb).
    destruct b; [contradiction|]. cbn [length] in *. lia.
  - rewrite Hcat, length_map. apply record_lines_count.
Qed.

Lemma copy_to_inserts_batches_witness :
  1 <= 2
  /\ exists batches : list (list (list Z)),
       _copy_to_inserts sample_copy_data (lit "t") [lit "id"; lit "s"] 2
       = join [10; 10]
           (List.map (insert_statement (insert_header (lit "t") [lit "id"; lit "s"]))
              batches)
       /\ List.concat batches = List.map row_tuple (record_lines sample_copy_data)
       /\ Forall (fun b => 1 <= Z.of_nat (length b) <= 2) batches
       /\ (forall i b, batches !! i = Some b -> (S i < length batches)%nat ->
                       Z.of_nat (length b) = 2)
       /\ Z.of_nat (length (List.concat batches)) = count_records sample_copy_data.
Proof.
  split; [lia|].
  apply (copy_to_inserts_batches sample_copy_data (lit "t") [lit "id"; lit "s"] 2).
  lia.
Defined.

(** ** Reversing the copy escapes *)

Lemma replace_single (a : Z) (new s : list Z) :
  replace [a] new s = List.flat_map (fun x => if a =? x then new else [x]) s.
Proof.
  unfold replace. induction s as [|x t IH]; [reflexivity|].
  cbn [replace_from startswith length Nat.sub List.flat_map].
  rewrite andb_true_r. destruct (a =? x); rewrite IH; reflexivity.
Qed.




(** ** UTF-8 *)

Ltac by_bounds :=
  rewrite ?andb_true_iff, ?andb_false_iff, ?Z.leb_le, ?Z.ltb_lt, ?Z.leb_gt,
    ?Z.ltb_ge, ?Z.eqb_eq, ?Z.eqb_neq; lia.

Ltac test_is e v :=
  let H := fresh "T" in
  assert (H : e = v) by by_bounds; rewrite H; clear H.

Lemma decode_utf8_scalar (c : Z) (rest : list Z) :
  is_scalar c = true ->
  decode_utf8_replace (utf8_of_scalar c ++ rest) = c :: decode_utf8_replace rest.
Proof.
  unfold is_scalar. intros Hc.
  apply andb_prop in Hc as [Hc Hs]. apply andb_prop in Hc as [H0 H1].
  apply Z.leb_le in H0. apply Z.ltb_lt in H1.
  apply negb_true_iff, andb_false_iff in Hs.
  assert (Hsur : c < 55296 \/ 57344 <= c).
  { destruct Hs as [Hs|Hs]; [apply Z.leb_gt in Hs|apply Z.ltb_ge in Hs]; lia. }
  clear Hs.
  pose proof (Z.div_mod c 64 ltac:(lia)) as D64.
  pose proof (Z.mod_pos_bound c 64 ltac:(lia)) as M64.
  pose proof (Z.div_mod (c / 64) 64 ltac:(lia)) as D4096.
  pose proof (Z.mod_pos_bound (c / 64) 64 ltac:(lia)) as M4096.
  pose proof (Z.div_mod (c / 4096) 64 ltac:(lia)) as D262144.
  pose proof (Z.mod_pos_bound (c / 4096) 64 ltac:(lia)) as M262144.
  assert (E1 : c / 4096 = c / 64 / 64) by (rewrite Z.div_div by lia; reflexivity).
  assert (E2 : c / 262144 = c / 4096 / 64) by (rewrite Z.div_div by lia; reflexivity).
  unfold utf8_of_scalar.
  destruct (Z.ltb_spec c 128) as [L1|L1];
    [|destruct (Z.ltb_spec c 2048) as [L2|L2];
      [|destruct (Z.ltb_spec c 65536) as [L3|L3]]];
    cbn [app decode_utf8_replace].
  - test_is ((0 <=? c) && (c <? 128)) true. reflexivity.
  - set (b0 := 192 + c / 64) in *. set (b1 := 128 + c mod 64) in *.
    test_is ((0 <=? b0) && (b0 <? 128)) false.
    test_is ((194 <=? b0) && (b0 <=? 223)) true.
    unfold is_cont. test_is ((128 <=? b1) && (b1 <=? 191)) true.
    f_equal. lia.
  - set (b0 := 224 + c / 4096) in *. set (b1 := 128 + (c / 64) mod 64) in *.
    set (b2 := 128 + c mod 64) in *.
    test_is ((0 <=? b0) && (b0 <? 128)) false.
    test_is ((194 <=? b0) && (b0 <=? 223)) false.
    test_is ((224 <=? b0) && (b0 <=? 239)) true.
    assert (S3 : second_of3 b0 b1 = true).
    { unfold second_of3, is_cont.
      destruct (Z.eqb_spec b0 224); [by_bounds|].
      destruct (Z.eqb_spec b0 237); by_bounds. }
    rewrite S3. unfold is_cont.
    test_is ((128 <=? b2) && (b2 <=? 191)) true.
    f_equal. lia.
  - set (b0 := 240 + c / 262144) in *. set (b1 := 128 + (c / 4096) mod 64) in *.
    set (b2 := 128 + (c / 64) mod 64) in *. set (b3 := 128 + c mod 64) in *.
    test_is ((0 <=? b0) && (b0 <? 128)) false.
    test_is ((194 <=? b0) && (b0 <=? 223)) false.
    test_is ((224 <=? b0) && (b0 <=? 239)) false.
    test_is ((240 <=? b0) && (b0 <=? 244)) true.
    assert (S4 : second_of4 b0 b1 = true).
    { unfold second_of4, is_cont.
      destruct (Z.eqb_spec b0 240); [by_bounds|].
      destruct (Z.eqb_spec b0 244); by_bounds. }
    rewrite S4. unfold is_cont.
    test_is ((128 <=? b2) && (b2 <=? 191)) true.
    test_is ((128 <=? b3) && (b3 <=? 191)) true.
    f_equal. lia.
Qed.

Lemma decode_utf8_bytes (s : list Z) :
  valid_text s -> decode_utf8_replace (utf8_bytes s) = s.
Proof.
  unfold valid_text, utf8_bytes.
  induction 1 as [|c s Hc _ IH]; [reflexivity|].
  cbn [List.flat_map]. rewrite decode_utf8_scalar by exact Hc. rewrite IH.
  reflexivity.
Qed.



(** ** The escaping law *)


Lemma escaped_no_separator (bs : list Z) :
  Forall (fun x => x <> 9 /\ x <> 10) (List.flat_map copy_escape_byte bs).
Proof.
  induction bs as [|b t IH]; [constructor|].
  cbn [List.flat_map]. apply Forall_app. split; [|exact IH].
  unfold copy_escape_byte.
  change (lit "\\") with [92; 92]. change (lit "\n") with [92; 110].
  change (lit "\r") with [92; 114]. change (lit "\t") with [92; 116].
  destruct (Z.eqb_spec b 92), (Z.eqb_spec b 10), (Z.eqb_spec b 13),
    (Z.eqb_spec b 9); repeat constructor; lia.
Qed.

Lemma copy_field_no_separator (v : option (list Z)) :
  Forall (fun x => x <> 9 /\ x <> 10) (copy_field v).
Proof.
  destruct v as [s|]; [apply escaped_no_separator|].
  change (copy_field None) with [92; 78]. repeat constructor; lia.
Qed.

Lemma Forall_join (P : Z -> Prop) (sep : list Z) (parts : list (list Z)) :
  Forall P sep -> Forall (Forall P) parts -> Forall P (join sep parts).
Proof.
  intros Hsep H. induction H as [|p parts Hp _ IH]; [constructor|].
  destruct parts as [|q parts]; [exact Hp|].
  change (join sep (p :: q :: parts)) with (p ++ sep ++ join sep (q :: parts)).
  repeat (apply Forall_app; split); auto.
Qed.


Lemma sql_string_body_quoted (s : list Z) :
  sql_string_body (replace (lit "'") (lit "''") s ++ lit "'") = Some s.
Proof.
  change (lit "'") with [39]. change (lit "''") with [39; 39].
  rewrite replace_single.
  induction s as [|x t IH]; [reflexivity|].
  cbn [List.flat_map]. destruct (Z.eqb_spec 39 x) as [<-|Hx].
  - cbn [app sql_string_body]. rewrite !Z.eqb_refl, IH. reflexivity.
  - cbn [app sql_string_body].
    destruct (Z.eqb_spec x 39); [congruence|]. rewrite IH. reflexivity.
Qed.



Lemma record_lines_copy_text (rows : list (list (option (list Z)))) :
  record_lines (copy_text rows)
  = List.map (fun row => join [9] (List.map copy_field row)) rows.
Proof.
  unfold copy_text.
  replace (List.map copy_record rows)
    with (List.map (fun l => l ++ [10])
            (List.map (fun row => join [9] (List.map copy_field row)) rows))
    by (rewrite List.map_map; reflexivity).
  apply record_lines_records.
  apply Forall_forall. intros l Hl. apply list_elem_of_In, in_map_iff in Hl.
  destruct Hl as (row & <- & _).
  apply Forall_join; [repeat constructor; lia|].
  apply Forall_forall. intros f Hf. apply list_elem_of_In, in_map_iff in Hf.
  destruct Hf as (v & <- & _).
  eapply Forall_impl; [apply copy_field_no_separator|]. cbn. tauto.
Qed.





(** ** The layout of insert-mode chunks *)

(** C4 (amended): an insert-mode chunk is its header, then, in the first
    chunk only and in this order, [DROP TABLE] exactly when
    [drop_on_restore] is set, the schema DDL exactly when
    [recreate_schema] or [drop_on_restore] is set and a non-empty schema
    DDL is at hand, [TRUNCATE] exactly when [truncate_before_restore] is
    set and [drop_on_restore] is not, and one [DROP INDEX] for each saved
    index definition exactly when [disable_indexes_on_restore] is set;
    then the data between [BEGIN;] and [COMMIT;] when [use_transactions]
    is set; then, in the last chunk only and after the [COMMIT;], the
    saved [CREATE INDEX] statements when [disable_indexes_on_restore] is
    set. *)
Theorem build_sql_chunk_layout (now copy_data : list Z) (table : TableInfo.t)
    (settings : DumpSettings.t) (schema_ddl : option (list Z))
    (index_defs : list (list Z * list Z)) (is_first is_last : bool) :
  _build_sql_chunk_parts now copy_data table settings schema_ddl index_defs
    is_first is_last
  = chunk_layout
      ((DumpSettings.recreate_schema settings || DumpSettings.drop_on_restore settings)
       && ddl_truthy schema_ddl)
      now copy_data table settings schema_ddl index_defs is_first is_last
  /\ _build_sql_chunk now copy_data table settings schema_ddl index_defs
       is_first is_last
     = encode_utf8
         (join [10]
            (chunk_layout
               ((DumpSettings.recreate_schema settings
                 || DumpSettings.drop_on_restore settings)
                && ddl_truthy schema_ddl)
               now copy_data table settings schema_ddl index_defs is_first is_last)).
Proof.
  assert (H : _build_sql_chunk_parts now copy_data table settings schema_ddl
                index_defs is_first is_last
              = chunk_layout
                  ((DumpSettings.recreate_schema settings
                    || DumpSettings.drop_on_restore settings)
                   && ddl_truthy schema_ddl)
                  now copy_data table settings schema_ddl index_defs
                  is_first is_last).
  { unfold _build_sql_chunk_parts, chunk_layout, section_header,
      section_drop_table, section_schema_when, section_truncate,
      section_drop_indexes, section_rebuild_indexes.
    destruct index_defs as [|d ds];
      [rewrite (bool_decide_eq_true_2 _ eq_refl)
      |rewrite bool_decide_eq_false_2 by discriminate];
      destruct is_first, is_last,
        (DumpSettings.drop_on_restore settings),
        (DumpSettings.recreate_schema settings),
        (ddl_truthy schema_ddl),
        (DumpSettings.truncate_before_restore settings),
        (DumpSettings.disable_indexes_on_restore settings),
        (DumpSettings.use_transactions settings);
      cbn [andb orb negb app]; rewrite <- ?app_assoc; reflexivity. }
  split; [exact H|]. unfold _build_sql_chunk. rewrite H. reflexivity.
Qed.

(** The claim as first stated asks for the schema DDL whenever
    [drop_on_restore] is set.  With no schema DDL at hand the first chunk
    drops the table and goes on to the data. *)
Lemma build_sql_chunk_drop_without_schema_counterexample :
  DumpSettings.drop_on_restore (sample_settings (lit "insert") true true false false)
  = true
  /\ _build_sql_chunk_parts (lit "2024-01-01T00:00:00") sample_copy_data sample_table
       (sample_settings (lit "insert") true true false false) None [] true false
     = [ lit "-- dbtool dump: t";
         lit "-- generated: 2024-01-01T00:00:00";
         lit "-- chunk: 0 (first " ++ [8212] ++ lit " includes preamble)";
         [];
         lit "DROP TABLE IF EXISTS " ++ dquote ++ lit "t" ++ dquote ++ lit " CASCADE;";
         [];
         lit "BEGIN;";
         [];
         _copy_to_inserts sample_copy_data (lit "t") [lit "id"; lit "s"] 2;
         lit "COMMIT;";
         [] ]
  /\ _build_sql_chunk_parts (lit "2024-01-01T00:00:00") sample_copy_data sample_table
       (sample_settings (lit "insert") true true false false) None [] true false
     <> chunk_layout true (lit "2024-01-01T00:00:00") sample_copy_data sample_table
          (sample_settings (lit "insert") true true false false) None [] true false.
Proof.
  split; [reflexivity|]. split; [reflexivity|].
  intros H. apply (f_equal (@length (list Z))) in H. vm_compute in H. discriminate H.
Qed.

(** ** Writing the manifest *)

Lemma json_dumps_dict_nonempty (indent level : nat) (k : list Z) (v : json)
    (items : list (list Z * json)) :
  json_dumps indent level (JDict ((k, v) :: items)) <> [].
Proof. cbn [json_dumps]. discriminate. Qed.

(** C2 (amended): every write of the manifest serializes the whole
    document, all fifteen fields, indented by two, and writes it straight
    to the destination: the file is opened with truncation, written, and
    closed; there is no temporary file and no rename.  A reader sees
    first the old contents, then an empty file, then the new contents;
    no other file changes. *)
Theorem write_manifest_file_states (path : list Z) (manifest : DumpManifest.t)
    (fs : gmap (list Z) (list Z)) :
  json_keys (asdict manifest) = manifest_keys
  /\ _write_manifest_ops path manifest
     = [OpenTruncate path;
        WriteAll path (json_dumps 2 0 (asdict manifest));
        CloseFile path]
  /\ List.map (fun st : gmap (list Z) (list Z) => st !! path)
       (fs_states fs (_write_manifest_ops path manifest))
     = [fs !! path; Some []; Some (json_dumps 2 0 (asdict manifest));
        Some (json_dumps 2 0 (asdict manifest))]
  /\ Forall (fun st : gmap (list Z) (list Z) =>
               forall p, p <> path -> st !! p = fs !! p)
       (fs_states fs (_write_manifest_ops path manifest))
  /\ Forall (fun op => forall src dst, op <> Rename src dst)
       (_write_manifest_ops path manifest).
Proof.
  split; [reflexivity|]. split; [reflexivity|].
  unfold _write_manifest_ops, write_text.
  cbn [fs_states fs_step List.map].
  split; [|split].
  - rewrite !lookup_insert_eq. reflexivity.
  - repeat constructor; intros p Hp; rewrite ?lookup_insert_ne by congruence;
      reflexivity.
  - repeat constructor; intros src dst; discriminate.
Qed.

(** The claim as first stated has every reader see the old contents in
    full or the new contents in full.  Between the opening and the write
    the manifest file is empty, and no rename takes place. *)
Lemma write_manifest_not_atomic_counterexample :
  sample_fs !! lit "manifest.json" = Some (json_dumps 2 0 (asdict sample_manifest))
  /\ (exists st : gmap (list Z) (list Z),
        In st (fs_states sample_fs
                 (_write_manifest_ops (lit "manifest.json") sample_manifest_next))
        /\ st !! lit "manifest.json" = Some []
        /\ Some [] <> Some (json_dumps 2 0 (asdict sample_manifest))
        /\ Some [] <> Some (json_dumps 2 0 (asdict sample_manifest_next)))
  /\ forallb (fun op => match op with Rename _ _ => false | _ => true end)
       (_write_manifest_ops (lit "manifest.json") sample_manifest_next) = true.
Proof.
  split; [apply lookup_singleton_eq|]. split; [|reflexivity].
  exists (<[lit "manifest.json" := []]> sample_fs).
  split; [right; left; reflexivity|].
  split; [apply lookup_insert_eq|].
  split; intros [= H]; symmetry in H;
    exact (json_dumps_dict_nonempty _ _ _ _ _ H).
Qed.

(** ** Traces of composed runs *)

Lemma trace_bind {A B} (m : M A) (f : A -> M B) :
  trace (bind m f)
  = trace m ++ match outcome m with Ok a => trace (f a) | _ => [] end.
Proof.
  destruct m as [t [a|e|]]; cbn; rewrite ?app_nil_r; try reflexivity.
  destruct (f a); reflexivity.
Qed.

Lemma outcome_bind {A B} (m : M A) (f : A -> M B) :
  outcome (bind m f)
  = match outcome m with
    | Ok a => outcome (f a)
    | Raise e => Raise e
    | Fuel => Fuel
    end.
Proof.
  destruct m as [t [a|e|]]; cbn; try reflexivity. destruct (f a); reflexivity.
Qed.

Lemma bind_ext {A B} (m : M A) (f g : A -> M B) :
  (forall a, f a = g a) -> bind m f = bind m g.
Proof.
  intros H. destruct m as [t [a|e|]]; cbn; try reflexivity. rewrite H.
  reflexivity.
Qed.

Lemma M_eta {A} (m : M A) : m = (trace m, outcome m).
Proof. destruct m; reflexivity. Qed.

Lemma apply_events_app (d : TableDir) (t1 t2 : list event) :
  apply_events d (t1 ++ t2) = apply_events (apply_events d t1) t2.
Proof. apply fold_left_app. Qed.

(** ** Restoring an empty dump *)

(** C7: for every manifest whose [total_rows] is 0 the restore only
    reports an empty dump and returns: it opens no connection, runs no
    pre-restore hook, applies no chunk, and leaves [restore_state.json]
    as it is, absent or not. *)
Theorem restore_empty_dump (env : RestoreEnv) (dir : TableDir)
    (settings : DumpSettings.t) (manifest : ManifestDoc.t) :
  manifest_json dir = Some manifest ->
  ManifestDoc.total_rows manifest = 0 ->
  restore_table env dir settings
  = ([ConsolePrint (MsgEmptyDump (ManifestDoc.table manifest))], Ok tt)
  /\ ~ In Connect (trace (restore_table env dir settings))
  /\ (forall sql, ~ In (Execute sql) (trace (restore_table env dir settings)))
  /\ (forall sql data, ~ In (CopyIn sql data) (trace (restore_table env dir settings)))
  /\ (forall n, ~ In (WriteState n) (trace (restore_table env dir settings)))
  /\ apply_events dir (trace (restore_table env dir settings)) = dir.
Proof.
  intros Hm Hz.
  assert (H : restore_table env dir settings
              = ([ConsolePrint (MsgEmptyDump (ManifestDoc.table manifest))], Ok tt)).
  { unfold restore_table. rewrite Hm, Hz. reflexivity. }
  rewrite H. cbn [trace fst].
  split; [reflexivity|].
  repeat split; try (intros; intros [Hin|[]]; discriminate Hin).
Qed.

Lemma restore_empty_dump_witness :
  restore_table (restore_env_with (fun _ _ => Succeeds)) sample_empty_dir
    (sample_settings (lit "copy") true false false false)
  = ([ConsolePrint (MsgEmptyDump (lit "t"))], Ok tt).
Proof.
  apply (restore_empty_dump (restore_env_with (fun _ _ => Succeeds)) sample_empty_dir
           (sample_settings (lit "copy") true false false false)
           (doc_of_manifest
              (_make_manifest (lit "2024-01-01T00:00:00") sample_db (lit "index")
                 sample_table (sample_settings (lit "copy") true false false false)
                 0 0 0 true true)));
    reflexivity.
Defined.

(** ** The restore and [use_transactions] *)

Lemma apply_attempt_use_transactions (env : RestoreEnv) (settings : DumpSettings.t)
    (b : bool) (table_name col_list dump_mode : list Z) (chunk_idx attempt : Z)
    (raw_data : list Z) :
  apply_attempt env (with_use_transactions b settings) table_name col_list dump_mode
    chunk_idx attempt raw_data
  = apply_attempt env settings table_name col_list dump_mode chunk_idx attempt raw_data.
Proof.
  unfold apply_attempt. cbn [with_use_transactions DumpSettings.use_transactions].
  destruct b, (DumpSettings.use_transactions settings); reflexivity.
Qed.

Lemma apply_with_retry_use_transactions (env : RestoreEnv) (settings : DumpSettings.t)
    (b : bool) (table_name col_list dump_mode : list Z) (attempts : list Z)
    (chunk_idx : Z) (raw_data : list Z) (chunk_row_count rows_restored : Z) :
  apply_with_retry env (with_use_transactions b settings) table_name col_list dump_mode
    attempts chunk_idx raw_data chunk_row_count rows_restored
  = apply_with_retry env settings table_name col_list dump_mode
      attempts chunk_idx raw_data chunk_row_count rows_restored.
Proof.
  induction attempts as [|attempt rest IH]; [reflexivity|].
  cbn [apply_with_retry]. rewrite apply_attempt_use_transactions.
  cbn [with_use_transactions DumpSettings.max_retries DumpSettings.retry_backoff].
  apply bind_ext. intros [r|]; [reflexivity|apply IH].
Qed.

Lemma restore_loop_use_transactions (env : RestoreEnv) (dir : TableDir)
    (settings : DumpSettings.t) (b : bool) (table_name col_list dump_mode : list Z)
    (compressed : bool) (idxs : list Z) :
  forall rows_restored,
    restore_loop env dir (with_use_transactions b settings) table_name col_list
      dump_mode compressed idxs rows_restored
    = restore_loop env dir settings table_name col_list dump_mode compressed idxs
        rows_restored.
Proof.
  induction idxs as [|chunk_idx rest IH]; intros rows_restored; [reflexivity|].
  cbn [restore_loop].
  destruct (restore_interrupted_at env chunk_idx); [reflexivity|].
  destruct (chunk_files dir !! _); [|reflexivity].
  rewrite apply_with_retry_use_transactions.
  cbn [with_use_transactions DumpSettings.max_retries].
  apply bind_ext. intros rows. apply bind_ext. intros _. apply bind_ext. intros _.
  apply IH.
Qed.

(** What one attempt does, case by case. *)
Lemma apply_attempt_cases (env : RestoreEnv) (settings : DumpSettings.t)
    (table_name col_list dump_mode : list Z) (chunk_idx attempt : Z)
    (raw_data : list Z) :
  let a := apply_attempt env settings table_name col_list dump_mode chunk_idx
             attempt raw_data in
  a = ([Connect], Raise ConnectError)
  \/ a = ([Connect; Rollback; Close], Raise UnicodeError)
  \/ (exists ev, a = ([Connect; ev; Rollback; Close], Raise DatabaseError))
  \/ (exists ev, a = ([Connect; ev; Commit; Rollback; Close], Raise DatabaseError))
  \/ (exists ev, a = ([Connect; ev; Commit; Close], Ok tt)).
Proof.
  cbn zeta. unfold apply_attempt.
  destruct (apply_result env chunk_idx attempt);
    destruct (list_Z_eqb dump_mode (lit "insert"));
    try destruct (decode_utf8 raw_data);
    destruct (DumpSettings.use_transactions settings);
    cbn; eauto 10.
Qed.

(** C9: two runs of the restore that differ only in [use_transactions]
    do the same: the same calls in the same order with the same result;
    and an attempt that ends without an exception has committed, whatever
    the setting. *)
Theorem restore_ignores_use_transactions (env : RestoreEnv) (dir : TableDir)
    (settings : DumpSettings.t) (b : bool) :
  restore_table env dir (with_use_transactions b settings)
  = restore_table env dir settings
  /\ forall table_name col_list dump_mode chunk_idx attempt raw_data,
       outcome (apply_attempt env settings table_name col_list dump_mode
                  chunk_idx attempt raw_data) = Ok tt ->
       exists ev,
         trace (apply_attempt env settings table_name col_list dump_mode
                  chunk_idx attempt raw_data)
         = [Connect; ev; Commit; Close].
Proof.
  split.
  - unfold restore_table.
    destruct (manifest_json dir) as [manifest|]; [|reflexivity].
    destruct (ManifestDoc.total_rows manifest =? 0); [reflexivity|].
    apply bind_ext. intros [start_chunk|]; [|reflexivity].
    unfold restore_from. rewrite restore_loop_use_transactions. reflexivity.
  - intros table_name col_list dump_mode chunk_idx attempt raw_data H.
    destruct (apply_attempt_cases env settings table_name col_list dump_mode
                chunk_idx attempt raw_data)
      as [E|[E|[[ev E]|[[ev E]|[ev E]]]]]; rewrite E in H |- *;
      try discriminate H.
    exists ev. reflexivity.
Qed.

Lemma restore_ignores_use_transactions_witness :
  outcome (apply_attempt (restore_env_with (fun _ _ => Succeeds))
             (sample_settings (lit "copy") true false false false)
             (lit "t") (lit "id, s") (lit "copy") 0 1 sample_copy_data) = Ok tt
  /\ exists ev,
       trace (apply_attempt (restore_env_with (fun _ _ => Succeeds))
                (sample_settings (lit "copy") true false false false)
                (lit "t") (lit "id, s") (lit "copy") 0 1 sample_copy_data)
       = [Connect; ev; Commit; Close].
Proof.
  split; [reflexivity|].
  apply (restore_ignores_use_transactions (restore_env_with (fun _ _ => Succeeds))
           sample_dir (sample_settings (lit "copy") true false false false) false).
  reflexivity.
Defined.

(** ** Properties of every event of a run *)

Lemma Forall_trace_bind {A B} (P : event -> Prop) (m : M A) (f : A -> M B) :
  Forall P (trace m) -> (forall a, outcome m = Ok a -> Forall P (trace (f a))) ->
  Forall P (trace (bind m f)).
Proof.
  intros Hm Hf. rewrite trace_bind. apply Forall_app. split; [exact Hm|].
  destruct (outcome m); [apply Hf; reflexivity|constructor|constructor].
Qed.

Lemma outcome_try_finally_Ok {A} (m : M A) (fin : M unit) (a : A) :
  outcome (try_finally m fin) = Ok a -> outcome m = Ok a.
Proof.
  destruct m as [t [x|e|]], fin as [t' [[]|e'|]]; cbn; congruence.
Qed.

Lemma Forall_trace_try_except {A} (P : event -> Prop) (m : M A) (h : exn -> M A) :
  Forall P (trace m) -> (forall e, Forall P (trace (h e))) ->
  Forall P (trace (try_except m h)).
Proof.
  intros Hm Hh. destruct m as [t [a|e|]]; cbn in *; try exact Hm.
  destruct (is_Exception e); [|exact Hm].
  specialize (Hh e). destruct (h e) as [t' r]. cbn in *.
  apply Forall_app. split; assumption.
Qed.

Lemma Forall_trace_try_except_interrupt {A} (P : event -> Prop) (m h : M A) :
  Forall P (trace m) -> Forall P (trace h) ->
  Forall P (trace (try_except_interrupt m h)).
Proof.
  intros Hm Hh. destruct m as [t [a|[]|]]; cbn in *; try exact Hm.
  destruct h as [t' r]. cbn in *. apply Forall_app. split; assumption.
Qed.

Lemma Forall_trace_try_finally {A} (P : event -> Prop) (m : M A) (fin : M unit) :
  Forall P (trace m) -> Forall P (trace fin) ->
  Forall P (trace (try_finally m fin)).
Proof.
  intros Hm Hf. destruct m as [t [a|e|]], fin as [t' r]; cbn in *;
    try exact Hm; apply Forall_app; split; assumption.
Qed.

Lemma Forall_trace_emit (P : event -> Prop) (e : event) :
  P e -> Forall P (trace (emit e)).
Proof. intros H. repeat constructor. exact H. Qed.

Lemma Forall_trace_ensure (P : event -> Prop) (ok : bool) (e : exn) :
  Forall P (trace (ensure ok e)).
Proof. destruct ok; constructor. Qed.

(** Goes through a run built from the combinators, leaving the events
    it emits and the loops it calls. *)
Ltac trace_forall :=
  repeat
    match goal with
    | |- Forall _ (trace (bind _ _)) =>
        apply Forall_trace_bind;
        [|let a := fresh "a" in
          let Ha := fresh "Ha" in
          intros a Ha;
          try (lazymatch type of Ha with
               | outcome (ret _) = Ok _ =>
                   cbv [outcome ret snd] in Ha; injection Ha as <-
               end)]
    | |- Forall _ (trace (try_finally _ _)) => apply Forall_trace_try_finally
    | |- Forall _ (trace (try_except _ _)) => apply Forall_trace_try_except; [|intros]
    | |- Forall _ (trace (try_except_interrupt _ _)) =>
        apply Forall_trace_try_except_interrupt
    | |- Forall _ (trace (emit _)) => apply Forall_trace_emit
    | |- Forall _ (trace (ensure _ _)) => apply Forall_trace_ensure
    | |- Forall _ (trace (retry_handler _ _ _ _ _)) =>
        unfold retry_handler, print_with_error, time_sleep
    | |- Forall _ (trace (ret _)) => constructor
    | |- Forall _ (trace (raise _)) => constructor
    | |- Forall _ (trace (_, _)) => cbn [trace fst]
    | |- Forall _ (trace (if ?b then _ else _)) => destruct b eqn:?
    | |- Forall _ (trace (match ?x with _ => _ end)) => destruct x eqn:?
    | |- Forall _ (trace (let '(_, _) := ?x in _)) => destruct x eqn:?
    end.

Section RestoreEvents.
Variable P : event -> Prop.
Hypothesis P_restore :
  forall e, restore_event e = true -> is_chunk_failed e = false -> P e.
Hypothesis P_failed : forall k m, P (ConsolePrint (MsgChunkFailed k m)).

Lemma drop_index_loop_events (env : RestoreEnv) (schema : list Z)
    (rows : list (list Z * list Z)) :
  forall i definitions,
    Forall P (fst (fst (drop_index_loop env schema rows i definitions))).
Proof.
  induction rows as [|[idx_name idx_def] rest IH]; intros i definitions;
    cbn [drop_index_loop]; [constructor|].
  destruct (bool_decide _); cbn; [repeat constructor; auto|].
  specialize (IH (S i) (definitions ++ [idx_def])).
  destruct (drop_index_loop env schema rest (S i) (definitions ++ [idx_def]))
    as [[t defs] ok].
  cbn in *. repeat constructor; auto.
Qed.

Lemma drop_non_pk_indexes_events (env : RestoreEnv) (table_name schema : list Z) :
  Forall P (trace (_drop_non_pk_indexes env table_name schema)).
Proof.
  unfold _drop_non_pk_indexes.
  destruct (idx_rows env) as [rows|].
  - pose proof (drop_index_loop_events env schema rows 0%nat []) as H.
    destruct (drop_index_loop env schema rows 0 []) as [[t defs] ok]. cbn in H.
    trace_forall; auto; constructor; auto; apply Forall_app;
      (split; [exact H|]); try destruct ok; repeat constructor; auto.
  - trace_forall; auto; repeat constructor; auto.
Qed.

Lemma rebuild_loop_events (env : RestoreEnv) (definitions : list (list Z)) :
  forall i, Forall P (trace (rebuild_loop env definitions i)).
Proof.
  induction definitions as [|defn rest IH]; intros i; cbn [rebuild_loop];
    trace_forall; auto.
Qed.

Lemma rebuild_indexes_events (env : RestoreEnv) (definitions : list (list Z)) :
  Forall P (trace (_rebuild_indexes env definitions)).
Proof.
  unfold _rebuild_indexes. trace_forall; auto using rebuild_loop_events.
Qed.

Lemma pre_restore_events (env : RestoreEnv) (dir : TableDir)
    (settings : DumpSettings.t) (table_name : list Z) (has_schema : bool) :
  Forall P (trace (_pre_restore env dir settings table_name has_schema)).
Proof. unfold _pre_restore. trace_forall; auto. Qed.

Lemma apply_attempt_events (env : RestoreEnv) (settings : DumpSettings.t)
    (table_name col_list dump_mode : list Z) (chunk_idx attempt : Z)
    (raw_data : list Z) :
  Forall P (trace (apply_attempt env settings table_name col_list dump_mode
                     chunk_idx attempt raw_data)).
Proof. unfold apply_attempt. trace_forall; auto. Qed.

Lemma apply_with_retry_events (env : RestoreEnv) (settings : DumpSettings.t)
    (table_name col_list dump_mode : list Z) (attempts : list Z) (chunk_idx : Z)
    (raw_data : list Z) (chunk_row_count rows_restored : Z) :
  Forall P (trace (apply_with_retry env settings table_name col_list dump_mode
                     attempts chunk_idx raw_data chunk_row_count rows_restored)).
Proof.
  induction attempts as [|attempt rest IH]; cbn [apply_with_retry];
    trace_forall; auto using apply_attempt_events.
Qed.

Lemma restore_loop_events (env : RestoreEnv) (dir : TableDir)
    (settings : DumpSettings.t) (table_name col_list dump_mode : list Z)
    (compressed : bool) (idxs : list Z) :
  forall rows_restored,
    Forall P (trace (restore_loop env dir settings table_name col_list dump_mode
                       compressed idxs rows_restored)).
Proof.
  induction idxs as [|chunk_idx rest IH]; intros rows_restored;
    cbn [restore_loop]; trace_forall; auto using apply_with_retry_events.
Qed.

Lemma restore_from_events (env : RestoreEnv) (dir : TableDir)
    (settings : DumpSettings.t) (manifest : ManifestDoc.t) (start_chunk : Z) :
  Forall P (trace (restore_from env dir settings manifest start_chunk)).
Proof.
  unfold restore_from.
  trace_forall;
    auto using pre_restore_events, drop_non_pk_indexes_events,
      restore_loop_events, rebuild_indexes_events.
Qed.

Lemma restore_table_events (env : RestoreEnv) (dir : TableDir)
    (settings : DumpSettings.t) :
  Forall P (trace (restore_table env dir settings)).
Proof.
  unfold restore_table. trace_forall; auto using restore_from_events.
Qed.
End RestoreEvents.

(** ** Ranges *)

Lemma range_In (a b i : Z) : In i (range a b) <-> a <= i < b.
Proof.
  unfold range. rewrite in_map_iff. split.
  - intros (n & <- & Hn). apply in_seq in Hn. lia.
  - intros H. exists (Z.to_nat (i - a)). split; [lia|]. apply in_seq. lia.
Qed.

Lemma range_snoc (a b : Z) : a <= b -> range a (b + 1) = range a b ++ [b].
Proof.
  intros H. unfold range.
  replace (Z.to_nat (b + 1 - a)) with (S (Z.to_nat (b - a))) by lia.
  rewrite seq_S, List.map_app. cbn [List.map]. do 2 f_equal. lia.
Qed.

Lemma range_length (a b : Z) : length (range a b) = Z.to_nat (b - a).
Proof. unfold range. rewrite length_map, length_seq. reflexivity. Qed.

(** ** Retrying a chunk *)

Lemma failed_Forall_or_Exists (t : list event) :
  Forall (fun e => is_chunk_failed e = false) t
  \/ Exists (fun e => is_chunk_failed e = true) t.
Proof.
  induction t as [|e t [IH|IH]]; [left; constructor| |right; right; exact IH].
  destruct (is_chunk_failed e) eqn:E; [right; left; exact E|left].
  constructor; assumption.
Qed.

Lemma failed_not_both (t : list event) :
  Forall (fun e => is_chunk_failed e = false) t ->
  ~ Exists (fun e => is_chunk_failed e = true) t.
Proof.
  intros Hf Hx. apply Exists_exists in Hx as (x & Hin & Hx).
  rewrite Forall_forall in Hf. rewrite (Hf x Hin) in Hx. discriminate.
Qed.

Section Retry.
Variable env : RestoreEnv.
Variable settings : DumpSettings.t.
Variables table_name col_list dump_mode : list Z.
Variable k : Z.
Variable raw_data : list Z.
Variable chunk_row_count : Z.

Local Abbreviation attempt i :=
  (apply_attempt env settings table_name col_list dump_mode k i raw_data).
Local Abbreviation retry attempts rows_restored :=
  (apply_with_retry env settings table_name col_list dump_mode attempts k raw_data
     chunk_row_count rows_restored).

Lemma attempt_raises_Exception (i : Z) (e : exn) :
  outcome (attempt i) = Raise e -> is_Exception e = true.
Proof.
  destruct (apply_attempt_cases env settings table_name col_list dump_mode k i
              raw_data) as [E|[E|[[ev E]|[[ev E]|[ev E]]]]];
    rewrite E; cbn; intros [= <-]; reflexivity.
Qed.

Lemma attempt_no_fuel (i : Z) : outcome (attempt i) <> Fuel.
Proof.
  destruct (apply_attempt_cases env settings table_name col_list dump_mode k i
              raw_data) as [E|[E|[[ev E]|[[ev E]|[ev E]]]]];
    rewrite E; discriminate.
Qed.

Lemma attempt_connections (i : Z) : connections (trace (attempt i)) = 1%nat.
Proof.
  destruct (apply_attempt_cases env settings table_name col_list dump_mode k i
              raw_data) as [E|[E|[[ev E]|[[ev E]|[ev E]]]]];
    rewrite E; try reflexivity.
  all: assert (Hev : is_Connect ev = false);
    [|unfold connections; cbn; rewrite Hev; reflexivity].
  all: revert E; unfold apply_attempt;
    destruct (apply_result env k i), (list_Z_eqb dump_mode (lit "insert"));
    try destruct (decode_utf8 raw_data);
    destruct (DumpSettings.use_transactions settings);
    cbn; intros [= <-]; reflexivity.
Qed.

(** The clause [except] of the retry loop, case by case. *)
Lemma retry_handler_cases (i : Z) (e : exn) :
  let h := retry_handler env settings k i e in
  let wait := DumpSettings.retry_backoff settings ^ i in
  (error_markup_ok env k i = false /\ h = ([], Raise MarkupError))
  \/ (i < DumpSettings.max_retries settings
      /\ (wait < - sleep_max \/ sleep_max < wait)
      /\ h = ([ConsolePrint (MsgRetry k i wait)], Raise OverflowError))
  \/ (i < DumpSettings.max_retries settings
      /\ - sleep_max <= wait < 0
      /\ h = ([ConsolePrint (MsgRetry k i wait)], Raise ValueError))
  \/ (reportable env settings k i
      /\ h = (after_failed_attempt settings k i,
              if i <? DumpSettings.max_retries settings then Ok None else Raise e)).
Proof.
  cbn zeta. unfold retry_handler, print_with_error, time_sleep, reportable,
    after_failed_attempt.
  destruct (error_markup_ok env k i); [|left; destruct (i <? _); auto].
  right. destruct (Z.ltb_spec i (DumpSettings.max_retries settings)) as [Hi|Hi].
  - destruct (Z.ltb_spec (DumpSettings.retry_backoff settings ^ i) (- sleep_max));
      [left; cbn; auto|].
    destruct (Z.ltb_spec sleep_max (DumpSettings.retry_backoff settings ^ i));
      [left; cbn; auto|].
    destruct (Z.ltb_spec (DumpSettings.retry_backoff settings ^ i) 0);
      cbn; [right; left; auto|].
    right; right. split; [split; [reflexivity|intros _; lia]|reflexivity].
  - right; right. split; [split; [reflexivity|intros; lia]|reflexivity].
Qed.

Lemma retry_handler_reportable (i : Z) (e : exn) :
  reportable env settings k i ->
  retry_handler env settings k i e
  = (after_failed_attempt settings k i,
     if i <? DumpSettings.max_retries settings then Ok None else Raise e).
Proof.
  intros [Hm Hw].
  destruct (retry_handler_cases i e) as [[E _]|[(Hi & Hb & _)|[(Hi & Hb & _)|[_ E]]]];
    [rewrite Hm in E; discriminate E|specialize (Hw Hi); lia ..|exact E].
Qed.

Lemma retry_handler_outcome (i : Z) (e : exn) :
  outcome (retry_handler env settings k i e) = Ok None
  \/ exists e', outcome (retry_handler env settings k i e) = Raise e'.
Proof.
  destruct (retry_handler_cases i e) as [[_ E]|[(_ & _ & E)|[(_ & _ & E)|[_ E]]]];
    rewrite E; cbn [outcome snd]; eauto.
  destruct (i <? _); eauto.
Qed.

Lemma retry_handler_connections (i : Z) (e : exn) :
  List.filter is_Connect (trace (retry_handler env settings k i e)) = [].
Proof.
  destruct (retry_handler_cases i e) as [[_ E]|[(_ & _ & E)|[(_ & _ & E)|[_ E]]]];
    rewrite E; try reflexivity.
  unfold after_failed_attempt. destruct (i <? _); reflexivity.
Qed.

(** One turn of the retry loop, by how the attempt and the clause end. *)
Lemma retry_cons (i : Z) (rest : list Z) (rows_restored : Z) :
  retry (i :: rest) rows_restored
  = match outcome (attempt i) with
    | Ok _ => (trace (attempt i), Ok (rows_restored + chunk_row_count))
    | Raise e =>
        match outcome (retry_handler env settings k i e) with
        | Ok _ =>
            (trace (attempt i) ++ trace (retry_handler env settings k i e)
             ++ trace (retry rest rows_restored),
             outcome (retry rest rows_restored))
        | Raise e' =>
            (trace (attempt i) ++ trace (retry_handler env settings k i e), Raise e')
        | Fuel => (trace (attempt i) ++ trace (retry_handler env settings k i e), Fuel)
        end
    | Fuel => (trace (attempt i), Fuel)
    end.
Proof.
  cbn [apply_with_retry].
  pose proof (attempt_raises_Exception i) as Hex.
  destruct (attempt i) as [t [[]|e|]]; cbn [trace outcome fst snd] in *.
  - cbn. rewrite !app_nil_r. reflexivity.
  - cbn [bind try_except]. rewrite (Hex e eq_refl).
    destruct (retry_handler_outcome i e) as [Ho|[e' Ho]];
      destruct (retry_handler env settings k i e) as [t' r];
      cbn [outcome snd trace fst] in *; subst r; cbn.
    + destruct (retry rest rows_restored) as [t'' r'']. cbn.
      rewrite <- !app_assoc. reflexivity.
    + reflexivity.
  - reflexivity.
Qed.

(** One turn when the failed attempt can be reported and waited for. *)
Lemma retry_cons_reportable (i : Z) (rest : list Z) (rows_restored : Z) (e : exn) :
  outcome (attempt i) = Raise e ->
  reportable env settings k i ->
  retry (i :: rest) rows_restored
  = if i <? DumpSettings.max_retries settings
    then (trace (attempt i) ++ after_failed_attempt settings k i
          ++ trace (retry rest rows_restored),
          outcome (retry rest rows_restored))
    else (trace (attempt i) ++ after_failed_attempt settings k i, Raise e).
Proof.
  intros He Hr. rewrite retry_cons, He, (retry_handler_reportable i e Hr).
  cbn [outcome trace fst snd]. destruct (i <? _); reflexivity.
Qed.

Lemma retry_connections (attempts : list Z) (rows_restored : Z) :
  (connections (trace (retry attempts rows_restored)) <= length attempts)%nat.
Proof.
  induction attempts as [|i rest IH]; [cbn; lia|].
  rewrite retry_cons. pose proof (attempt_connections i) as Hc.
  unfold connections in *.
  destruct (outcome (attempt i)) as [?|e|]; cbn [trace fst length]; try lia.
  pose proof (retry_handler_connections i e) as Hh.
  destruct (outcome (retry_handler env settings k i e)); cbn [trace fst];
    rewrite !List.filter_app, ?Hh, !length_app; cbn [length]; lia.
Qed.

(** The attempts before the last, when they all fail. *)
Lemma retry_failing_prefix (l rest : list Z) (rows_restored : Z) :
  (forall i, In i l ->
             i < DumpSettings.max_retries settings
             /\ reportable env settings k i
             /\ outcome (attempt i) <> Ok tt) ->
  retry (l ++ rest) rows_restored
  = (List.flat_map (fun i => trace (attempt i) ++ after_failed_attempt settings k i) l
     ++ trace (retry rest rows_restored),
     outcome (retry rest rows_restored)).
Proof.
  induction l as [|i l IH]; intros H.
  - cbn. apply M_eta.
  - cbn [app].
    destruct (H i (or_introl eq_refl)) as (Hlt & Hr & Hfail).
    pose proof (attempt_no_fuel i) as Hnf.
    destruct (outcome (attempt i)) as [[]|e|] eqn:Ea; try contradiction.
    rewrite (retry_cons_reportable i _ _ e Ea Hr).
    apply Z.ltb_lt in Hlt. rewrite Hlt.
    rewrite IH by (intros j Hj; apply H; right; exact Hj).
    cbn [trace outcome fst snd List.flat_map]. rewrite <- !app_assoc. reflexivity.
Qed.

(** All attempts fail: the whole run of the retry loop. *)
Lemma retry_exhausted (rows_restored : Z) :
  1 <= DumpSettings.max_retries settings ->
  (forall i, 1 <= i <= DumpSettings.max_retries settings ->
             reportable env settings k i) ->
  (forall i, 1 <= i <= DumpSettings.max_retries settings ->
             outcome (attempt i) <> Ok tt) ->
  exists e,
    outcome (attempt (DumpSettings.max_retries settings)) = Raise e
    /\ retry (range 1 (DumpSettings.max_retries settings + 1)) rows_restored
       = (List.flat_map
            (fun i => trace (attempt i) ++ after_failed_attempt settings k i)
            (range 1 (DumpSettings.max_retries settings + 1)),
          Raise e).
Proof.
  intros Hmax Hrep Hfail. remember (DumpSettings.max_retries settings) as n eqn:Hn'.
  pose proof (attempt_no_fuel n) as Hnf.
  specialize (Hfail n ltac:(lia)) as Hn.
  destruct (outcome (attempt n)) as [[]|e|] eqn:En; try contradiction.
  exists e. split; [reflexivity|].
  rewrite range_snoc by lia.
  rewrite retry_failing_prefix.
  - rewrite (retry_cons_reportable n _ _ e En (Hrep n ltac:(lia))).
    rewrite <- Hn', Z.ltb_irrefl.
    cbn [trace outcome fst snd]. rewrite flat_map_app. cbn [List.flat_map].
    rewrite app_nil_r. reflexivity.
  - intros i Hi. apply range_In in Hi. split; [lia|].
    split; [apply Hrep; lia|apply Hfail; lia].
Qed.

(** The report of an exhausted chunk is followed by the state write and
    ends the loop with the exception. *)
Lemma retry_chunk_failed (attempts : list Z) (rows_restored : Z) :
  Exists (fun e => is_chunk_failed e = true) (trace (retry attempts rows_restored)) ->
  exists pre e,
    Forall (fun e => is_chunk_failed e = false) pre
    /\ retry attempts rows_restored
       = (pre ++ [ConsolePrint (MsgChunkFailed k (DumpSettings.max_retries settings));
                  WriteState k],
          Raise e).
Proof.
  induction attempts as [|i rest IH]; intros H.
  - cbn in H. inversion H.
  - rewrite retry_cons in H |- *.
    assert (Ha : Forall (fun e => is_chunk_failed e = false) (trace (attempt i)))
      by (apply apply_attempt_events; auto).
    pose proof (failed_not_both _ Ha) as Hno.
    destruct (outcome (attempt i)) as [[]|e|]; cbn [trace fst] in H;
      try contradiction.
    assert (Hclean : forall t : list event,
               t = [] \/ (exists w, t = [ConsolePrint (MsgRetry k i w)])
               \/ (exists w, t = [ConsolePrint (MsgRetry k i w); Sleep w]) ->
               Forall (fun e => is_chunk_failed e = false) t).
    { intros t [->|[[w ->]|[w ->]]]; repeat constructor. }
    destruct (retry_handler_cases i e)
      as [[_ E]|[(_ & _ & E)|[(_ & _ & E)|[_ E]]]]; rewrite E in H |- *;
      cbn [outcome trace fst snd] in H |- *.
    1-3: exfalso; apply Exists_app in H as [H|H]; [contradiction|];
      revert H; apply failed_not_both, Hclean; eauto.
    unfold after_failed_attempt in *.
    destruct (i <? DumpSettings.max_retries settings); cbn [trace fst] in H |- *.
    + apply Exists_app in H as [H|H]; [contradiction|].
      apply Exists_app in H as [H|H].
      * exfalso. revert H. apply failed_not_both, Hclean. eauto.
      * destruct (IH H) as (pre & e' & Hpre & E'). rewrite E'.
        cbn [trace outcome fst snd].
        exists (trace (attempt i)
                ++ [ConsolePrint (MsgRetry k i (DumpSettings.retry_backoff settings ^ i));
                    Sleep (DumpSettings.retry_backoff settings ^ i)] ++ pre), e'.
        split; [|rewrite <- !app_assoc; reflexivity].
        apply Forall_app. split; [exact Ha|]. repeat constructor. exact Hpre.
    + exists (trace (attempt i)), e. split; [exact Ha|reflexivity].
Qed.
End Retry.

(** ** A chunk that fails on its last attempt, in the whole restore *)

Lemma restore_loop_chunk_failed (env : RestoreEnv) (dir : TableDir)
    (settings : DumpSettings.t) (table_name col_list dump_mode : list Z)
    (compressed : bool) (idxs : list Z) :
  forall rows_restored,
    Exists (fun e => is_chunk_failed e = true)
      (trace (restore_loop env dir settings table_name col_list dump_mode
                compressed idxs rows_restored)) ->
    exists pre k e,
      In k idxs
      /\ Forall (fun e => is_chunk_failed e = false) pre
      /\ restore_loop env dir settings table_name col_list dump_mode compressed
           idxs rows_restored
         = (pre ++ [ConsolePrint (MsgChunkFailed k (DumpSettings.max_retries settings));
                    WriteState k],
            Raise e).
Proof.
  induction idxs as [|chunk_idx rest IH]; intros rows_restored H.
  - cbn in H. inversion H.
  - cbn [restore_loop] in H |- *.
    destruct (restore_interrupted_at env chunk_idx).
    { cbn in H. inversion H as [? ? Hx|? ? Hx]; [discriminate Hx|inversion Hx]. }
    destruct (chunk_files dir !! _) as [raw_data|].
    2:{ cbn in H. inversion H as [? ? Hx|? ? Hx]; [discriminate Hx|inversion Hx]. }
    set (run := apply_with_retry env settings table_name col_list dump_mode
                  (range 1 (DumpSettings.max_retries settings + 1)) chunk_idx
                  raw_data (_count_rows_for_mode raw_data dump_mode) rows_restored)
      in *.
    destruct (failed_Forall_or_Exists (trace run)) as [Hclean|Hfail].
    + pose proof (failed_not_both _ Hclean) as Hno.
      rewrite trace_bind in H. apply Exists_app in H as [H|H]; [contradiction|].
      destruct run as [t [rows|e|]] eqn:Erun; cbn [outcome snd] in H;
        try (inversion H; fail).
      rewrite !trace_bind in H. cbn [trace outcome emit fst snd app] in H.
      inversion H as [? ? Hx|? ? Hx]; [discriminate Hx|].
      inversion Hx as [? ? Hy|? ? Hy]; [discriminate Hy|].
      destruct (IH rows Hy) as (pre & k & e & Hk & Hpre & E).
      exists (t ++ [WriteState (chunk_idx + 1);
                    ProgressUpdate rows (chunk_idx + 1)] ++ pre), k, e.
      split; [right; exact Hk|]. split.
      * apply Forall_app. split; [exact Hclean|]. repeat constructor. exact Hpre.
      * cbn [bind emit]. rewrite E. cbn. rewrite <- !app_assoc. reflexivity.
    + destruct (retry_chunk_failed env settings table_name col_list dump_mode
                  chunk_idx raw_data (_count_rows_for_mode raw_data dump_mode)
                  _ rows_restored Hfail) as (pre & e & Hpre & E).
      fold run in E. exists pre, chunk_idx, e.
      split; [left; reflexivity|]. split; [exact Hpre|].
      rewrite E. reflexivity.
Qed.

Lemma restore_from_chunk_failed (env : RestoreEnv) (dir : TableDir)
    (settings : DumpSettings.t) (manifest : ManifestDoc.t) (start_chunk : Z) :
  Exists (fun e => is_chunk_failed e = true)
    (trace (restore_from env dir settings manifest start_chunk)) ->
  exists pre k e,
    start_chunk <= k < ManifestDoc.chunks_total manifest
    /\ Forall (fun e => is_chunk_failed e = false) pre
    /\ restore_from env dir settings manifest start_chunk
       = (pre ++ [ConsolePrint (MsgChunkFailed k (DumpSettings.max_retries settings));
                  WriteState k; ProgressEnd],
          Raise e).
Proof.
  unfold restore_from.
  set (hooks := if start_chunk =? 0 then _pre_restore _ _ _ _ _ else ret tt).
  set (drops := if _ && _ then _drop_non_pk_indexes _ _ _ else ret []).
  set (loop := restore_loop _ _ _ _ _ _ _ _ _).
  assert (Hh : Forall (fun e => is_chunk_failed e = false) (trace hooks)).
  { subst hooks. destruct (start_chunk =? 0); [|constructor].
    apply pre_restore_events; auto. }
  assert (Hd : Forall (fun e => is_chunk_failed e = false) (trace drops)).
  { subst drops. destruct (_ && _); [|constructor].
    apply drop_non_pk_indexes_events; auto. }
  intros H.
  destruct (failed_Forall_or_Exists (trace loop)) as [Hclean|Hfail].
  - exfalso. revert H. apply failed_not_both.
    trace_forall; auto using rebuild_indexes_events.
  - destruct (restore_loop_chunk_failed _ _ _ _ _ _ _ _ _ Hfail)
      as (pre & k & e & Hk & Hpre & E).
    fold loop in E. rewrite E in H |- *. apply range_In in Hk.
    destruct hooks as [t1 [[]|e1|]]; cbn [trace fst] in Hh;
      try (cbn in H; apply failed_not_both in Hh; contradiction).
    destruct drops as [t2 [dropped|e2|]]; cbn [trace fst] in Hd;
      try (cbn in H; rewrite ?app_nil_r in H; apply Exists_app in H as [H|H];
           [apply failed_not_both in Hh|apply failed_not_both in Hd];
           contradiction).
    exists (t1 ++ t2 ++ [ProgressBegin start_chunk (ManifestDoc.chunks_total manifest)]
            ++ pre), k, e.
    split; [exact Hk|]. split.
    + repeat (apply Forall_app; split); auto; repeat constructor.
    + cbn. rewrite <- !app_assoc. reflexivity.
Qed.

Lemma restore_table_chunk_failed (env : RestoreEnv) (dir : TableDir)
    (settings : DumpSettings.t) :
  Exists (fun e => is_chunk_failed e = true)
    (trace (restore_table env dir settings)) ->
  exists manifest pre k e,
    manifest_json dir = Some manifest
    /\ (ManifestDoc.total_rows manifest =? 0) = false
    /\ k < ManifestDoc.chunks_total manifest
    /\ Forall (fun e => is_chunk_failed e = false) pre
    /\ restore_table env dir settings
       = (pre ++ [ConsolePrint (MsgChunkFailed k (DumpSettings.max_retries settings));
                  WriteState k; ProgressEnd],
          Raise e).
Proof.
  unfold restore_table.
  destruct (manifest_json dir) as [manifest|];
    [|intros H; cbn in H; inversion H as [? ? Hx|? ? Hx];
      [discriminate Hx|inversion Hx]].
  destruct (ManifestDoc.total_rows manifest =? 0) eqn:Ez;
    [intros H; cbn in H; inversion H as [? ? Hx|? ? Hx];
     [discriminate Hx|inversion Hx]|].
  assert (Hgo : forall (t0 : list event) start_chunk,
             Forall (fun e => is_chunk_failed e = false) t0 ->
             Exists (fun e => is_chunk_failed e = true)
               (trace (bind (t0, Ok (Some start_chunk))
                         (fun start =>
                            match start with
                            | None => ret tt
                            | Some start_chunk =>
                                restore_from env dir settings manifest start_chunk
                            end))) ->
             exists manifest0 pre k e,
               Some manifest = Some manifest0
               /\ (ManifestDoc.total_rows manifest0 =? 0) = false
               /\ k < ManifestDoc.chunks_total manifest0
               /\ Forall (fun e => is_chunk_failed e = false) pre
               /\ bind (t0, Ok (Some start_chunk))
                    (fun start =>
                       match start with
                       | None => ret tt
                       | Some start_chunk =>
                           restore_from env dir settings manifest start_chunk
                       end)
                  = (pre ++ [ConsolePrint (MsgChunkFailed k (DumpSettings.max_retries settings));
                             WriteState k; ProgressEnd],
                     Raise e)).
  { intros t0 start_chunk Ht0 H. rewrite trace_bind in H. cbn [trace outcome fst snd] in H.
    apply Exists_app in H as [H|H]; [apply failed_not_both in Ht0; contradiction|].
    destruct (restore_from_chunk_failed env dir settings manifest start_chunk H)
      as (pre & k & e & Hk & Hpre & E).
    exists manifest, (t0 ++ pre), k, e.
    split; [reflexivity|]. split; [exact Ez|]. split; [lia|].
    split; [apply Forall_app; split; assumption|].
    cbn [bind]. rewrite E. rewrite <- app_assoc. reflexivity. }
  destruct (restore_state_json dir) as [state|].
  - destruct (default 0 state >=? ManifestDoc.chunks_total manifest).
    + intros H. cbn in H. inversion H as [? ? Hx|? ? Hx];
        [discriminate Hx|inversion Hx].
    + destruct (default 0 state >? 0).
      * intros H.
        exact (Hgo [ConsolePrint (MsgResumingRestore (ManifestDoc.table manifest)
                             (default 0 state))]
                 (default 0 state) ltac:(repeat constructor) H).
      * intros H. exact (Hgo [] (default 0 state) ltac:(constructor) H).
  - intros H. exact (Hgo [] 0 ltac:(constructor) H).
Qed.

(** A restore touches no file of the directory but its state. *)
Lemma restore_events_preserve (t : list event) :
  Forall (fun e => restore_event e = true) t ->
  forall d,
    manifest_json (apply_events d t) = manifest_json d
    /\ schema_sql (apply_events d t) = schema_sql d
    /\ chunk_files (apply_events d t) = chunk_files d.
Proof.
  induction 1 as [|e t He _ IH]; intros d; [auto|].
  cbn [apply_events fold_left]. fold (apply_events (apply_event d e) t).
  destruct (IH (apply_event d e)) as (-> & -> & ->).
  destruct e; try discriminate He; auto.
Qed.

Lemma restore_table_restore_events (env : RestoreEnv) (dir : TableDir)
    (settings : DumpSettings.t) :
  Forall (fun e => restore_event e = true) (trace (restore_table env dir settings)).
Proof. apply restore_table_events; auto. Qed.

(** The claim as first stated has the restore wait after a failed
    attempt and try again, and write the state and raise the error of the
    attempt after the last one.  On the sample dump, with three attempts
    allowed and every attempt failing in the database: with
    [retry_backoff = -2] the first wait is refused by [time.sleep] with
    [ValueError]; with [retry_backoff = 10 ** 10] it is refused with
    [OverflowError]; and when the console does not take the text of the
    error, the report of the first failure raises [MarkupError].  In each
    case the restore ends in that exception after a single attempt and
    never writes its state. *)
Lemma restore_retry_handler_raises_counterexample :
  (forall b,
     DumpSettings.max_retries (sample_settings_backoff b) = 3
     /\ forall i,
          outcome (apply_attempt (restore_env_with (fun _ _ => ExecuteFails))
                     (sample_settings_backoff b) (lit "t") (lit "id, s")
                     (lit "copy") 0 i sample_copy_data)
          = Raise DatabaseError)
  /\ (let run := restore_table (restore_env_with (fun _ _ => ExecuteFails))
                   sample_dir (sample_settings_backoff (-2)) in
      outcome run = Raise ValueError
      /\ length (List.filter is_copy_in (trace run)) = 1%nat
      /\ Forall (fun e => forall secs n, e <> Sleep secs /\ e <> WriteState n)
           (trace run)
      /\ restore_state_json (apply_events sample_dir (trace run)) = None)
  /\ (let run := restore_table (restore_env_with (fun _ _ => ExecuteFails))
                   sample_dir (sample_settings_backoff (10 ^ 10)) in
      outcome run = Raise OverflowError
      /\ length (List.filter is_copy_in (trace run)) = 1%nat
      /\ Forall (fun e => forall secs n, e <> Sleep secs /\ e <> WriteState n)
           (trace run)
      /\ restore_state_json (apply_events sample_dir (trace run)) = None)
  /\ (let run := restore_table restore_env_markup sample_dir
                   (sample_settings_backoff 2) in
      outcome run = Raise MarkupError
      /\ length (List.filter is_copy_in (trace run)) = 1%nat
      /\ Forall (fun e => forall secs n, e <> Sleep secs /\ e <> WriteState n)
           (trace run)
      /\ restore_state_json (apply_events sample_dir (trace run)) = None).
Proof.
  split; [intros b; split; [reflexivity|intros i; reflexivity]|].
  repeat split; try reflexivity;
    vm_compute; repeat constructor; discriminate.
Qed.

(** C3: applying chunk [k] takes at most [max_retries] attempts.  Each
    attempt opens one connection of its own, and an attempt that raises
    after connecting rolls back and closes it.  A failed attempt [i] is
    reportable when the console takes the text of its error and, below
    [max_retries], [retry_backoff ** i] is a length [time.sleep] accepts.
    After a reportable failed attempt [i] below [max_retries] the restore
    sleeps [retry_backoff ** i] seconds and tries again; after the
    reportable failed attempt [max_retries] it writes [chunks_restored =
    k] and raises the error again.  When every attempt fails and is
    reportable the run is exactly these attempts with these waits, ending
    in the state write.  In the whole restore the report of the exhausted
    chunk [k] is followed by this state write alone, the restore ends in
    the exception, the state file holds [k], and a rerun on the directory
    left behind starts its chunk loop at [k]. *)
Theorem restore_retry_exhaustion (env : RestoreEnv) (dir : TableDir)
    (settings : DumpSettings.t) (table_name col_list dump_mode : list Z)
    (k : Z) (raw_data : list Z) (chunk_row_count rows_restored : Z) :
  1 <= DumpSettings.max_retries settings ->
  (forall i,
      connections (trace (apply_attempt env settings table_name col_list dump_mode
                            k i raw_data)) = 1%nat
      /\ forall e,
           outcome (apply_attempt env settings table_name col_list dump_mode
                      k i raw_data) = Raise e ->
           trace (apply_attempt env settings table_name col_list dump_mode
                    k i raw_data) = [Connect]
           \/ exists body,
                trace (apply_attempt env settings table_name col_list dump_mode
                         k i raw_data) = Connect :: body ++ [Rollback; Close])
  /\ (connections
        (trace (apply_with_retry env settings table_name col_list dump_mode
                  (range 1 (DumpSettings.max_retries settings + 1)) k raw_data
                  chunk_row_count rows_restored))
      <= Z.to_nat (DumpSettings.max_retries settings))%nat
  /\ (forall i rest e,
        outcome (apply_attempt env settings table_name col_list dump_mode
                   k i raw_data) = Raise e ->
        reportable env settings k i ->
        apply_with_retry env settings table_name col_list dump_mode (i :: rest) k
          raw_data chunk_row_count rows_restored
        = if i <? DumpSettings.max_retries settings
          then (trace (apply_attempt env settings table_name col_list dump_mode
                         k i raw_data)
                ++ [ConsolePrint (MsgRetry k i (DumpSettings.retry_backoff settings ^ i));
                    Sleep (DumpSettings.retry_backoff settings ^ i)]
                ++ trace (apply_with_retry env settings table_name col_list
                            dump_mode rest k raw_data chunk_row_count
                            rows_restored),
                outcome (apply_with_retry env settings table_name col_list
                           dump_mode rest k raw_data chunk_row_count
                           rows_restored))
          else (trace (apply_attempt env settings table_name col_list dump_mode
                         k i raw_data)
                ++ [ConsolePrint (MsgChunkFailed k (DumpSettings.max_retries settings));
                    WriteState k],
                Raise e))
  /\ (forall i, 1 <= i < DumpSettings.max_retries settings ->
                after_failed_attempt settings k i
                = [ConsolePrint (MsgRetry k i (DumpSettings.retry_backoff settings ^ i));
                   Sleep (DumpSettings.retry_backoff settings ^ i)])
  /\ after_failed_attempt settings k (DumpSettings.max_retries settings)
     = [ConsolePrint (MsgChunkFailed k (DumpSettings.max_retries settings)); WriteState k]
  /\ ((forall i, 1 <= i <= DumpSettings.max_retries settings ->
                 reportable env settings k i) ->
      (forall i, 1 <= i <= DumpSettings.max_retries settings ->
                 outcome (apply_attempt env settings table_name col_list dump_mode
                            k i raw_data) <> Ok tt) ->
      exists e,
        outcome (apply_attempt env settings table_name col_list dump_mode k
                   (DumpSettings.max_retries settings) raw_data) = Raise e
        /\ apply_with_retry env settings table_name col_list dump_mode
             (range 1 (DumpSettings.max_retries settings + 1)) k raw_data
             chunk_row_count rows_restored
           = (List.flat_map
                (fun i =>
                   trace (apply_attempt env settings table_name col_list
                            dump_mode k i raw_data)
                   ++ after_failed_attempt settings k i)
                (range 1 (DumpSettings.max_retries settings + 1)),
              Raise e))
  /\ (In (ConsolePrint (MsgChunkFailed k (DumpSettings.max_retries settings)))
        (trace (restore_table env dir settings)) ->
      exists manifest pre e,
        manifest_json dir = Some manifest
        /\ k < ManifestDoc.chunks_total manifest
        /\ restore_table env dir settings
           = (pre ++ [ConsolePrint (MsgChunkFailed k (DumpSettings.max_retries settings));
                      WriteState k; ProgressEnd],
              Raise e)
        /\ restore_state_json (apply_events dir (trace (restore_table env dir settings)))
           = Some (Some k)
        /\ forall env' settings',
             restore_table env'
               (apply_events dir (trace (restore_table env dir settings))) settings'
             = ((if k >? 0
                 then emit (ConsolePrint (MsgResumingRestore (ManifestDoc.table manifest) k))
                 else ret tt) ;;;
                restore_from env'
                  (apply_events dir (trace (restore_table env dir settings)))
                  settings' manifest k)).
Proof.
  intros Hmax. split; [|split; [|split; [|split; [|split; [|split]]]]].
  - intros i. split; [apply attempt_connections|]. intros e He.
    destruct (apply_attempt_cases env settings table_name col_list dump_mode k i
                raw_data) as [E|[E|[[ev E]|[[ev E]|[ev E]]]]];
      rewrite E in He |- *; cbn [trace outcome fst snd] in *.
    + left. reflexivity.
    + right. exists []. reflexivity.
    + right. exists [ev]. reflexivity.
    + right. exists [ev; Commit]. reflexivity.
    + discriminate He.
  - etransitivity; [apply retry_connections|]. rewrite range_length. lia.
  - intros i rest e He Hr.
    rewrite (retry_cons_reportable env settings table_name col_list dump_mode k
               raw_data chunk_row_count i rest rows_restored e He Hr).
    unfold after_failed_attempt. destruct (i <? _); reflexivity.
  - intros i Hi. unfold after_failed_attempt.
    destruct (Z.ltb_spec i (DumpSettings.max_retries settings)); [reflexivity|lia].
  - unfold after_failed_attempt. rewrite Z.ltb_irrefl. reflexivity.
  - intros Hrep Hfail. apply retry_exhausted; assumption.
  - intros Hin.
    assert (Hex : Exists (fun e => is_chunk_failed e = true)
                    (trace (restore_table env dir settings))).
    { apply Exists_exists. eexists.
      split; [apply list_elem_of_In; exact Hin|reflexivity]. }
    destruct (restore_table_chunk_failed env dir settings Hex)
      as (manifest & pre & k' & e & Hm & Hz & Hk & Hpre & E).
    assert (k' = k) as ->.
    { rewrite E in Hin. cbn [trace fst] in Hin. apply in_app_or in Hin as [Hin|Hin].
      - rewrite Forall_forall in Hpre. apply list_elem_of_In in Hin.
        apply Hpre in Hin. discriminate Hin.
      - destruct Hin as [Hin|[Hin|[Hin|[]]]]; try discriminate Hin.
        injection Hin as ->. reflexivity. }
    exists manifest, pre, e.
    split; [exact Hm|]. split; [exact Hk|]. split; [exact E|].
    pose proof (restore_table_restore_events env dir settings) as Hev.
    destruct (restore_events_preserve _ Hev dir) as (Hm' & _ & _).
    assert (Hst : restore_state_json
                    (apply_events dir (trace (restore_table env dir settings)))
                  = Some (Some k)).
    { rewrite E. cbn [trace fst]. rewrite apply_events_app. reflexivity. }
    split; [exact Hst|].
    intros env' settings'. unfold restore_table at 1.
    rewrite Hm', Hm, Hz, Hst. change (default 0 (Some k)) with k.
    rewrite Z.geb_leb.
    destruct (Z.leb_spec (ManifestDoc.chunks_total manifest) k); [lia|].
    destruct (k >? 0); cbn [bind emit ret];
      destruct (restore_from env' _ settings' manifest k); reflexivity.
Qed.

Lemma restore_retry_exhaustion_witness :
  1 <= DumpSettings.max_retries (sample_settings (lit "copy") true false false false)
  /\ (forall i, 1 <= i <= 3 ->
                reportable (restore_env_with (fun _ _ => ExecuteFails))
                  (sample_settings (lit "copy") true false false false) 0 i)
  /\ (connections
        (trace (apply_with_retry (restore_env_with (fun _ _ => ExecuteFails))
                  (sample_settings (lit "copy") true false false false)
                  (lit "t") (lit "id, s") (lit "copy") (range 1 (3 + 1)) 0
                  sample_copy_data 2 0))
      <= 3)%nat
  /\ exists e,
       apply_with_retry (restore_env_with (fun _ _ => ExecuteFails))
         (sample_settings (lit "copy") true false false false)
         (lit "t") (lit "id, s") (lit "copy") (range 1 (3 + 1)) 0
         sample_copy_data 2 0
       = (List.flat_map
            (fun i =>
               trace (apply_attempt (restore_env_with (fun _ _ => ExecuteFails))
                        (sample_settings (lit "copy") true false false false)
                        (lit "t") (lit "id, s") (lit "copy") 0 i sample_copy_data)
               ++ after_failed_attempt
                    (sample_settings (lit "copy") true false false false) 0 i)
            (range 1 (3 + 1)),
          Raise e).
Proof.
  assert (H : 1 <= DumpSettings.max_retries
                     (sample_settings (lit "copy") true false false false))
    by (cbn; lia).
  assert (Hr : forall i, 1 <= i <= 3 ->
                 reportable (restore_env_with (fun _ _ => ExecuteFails))
                   (sample_settings (lit "copy") true false false false) 0 i).
  { intros i Hi. split; [reflexivity|]. cbn. intros Hlt.
    assert (Hc : i = 1 \/ i = 2) by lia.
    destruct Hc as [-> | ->]; unfold sleep_max; cbn; lia. }
  split; [exact H|]. split; [exact Hr|].
  destruct (restore_retry_exhaustion (restore_env_with (fun _ _ => ExecuteFails))
              sample_dir (sample_settings (lit "copy") true false false false)
              (lit "t") (lit "id, s") (lit "copy") 0 sample_copy_data 2 0 H)
    as (_ & Hc & _ & _ & _ & Hx & _).
  split; [exact Hc|].
  destruct (Hx Hr) as (e & _ & E); [intros i _; discriminate|].
  exists e. exact E.
Defined.
(** ** The dump: what every manifest write records *)

Lemma set_chunks_completed_filename (m : DumpManifest.t) (n idx : Z) :
  DumpManifest.chunk_filename (DumpManifest.set_chunks_completed m n) idx
  = DumpManifest.chunk_filename m idx.
Proof. reflexivity. Qed.

Section DumpEvents.
Variable env : DumpEnv.
Variable table : TableInfo.t.
Variable settings : DumpSettings.t.
Variable P : event -> Prop.
Variable Q : DumpManifest.t -> Prop.
Hypothesis P_other : forall e, (forall m, e <> WriteManifest m) -> P e.
Hypothesis P_manifest : forall m, Q m -> P (WriteManifest m).
Hypothesis Q_completed :
  forall m n, Q m -> Q (DumpManifest.set_chunks_completed m n).

Lemma dump_chunk_events (schema_ddl : option (list Z))
    (index_defs : list (list Z * list Z)) (start_chunk chunks_total chunk_rows : Z)
    (col_list order_clause : list Z) (chunk_idx rows_dumped : Z)
    (manifest : DumpManifest.t) :
  Q manifest ->
  Forall P (trace (dump_chunk env table settings schema_ddl index_defs start_chunk
                     chunks_total chunk_rows col_list order_clause chunk_idx
                     rows_dumped manifest))
  /\ forall st,
       outcome (dump_chunk env table settings schema_ddl index_defs start_chunk
                  chunks_total chunk_rows col_list order_clause chunk_idx
                  rows_dumped manifest) = Ok st ->
       Q (snd st).
Proof.
  intros HQ. unfold dump_chunk, _write_manifest. split.
  - trace_forall; try (apply P_other; discriminate); auto.
  - intros st.
    destruct (copy_result env chunk_idx); cbn; try discriminate.
    destruct (list_Z_eqb _ _); [destruct (_build_sql_chunk _ _ _ _ _ _ _ _)|];
      cbn; try discriminate;
      destruct (chunk_write env chunk_idx); cbn; try discriminate;
      intros [= <-]; cbn; auto.
Qed.

Lemma dump_loop_events (schema_ddl : option (list Z))
    (index_defs : list (list Z * list Z)) (start_chunk chunks_total chunk_rows : Z)
    (col_list order_clause : list Z) (fuel : nat) :
  forall chunk_idx rows_dumped manifest,
    Q manifest ->
    Forall P (trace (dump_loop env table settings schema_ddl index_defs start_chunk
                       chunks_total chunk_rows col_list order_clause fuel chunk_idx
                       rows_dumped manifest))
    /\ forall st,
         outcome (dump_loop env table settings schema_ddl index_defs start_chunk
                    chunks_total chunk_rows col_list order_clause fuel chunk_idx
                    rows_dumped manifest) = Ok st ->
         Q (snd st).
Proof.
  induction fuel as [|fuel IH]; intros chunk_idx rows_dumped manifest HQ;
    cbn [dump_loop]; destruct (_ && _).
  - split; [constructor|discriminate].
  - split; [constructor|]. intros st [= <-]. exact HQ.
  - destruct (dump_chunk_events schema_ddl index_defs start_chunk chunks_total
                chunk_rows col_list order_clause chunk_idx rows_dumped manifest HQ)
      as [Ht Ho].
    rewrite trace_bind, outcome_bind.
    destruct (outcome (dump_chunk _ _ _ _ _ _ _ _ _ _ _ _ _)) as [st| |];
      [|split; [rewrite app_nil_r; exact Ht|discriminate] ..].
    destruct (IH (snd (fst st)) (fst (fst st)) (snd st) (Ho st eq_refl)) as [Ht' Ho'].
    split; [apply Forall_app; split; assumption|exact Ho'].
  - split; [constructor|]. intros st [= <-]. exact HQ.
Qed.
End DumpEvents.

Lemma ceil_div_formula (a d : Z) :
  0 < a -> 1 <= d -> is_ceil_div a d ((a + d - 1) / d).
Proof.
  intros Ha Hd. unfold is_ceil_div.
  pose proof (Z.div_mod (a + d - 1) d ltac:(lia)) as E.
  pose proof (Z.mod_pos_bound (a + d - 1) d ltac:(lia)) as B.
  split; [nia|]. intros k Hk.
  destruct (Z.le_gt_cases ((a + d - 1) / d) k) as [|Hlt]; [assumption|nia].
Qed.

Lemma dump_schema_step_events (env : DumpEnv) (table : TableInfo.t)
    (settings : DumpSettings.t) (P : event -> Prop) :
  (forall e, (forall m, e <> WriteManifest m) -> is_chunk_write e = false -> P e) ->
  Forall P (trace (dump_schema_step env table settings)).
Proof.
  intros HP. unfold dump_schema_step.
  trace_forall; apply HP; try discriminate; reflexivity.
Qed.

Lemma dump_index_step_events (env : DumpEnv) (table : TableInfo.t)
    (settings : DumpSettings.t) (P : event -> Prop) :
  (forall e, (forall m, e <> WriteManifest m) -> is_chunk_write e = false -> P e) ->
  Forall P (trace (dump_index_step env table settings)).
Proof.
  intros HP. unfold dump_index_step.
  trace_forall; apply HP; try discriminate; reflexivity.
Qed.

Section DumpTotals.
Variable env : DumpEnv.
Variable db_cfg : DBConfig.t.
Variable dbname : list Z.
Variable table : TableInfo.t.
Variable settings : DumpSettings.t.
Variable total_rows : Z.
Hypothesis count_is : count_result env = Some total_rows.
Hypothesis rows_pos : 0 < total_rows.
Hypothesis chunk_rows_pos : 1 <= DumpSettings.chunk_rows settings.

Local Abbreviation recorded m :=
  (DumpManifest.total_rows m = total_rows
   /\ DumpManifest.chunk_rows m = DumpSettings.chunk_rows settings
   /\ DumpManifest.chunks_total m
      = (total_rows + DumpSettings.chunk_rows settings - 1)
        / DumpSettings.chunk_rows settings).

Lemma dump_with_cursor_totals (schema_ddl : option (list Z)) (has_schema : bool)
    (index_defs : list (list Z * list Z)) (start_chunk : Z) :
  Forall (fun e => forall m, e = WriteManifest m -> recorded m)
    (trace (dump_with_cursor env db_cfg dbname table settings schema_ddl has_schema
              index_defs start_chunk)).
Proof.
  unfold dump_with_cursor, _write_manifest. rewrite count_is. cbv beta iota.
  trace_forall; try (intros m [=]; fail);
    try match goal with
        | H : (total_rows =? 0) = true |- _ => apply Z.eqb_eq in H; lia
        | H : (DumpSettings.chunk_rows settings =? 0) = true |- _ =>
            apply Z.eqb_eq in H; lia
        end.
  all: try match goal with
           | H : outcome (if DumpSettings.chunk_rows settings =? 0 then _ else _)
                 = Ok _ |- _ =>
               destruct (Z.eqb_spec (DumpSettings.chunk_rows settings) 0);
               [lia|]; cbv [outcome ret snd] in H; injection H as <-
           end.
  - eapply dump_loop_events with (Q := fun m => recorded m).
    + intros e He m ->. destruct (He m eq_refl).
    + intros m Hm m' [= <-]. exact Hm.
    + intros m k Hm. exact Hm.
    + cbn. auto.
  - intros m [= <-].
    match goal with
    | H : outcome (try_finally _ _) = Ok _ |- _ =>
        apply outcome_try_finally_Ok in H;
        eapply (dump_loop_events env table settings (fun _ => True)
                  (fun m => recorded m)) in H
    end; cbn; auto.
Qed.

Lemma dump_table_totals (existing : option ManifestDoc.t) (resume : bool) :
  Forall (fun e => forall m, e = WriteManifest m -> recorded m)
    (trace (dump_table env existing db_cfg dbname table settings resume)).
Proof.
  unfold dump_table.
  trace_forall; try (intros m [=]; fail);
    try (apply dump_with_cursor_totals);
    try (apply dump_schema_step_events; intros e He _ m ->;
         destruct (He m eq_refl));
    try (apply dump_index_step_events; intros e He _ m ->;
         destruct (He m eq_refl)).
Qed.
End DumpTotals.

Lemma dump_schema_step_returns (env : DumpEnv) (table : TableInfo.t)
    (settings : DumpSettings.t) :
  exists t r, dump_schema_step env table settings = (t, Ok r).
Proof.
  unfold dump_schema_step.
  destruct (DumpSettings.dump_schema settings); [|cbn; eauto].
  destruct (ddl_result env); [destruct (schema_write_ok env)|]; cbn; eauto.
Qed.

Lemma dump_index_step_returns (env : DumpEnv) (table : TableInfo.t)
    (settings : DumpSettings.t) :
  exists t r, dump_index_step env table settings = (t, Ok r).
Proof.
  unfold dump_index_step.
  destruct (_ && _); [|cbn; eauto].
  destruct (index_info env); [destruct (pk_names_result env)|]; cbn; eauto.
Qed.

Section DumpEmpty.
Variable env : DumpEnv.
Variable db_cfg : DBConfig.t.
Variable dbname : list Z.
Variable table : TableInfo.t.
Variable settings : DumpSettings.t.
Hypothesis count_is : count_result env = Some 0.

Local Abbreviation empty_ok e :=
  (is_chunk_write e = false
   /\ forall m, e = WriteManifest m ->
                DumpManifest.chunks_total m = 0
                /\ DumpManifest.total_rows m = 0
                /\ DumpManifest.finished_at m = Some (now_manifest env)).

Lemma dump_with_cursor_empty (schema_ddl : option (list Z)) (has_schema : bool)
    (index_defs : list (list Z * list Z)) (start_chunk : Z) :
  dump_with_cursor env db_cfg dbname table settings schema_ddl has_schema
    index_defs start_chunk
  = ([ConsolePrint (MsgCounting (TableInfo.name table));
      Query (CountRows (TableInfo.name table));
      ConsolePrint (MsgCount 0); ConsolePrint MsgEmptyTable;
      WriteManifest (_make_manifest (now_manifest env) db_cfg dbname table
                       settings 0 0 0 has_schema true)],
     Ok tt).
Proof. unfold dump_with_cursor. rewrite count_is. reflexivity. Qed.

Lemma dump_table_empty_events (existing : option ManifestDoc.t) (resume : bool) :
  Forall (fun e => empty_ok e)
    (trace (dump_table env existing db_cfg dbname table settings resume)).
Proof.
  unfold dump_table.
  trace_forall;
    try (split; [reflexivity|intros m [=]]; fail);
    try (rewrite dump_with_cursor_empty; cbn [trace fst];
         repeat (apply List.Forall_cons;
                 [split; [reflexivity|];
                  intros m Hm;
                  first [discriminate Hm|injection Hm as <-; cbn; auto]|]);
         apply List.Forall_nil);
    try (apply dump_schema_step_events; intros e He Hc; split; [exact Hc|];
         intros m ->; destruct (He m eq_refl));
    try (apply dump_index_step_events; intros e He Hc; split; [exact Hc|];
         intros m ->; destruct (He m eq_refl)).
Qed.

Lemma dump_table_empty_run (existing : option ManifestDoc.t) (resume : bool) :
  dump_skipped resume existing = false ->
  dump_connect_ok env = true ->
  exists pre has_schema,
    dump_table env existing db_cfg dbname table settings resume
    = (pre ++ [WriteManifest (_make_manifest (now_manifest env) db_cfg dbname
                                table settings 0 0 0 has_schema true);
               Close],
       Ok tt).
Proof.
  intros Hskip Hconn. unfold dump_table, dump_skipped in *.
  destruct (dump_schema_step_returns env table settings) as (t1 & [ddl hs] & E1).
  destruct (dump_index_step_returns env table settings) as (t2 & defs & E2).
  assert (Hend : forall (l : list event) c p1 q p2 p3 w cl,
             exists pre, l ++ [c; p1; q; p2; p3; w; cl] = pre ++ [w; cl]).
  { intros l c p1 q p2 p3 w cl. exists (l ++ [c; p1; q; p2; p3]).
    rewrite <- app_assoc. reflexivity. }
  destruct (if resume then existing else None) as [ex|];
    [destruct (ManifestDoc.finished_at ex) as [[|? ?]|]; try discriminate Hskip;
     cbn zeta; destruct (Z.gtb _ 0)|];
    cbn [bind emit ret]; rewrite E1; cbn [bind fst snd]; rewrite E2; cbn [bind];
    rewrite Hconn; rewrite dump_with_cursor_empty; cbn;
    rewrite ?app_comm_cons, ?app_assoc;
    match goal with
    | |- exists pre has_schema, (?l ++ [?c; ?p1; ?q; ?p2; ?p3; ?w; ?cl], _) = _ =>
        destruct (Hend l c p1 q p2 p3 w cl) as [pre ->]; exists pre, hs;
        reflexivity
    end.
Qed.
End DumpEmpty.

(** ** The turns of the dump loop *)

(** The bound on the turns of the loop is never reached: the loop ends
    by its own condition or by an exception. *)
Lemma dump_chunk_outcome (env : DumpEnv) (table : TableInfo.t)
    (settings : DumpSettings.t) (schema_ddl : option (list Z))
    (index_defs : list (list Z * list Z)) (start_chunk chunks_total chunk_rows : Z)
    (col_list order_clause : list Z) (chunk_idx rows_dumped : Z)
    (manifest : DumpManifest.t) :
  outcome (dump_chunk env table settings schema_ddl index_defs start_chunk
             chunks_total chunk_rows col_list order_clause chunk_idx rows_dumped
             manifest) <> Fuel
  /\ forall st,
       outcome (dump_chunk env table settings schema_ddl index_defs start_chunk
                  chunks_total chunk_rows col_list order_clause chunk_idx
                  rows_dumped manifest) = Ok st ->
       snd (fst st) = chunk_idx + 1.
Proof.
  unfold dump_chunk, _write_manifest.
  destruct (copy_result env chunk_idx) as [raw| |]; cbn;
    try (split; [discriminate|discriminate]).
  destruct (list_Z_eqb _ _);
    [destruct (_build_sql_chunk _ _ _ _ _ _ _ _)|]; cbn;
    try (split; [discriminate|discriminate]);
    destruct (chunk_write env chunk_idx); cbn;
    try (split; [discriminate|discriminate]);
    (split; [discriminate|intros st [= <-]; reflexivity]).
Qed.

Lemma dump_loop_no_fuel (env : DumpEnv) (table : TableInfo.t)
    (settings : DumpSettings.t) (schema_ddl : option (list Z))
    (index_defs : list (list Z * list Z)) (start_chunk chunks_total chunk_rows : Z)
    (col_list order_clause : list Z) (fuel : nat) :
  forall chunk_idx rows_dumped manifest,
    (Z.to_nat (chunks_total - chunk_idx) <= fuel)%nat ->
    outcome (dump_loop env table settings schema_ddl index_defs start_chunk
               chunks_total chunk_rows col_list order_clause fuel chunk_idx
               rows_dumped manifest) <> Fuel.
Proof.
  induction fuel as [|fuel IH]; intros chunk_idx rows_dumped manifest Hf;
    cbn [dump_loop];
    destruct (Z.ltb_spec chunk_idx chunks_total) as [Hlt|Hge]; cbn [andb];
    try discriminate; try lia;
    destruct (negb (dump_interrupted_at env chunk_idx)); try discriminate.
  destruct (dump_chunk_outcome env table settings schema_ddl index_defs start_chunk
              chunks_total chunk_rows col_list order_clause chunk_idx rows_dumped
              manifest) as [Hnf Hi].
  rewrite outcome_bind.
  destruct (outcome (dump_chunk _ _ _ _ _ _ _ _ _ _ _ _ _)) as [st|e|];
    [|discriminate|contradiction].
  rewrite (Hi st eq_refl). apply IH. lia.
Qed.
(** * Further properties *)

(** ** Further properties of the converter *)

(** X1: whatever bytes a field holds, the value the converter writes for
    it reads back as one complete SQL value: the keyword [NULL] for the
    field [\N], and otherwise one string literal whose content is the
    field with its copy escapes undone and decoded with replacement.  A
    quote in the data never ends the literal early. *)
Theorem field_value_parses (f : list Z) :
  sql_value_parse (field_value f)
  = Some (if list_Z_eqb f (lit "\N") then None
          else Some (decode_utf8_replace (copy_unescape f))).
Proof.
  unfold field_value. fold (copy_unescape f).
  destruct (list_Z_eqb f (lit "\N")); [reflexivity|].
  unfold sql_value_parse.
  change (lit "'" ++ replace (lit "'") (lit "''")
            (decode_utf8_replace (copy_unescape f)) ++ lit "'")
    with (39 :: (replace (lit "'") (lit "''")
            (decode_utf8_replace (copy_unescape f)) ++ lit "'")).
  assert (E : list_Z_eqb
                (39 :: (replace (lit "'") (lit "''")
                          (decode_utf8_replace (copy_unescape f)) ++ lit "'"))
                (lit "NULL") = false).
  { apply bool_decide_eq_false_2. discriminate. }
  rewrite E, sql_string_body_quoted. reflexivity.
Qed.

Lemma insert_loop_single (header : list Z) (batch_size : Z) (lines : list (list Z)) :
  batch_size <= 1 ->
  forall output_parts,
    insert_loop header batch_size lines output_parts []
    = (output_parts
       ++ List.map (fun line => insert_statement header [row_tuple line]) lines, []).
Proof.
  intros Hb. induction lines as [|line rest IH]; intros out.
  - cbn [insert_loop List.map]. rewrite app_nil_r. reflexivity.
  - cbn [insert_loop List.map app length].
    replace (batch_size <=? Z.of_nat 1) with true
      by (symmetry; apply Z.leb_le; lia).
    rewrite IH, <- app_assoc. reflexivity.
Qed.

Lemma record_lines_nil : record_lines [] = [].
Proof. reflexivity. Qed.

(** X2: with a batch size of one or less, zero and negative values
    included, [len(batch) >= batch_size] holds after every row, so every
    row gets an [INSERT] statement of its own: the result is the same as
    with a batch size of one. *)
Theorem copy_to_inserts_batch_size_one_or_less (raw table_name : list Z)
    (columns : list (list Z)) (batch_size : Z) :
  batch_size <= 1 ->
  _copy_to_inserts raw table_name columns batch_size
  = join [10; 10]
      (List.map
         (fun line =>
            insert_statement (insert_header table_name columns) [row_tuple line])
         (record_lines raw))
  /\ _copy_to_inserts raw table_name columns batch_size
     = _copy_to_inserts raw table_name columns 1.
Proof.
  intros Hb.
  assert (G : forall b, b <= 1 ->
    _copy_to_inserts raw table_name columns b
    = join [10; 10]
        (List.map
           (fun line =>
              insert_statement (insert_header table_name columns) [row_tuple line])
           (record_lines raw))).
  { intros b Hb'. destruct raw as [|x t]; [reflexivity|].
    rewrite copy_to_inserts_nonempty by discriminate.
    cbv zeta. rewrite insert_loop_single by exact Hb'. reflexivity. }
  split; [apply G; exact Hb|].
  rewrite (G batch_size Hb), (G 1); [reflexivity|lia].
Qed.

Lemma copy_to_inserts_batch_size_one_or_less_witness :
  _copy_to_inserts sample_copy_data (lit "t") [lit "id"; lit "s"] 0
  = _copy_to_inserts sample_copy_data (lit "t") [lit "id"; lit "s"] 1.
Proof.
  apply (copy_to_inserts_batch_size_one_or_less sample_copy_data (lit "t")
           [lit "id"; lit "s"] 0).
  lia.
Defined.

(** X3: outside insert mode [_count_rows_for_mode] counts a chunk as
    [dump_table] counted it when it wrote the chunk, and the count is the
    number of records the buffer splits into; for the copy text of a list
    of rows it is the number of rows, whatever the values hold. *)
Theorem count_rows_copy_mode (dump_mode : list Z) :
  dump_mode <> lit "insert" ->
  (forall raw_data,
     _count_rows_for_mode raw_data dump_mode = count_records raw_data
     /\ _count_rows_for_mode raw_data dump_mode
        = Z.of_nat (length (record_lines raw_data)))
  /\ forall rows : list (list (option (list Z))),
       _count_rows_for_mode (copy_text rows) dump_mode = Z.of_nat (length rows).
Proof.
  intros Hmode.
  assert (E : forall raw, _count_rows_for_mode raw dump_mode = count_records raw).
  { intros raw. unfold _count_rows_for_mode, count_records, list_Z_eqb.
    rewrite bool_decide_eq_false_2 by exact Hmode. reflexivity. }
  split.
  - intros raw. split; [apply E|]. rewrite E, record_lines_count. reflexivity.
  - intros rows. rewrite E, <- record_lines_count, record_lines_copy_text.
    rewrite length_map. reflexivity.
Qed.

Lemma count_rows_copy_mode_witness :
  _count_rows_for_mode (copy_text [oreilly_row; nul_row]) (lit "copy") = 2.
Proof.
  apply (count_rows_copy_mode (lit "copy")). discriminate.
Defined.

Lemma forallb_is_scalar (s : list Z) : forallb is_scalar s = true -> valid_text s.
Proof.
  intros H. unfold valid_text. rewrite List.Forall_forall. intros c Hc.
  rewrite forallb_forall in H. apply H, Hc.
Qed.

Lemma valid_text_forallb (s : list Z) : valid_text s -> forallb is_scalar s = true.
Proof.
  intros H. unfold valid_text in H. rewrite List.Forall_forall in H.
  apply forallb_forall. exact H.
Qed.

Lemma decode_encode_utf8 (s b : list Z) :
  encode_utf8 s = Some b -> decode_utf8 b = Some s.
Proof.
  unfold encode_utf8, decode_utf8. destruct (forallb is_scalar s) eqn:E; [|discriminate].
  intros [= <-]. rewrite decode_utf8_bytes by (apply forallb_is_scalar, E).
  unfold list_Z_eqb. rewrite bool_decide_eq_true_2 by reflexivity. reflexivity.
Qed.

Ltac prop_tests :=
  repeat match goal with
         | H : (_ && _) = true |- _ => apply andb_true_iff in H; destruct H
         | H : (_ <=? _) = true |- _ => apply Z.leb_le in H
         | H : (_ <? _) = true |- _ => apply Z.ltb_lt in H
         | H : (_ =? _) = true |- _ => apply Z.eqb_eq in H
         | H : (_ =? _) = false |- _ => apply Z.eqb_neq in H
         end.

Lemma second_of3_bounds (b0 b1 : Z) :
  224 <= b0 <= 239 -> second_of3 b0 b1 = true ->
  128 <= b1 <= 191
  /\ 2048 <= (b0 - 224) * 4096 + (b1 - 128) * 64
  /\ ((b0 - 224) * 4096 + (b1 - 128) * 64 + 63 < 55296
      \/ 57344 <= (b0 - 224) * 4096 + (b1 - 128) * 64).
Proof.
  intros Hb0. unfold second_of3, is_cont.
  destruct (b0 =? 224) eqn:E1; [|destruct (b0 =? 237) eqn:E2];
    intros H; prop_tests; lia.
Qed.

Lemma second_of4_bounds (b0 b1 : Z) :
  240 <= b0 <= 244 -> second_of4 b0 b1 = true ->
  128 <= b1 <= 191
  /\ 65536 <= (b0 - 240) * 262144 + (b1 - 128) * 4096
  /\ (b0 - 240) * 262144 + (b1 - 128) * 4096 + 4095 < 1114112.
Proof.
  intros Hb0. unfold second_of4, is_cont.
  destruct (b0 =? 240) eqn:E1; [|destruct (b0 =? 244) eqn:E2];
    intros H; prop_tests; lia.
Qed.

Lemma is_scalar_replacement : is_scalar 65533 = true.
Proof. reflexivity. Qed.

Lemma is_scalar_bounds (c : Z) :
  0 <= c < 1114112 -> (c < 55296 \/ 57344 <= c) -> is_scalar c = true.
Proof.
  intros H1 H2. unfold is_scalar.
  apply andb_true_iff; split; [apply andb_true_iff; split|].
  - apply Z.leb_le; lia.
  - apply Z.ltb_lt; lia.
  - apply negb_true_iff, andb_false_iff.
    destruct H2; [left; apply Z.leb_gt; lia | right; apply Z.ltb_ge; lia].
Qed.

Lemma decode_utf8_replace_valid_bounded (n : nat) :
  forall s, (length s <= n)%nat -> valid_text (decode_utf8_replace s).
Proof.
  unfold valid_text.
  induction n as [|n IH]; intros s Hlen.
  - destruct s; [constructor|cbn in Hlen; lia].
  - destruct s as [|b0 r0]; [constructor|].
    cbn [length] in Hlen.
    assert (IH0 : Forall (fun c => is_scalar c = true) (decode_utf8_replace r0))
      by (apply IH; lia).
    cbn [decode_utf8_replace].
    destruct ((0 <=? b0) && (b0 <? 128)) eqn:T1.
    { apply List.Forall_cons; [|exact IH0]. prop_tests. apply is_scalar_bounds; lia. }
    destruct ((194 <=? b0) && (b0 <=? 223)) eqn:T2.
    { destruct r0 as [|b1 r1]; [repeat constructor|].
      cbn [length] in Hlen.
      destruct (is_cont b1) eqn:C1.
      - apply List.Forall_cons; [|apply IH; lia].
        unfold is_cont in C1. prop_tests. apply is_scalar_bounds; lia.
      - apply List.Forall_cons; [reflexivity|exact IH0]. }
    destruct ((224 <=? b0) && (b0 <=? 239)) eqn:T3.
    { destruct r0 as [|b1 r1]; [repeat constructor|].
      cbn [length] in Hlen.
      destruct (second_of3 b0 b1) eqn:S3;
        [|apply List.Forall_cons; [reflexivity|exact IH0]].
      destruct r1 as [|b2 r2]; [repeat constructor|].
      cbn [length] in Hlen.
      destruct (is_cont b2) eqn:C2.
      - apply List.Forall_cons; [|apply IH; lia].
        unfold is_cont in C2. prop_tests.
        destruct (second_of3_bounds b0 b1) as (? & ? & ?); [lia|exact S3|].
        apply is_scalar_bounds; lia.
      - apply List.Forall_cons; [reflexivity|apply IH; cbn [length]; lia]. }
    destruct ((240 <=? b0) && (b0 <=? 244)) eqn:T4.
    { destruct r0 as [|b1 r1]; [repeat constructor|].
      cbn [length] in Hlen.
      destruct (second_of4 b0 b1) eqn:S4;
        [|apply List.Forall_cons; [reflexivity|exact IH0]].
      destruct r1 as [|b2 r2]; [repeat constructor|].
      cbn [length] in Hlen.
      destruct (is_cont b2) eqn:C2;
        [|apply List.Forall_cons; [reflexivity|apply IH; cbn [length]; lia]].
      destruct r2 as [|b3 r3]; [repeat constructor|].
      cbn [length] in Hlen.
      destruct (is_cont b3) eqn:C3.
      - apply List.Forall_cons; [|apply IH; lia].
        unfold is_cont in C2, C3. prop_tests.
        destruct (second_of4_bounds b0 b1) as (? & ? & ?); [lia|exact S4|].
        apply is_scalar_bounds; lia.
      - apply List.Forall_cons; [reflexivity|apply IH; cbn [length]; lia]. }
    apply List.Forall_cons; [reflexivity|exact IH0].
Qed.

Lemma decode_utf8_replace_valid (s : list Z) : valid_text (decode_utf8_replace s).
Proof. apply (decode_utf8_replace_valid_bounded (length s)). lia. Qed.

Lemma valid_text_app (a b : list Z) :
  valid_text a -> valid_text b -> valid_text (a ++ b).
Proof. unfold valid_text. intros. apply Forall_app; split; assumption. Qed.

Lemma valid_text_replace_from (old new s : list Z) :
  valid_text new -> valid_text s ->
  forall skip, valid_text (replace_from old new s skip).
Proof.
  unfold valid_text. intros Hnew Hs. induction Hs as [|x t Hx Ht IH]; intros skip.
  - constructor.
  - cbn [replace_from]. destruct skip as [|k]; [|apply IH].
    destruct (startswith old (x :: t)).
    + apply Forall_app; split; [exact Hnew|apply IH].
    + apply List.Forall_cons; [exact Hx|apply IH].
Qed.

Lemma valid_text_join (sep : list Z) (parts : list (list Z)) :
  valid_text sep -> Forall valid_text parts -> valid_text (join sep parts).
Proof. apply Forall_join. Qed.

Ltac valid_lit := apply forallb_is_scalar; reflexivity.

Lemma valid_text_quoted (c : list Z) : valid_text c -> valid_text (quoted c).
Proof.
  intros H. unfold quoted. apply valid_text_app; [valid_lit|].
  apply valid_text_app; [exact H|valid_lit].
Qed.

Lemma field_value_valid (f : list Z) : valid_text (field_value f).
Proof.
  unfold field_value. destruct (list_Z_eqb f (lit "\N")); [valid_lit|].
  apply valid_text_app; [valid_lit|]. apply valid_text_app; [|valid_lit].
  apply valid_text_replace_from; [valid_lit|apply decode_utf8_replace_valid].
Qed.

Lemma row_tuple_valid (line : list Z) : valid_text (row_tuple line).
Proof.
  unfold row_tuple, row_values. apply valid_text_app; [valid_lit|].
  apply valid_text_app; [|valid_lit].
  apply valid_text_join; [valid_lit|].
  rewrite List.Forall_forall. intros v Hv. apply in_map_iff in Hv as (f & <- & _).
  apply field_value_valid.
Qed.

Lemma insert_header_valid (table_name : list Z) (columns : list (list Z)) :
  valid_text table_name -> Forall valid_text columns ->
  valid_text (insert_header table_name columns).
Proof.
  intros Ht Hc. unfold insert_header.
  apply valid_text_app; [valid_lit|].
  apply valid_text_app; [apply valid_text_quoted, Ht|].
  apply valid_text_app; [valid_lit|].
  apply valid_text_app; [|valid_lit].
  apply valid_text_join; [valid_lit|].
  rewrite List.Forall_forall. intros v Hv. apply in_map_iff in Hv as (c & <- & Hin).
  apply valid_text_quoted. rewrite List.Forall_forall in Hc. apply Hc, Hin.
Qed.

Lemma copy_to_inserts_valid (raw table_name : list Z) (columns : list (list Z))
    (batch_size : Z) :
  valid_text table_name -> Forall valid_text columns ->
  valid_text (_copy_to_inserts raw table_name columns batch_size).
Proof.
  intros Ht Hc.
  destruct (copy_to_inserts_batches_of raw table_name columns batch_size)
    as (batches & -> & Hcat & _).
  apply valid_text_join; [valid_lit|].
  rewrite List.Forall_forall. intros st Hst.
  apply in_map_iff in Hst as (batch & <- & Hin).
  unfold insert_statement.
  apply valid_text_app; [apply insert_header_valid; assumption|].
  apply valid_text_app; [valid_lit|]. apply valid_text_app; [|valid_lit].
  apply valid_text_join; [valid_lit|].
  rewrite List.Forall_forall. intros tup Htup.
  assert (Hc' : In tup (List.concat batches)).
  { apply in_concat. exists batch. split; assumption. }
  rewrite Hcat in Hc'. apply in_map_iff in Hc' as (line & <- & _).
  apply row_tuple_valid.
Qed.

Lemma Forall_valid_app (a b : list (list Z)) :
  Forall valid_text a -> Forall valid_text b -> Forall valid_text (a ++ b).
Proof. intros. apply Forall_app; split; assumption. Qed.

Lemma build_sql_chunk_parts_valid (now copy_data : list Z) (table : TableInfo.t)
    (settings : DumpSettings.t) (schema_ddl : option (list Z))
    (index_defs : list (list Z * list Z)) (is_first is_last : bool) :
  valid_text now ->
  valid_text (TableInfo.name table) ->
  Forall valid_text (TableInfo.columns table) ->
  valid_text (ddl_text schema_ddl) ->
  Forall (fun d => valid_text (fst d) /\ valid_text (snd d)) index_defs ->
  Forall valid_text
    (_build_sql_chunk_parts now copy_data table settings schema_ddl index_defs
       is_first is_last).
Proof.
  intros Hnow Hname Hcols Hddl Hidx.
  assert (Hdrop : Forall valid_text
            (List.map (fun d => lit "DROP INDEX IF EXISTS " ++ quoted (fst d) ++ lit ";")
               index_defs)).
  { rewrite List.Forall_forall. intros x Hx. apply in_map_iff in Hx as (d & <- & Hin).
    rewrite List.Forall_forall in Hidx. destruct (Hidx d Hin) as [H1 _].
    apply valid_text_app; [valid_lit|].
    apply valid_text_app; [apply valid_text_quoted, H1|valid_lit]. }
  assert (Hre : Forall valid_text (List.map (fun d => snd d ++ lit ";") index_defs)).
  { rewrite List.Forall_forall. intros x Hx. apply in_map_iff in Hx as (d & <- & Hin).
    rewrite List.Forall_forall in Hidx. destruct (Hidx d Hin) as [_ H2].
    apply valid_text_app; [exact H2|valid_lit]. }
  assert (Hins := copy_to_inserts_valid copy_data (TableInfo.name table)
                    (TableInfo.columns table)
                    (DumpSettings.insert_batch_size settings) Hname Hcols).
  assert (Hd : valid_text (lit "-- dbtool dump: " ++ TableInfo.name table))
    by (apply valid_text_app; [valid_lit|exact Hname]).
  assert (Hg : valid_text (lit "-- generated: " ++ now))
    by (apply valid_text_app; [valid_lit|exact Hnow]).
  assert (Hdt : valid_text (lit "DROP TABLE IF EXISTS " ++ quoted (TableInfo.name table)
                            ++ lit " CASCADE;")).
  { apply valid_text_app; [valid_lit|].
    apply valid_text_app; [apply valid_text_quoted, Hname|valid_lit]. }
  assert (Htr : valid_text (lit "TRUNCATE TABLE " ++ quoted (TableInfo.name table)
                            ++ lit " CASCADE;")).
  { apply valid_text_app; [valid_lit|].
    apply valid_text_app; [apply valid_text_quoted, Hname|valid_lit]. }
  assert (Hfirst : valid_text (lit "-- chunk: 0 (first " ++ [8212]
                               ++ lit " includes preamble)")) by valid_lit.
  unfold _build_sql_chunk_parts. cbv zeta.
  repeat match goal with
         | |- Forall valid_text (if ?b then _ else _) => destruct b
         | |- Forall valid_text (_ ++ _) => apply Forall_valid_app
         | |- Forall valid_text [] => constructor
         | |- Forall valid_text (_ :: _) => apply List.Forall_cons
         | |- valid_text _ => first [assumption | valid_lit]
         | |- Forall valid_text _ => assumption
         end.
Qed.

(** X4: [_build_sql_chunk] never raises on the data: when the names,
    the timestamp, the DDL and the index definitions are text without
    lone surrogates, the chunk is built and encoded for every copy
    buffer, well-formed UTF-8 or not, because undecodable bytes are
    replaced. *)
Theorem build_sql_chunk_never_fails (now copy_data : list Z) (table : TableInfo.t)
    (settings : DumpSettings.t) (schema_ddl : option (list Z))
    (index_defs : list (list Z * list Z)) (is_first is_last : bool) :
  valid_text now ->
  valid_text (TableInfo.name table) ->
  Forall valid_text (TableInfo.columns table) ->
  valid_text (ddl_text schema_ddl) ->
  Forall (fun d => valid_text (fst d) /\ valid_text (snd d)) index_defs ->
  _build_sql_chunk now copy_data table settings schema_ddl index_defs
    is_first is_last
  = Some (utf8_bytes
            (join [10]
               (_build_sql_chunk_parts now copy_data table settings schema_ddl
                  index_defs is_first is_last))).
Proof.
  intros Hnow Hname Hcols Hddl Hidx.
  unfold _build_sql_chunk, encode_utf8.
  rewrite valid_text_forallb; [reflexivity|].
  apply valid_text_join; [valid_lit|].
  apply build_sql_chunk_parts_valid; assumption.
Qed.

Lemma build_sql_chunk_never_fails_witness :
  _build_sql_chunk (lit "2024-01-01T00:00:00") [255; 9; 39; 10] sample_table
    (sample_settings (lit "insert") true false false false) None [] true true
  = Some (utf8_bytes
            (join [10]
               (_build_sql_chunk_parts (lit "2024-01-01T00:00:00") [255; 9; 39; 10]
                  sample_table
                  (sample_settings (lit "insert") true false false false) None []
                  true true))).
Proof.
  apply (build_sql_chunk_never_fails (lit "2024-01-01T00:00:00") [255; 9; 39; 10]
           sample_table (sample_settings (lit "insert") true false false false)
           None [] true true);
    repeat constructor.
Defined.

(** X5: a chunk file written in insert mode decodes, on restore, to
    exactly the SQL text [_build_sql_chunk] joined: [restore_table] never
    fails to decode it, and an attempt that gets a connection executes
    that text. *)
Theorem insert_chunk_restores_as_built (now copy_data : list Z) (table : TableInfo.t)
    (settings : DumpSettings.t) (schema_ddl : option (list Z))
    (index_defs : list (list Z * list Z)) (is_first is_last : bool) (b : list Z) :
  _build_sql_chunk now copy_data table settings schema_ddl index_defs
    is_first is_last = Some b ->
  let sql :=
    join [10]
      (_build_sql_chunk_parts now copy_data table settings schema_ddl index_defs
         is_first is_last) in
  decode_utf8 b = Some sql
  /\ forall (env : RestoreEnv) (settings' : DumpSettings.t)
            (table_name col_list : list Z) (chunk_idx attempt : Z),
       outcome (apply_attempt env settings' table_name col_list (lit "insert")
                  chunk_idx attempt b) <> Raise UnicodeError
       /\ (connects (apply_result env chunk_idx attempt) = true ->
           exists rest,
             trace (apply_attempt env settings' table_name col_list (lit "insert")
                      chunk_idx attempt b)
             = Connect :: Execute sql :: rest).
Proof.
  intros Hb sql.
  assert (Hdec : decode_utf8 b = Some sql) by (apply decode_encode_utf8, Hb).
  split; [exact Hdec|].
  intros env settings' table_name col_list chunk_idx attempt.
  unfold apply_attempt.
  change (list_Z_eqb (lit "insert") (lit "insert")) with true.
  cbv iota. rewrite Hdec.
  destruct (apply_result env chunk_idx attempt);
    destruct (DumpSettings.use_transactions settings');
    (split; [discriminate | intros Hc; try discriminate Hc; eexists; reflexivity]).
Qed.

Lemma insert_chunk_restores_as_built_witness :
  exists b,
    _build_sql_chunk (lit "2024-01-01T00:00:00") sample_copy_data sample_table
      (sample_settings (lit "insert") true false false false) None [] true false
    = Some b
    /\ decode_utf8 b
       = Some (join [10]
                 (_build_sql_chunk_parts (lit "2024-01-01T00:00:00") sample_copy_data
                    sample_table
                    (sample_settings (lit "insert") true false false false) None []
                    true false)).
Proof.
  eexists. split; [vm_compute; reflexivity|].
  eapply (insert_chunk_restores_as_built (lit "2024-01-01T00:00:00") sample_copy_data
            sample_table (sample_settings (lit "insert") true false false false)
            None [] true false).
  vm_compute. reflexivity.
Defined.

(** ** The steps around the chunk loop of a restore *)

Lemma drop_index_loop_hook (env : RestoreEnv) (schema : list Z)
    (rows : list (list Z * list Z)) :
  forall i definitions,
    Forall (fun e => hook_event drop_message e = true)
      (fst (fst (drop_index_loop env schema rows i definitions))).
Proof.
  induction rows as [|[idx_name idx_def] rest IH]; intros i definitions;
    cbn [drop_index_loop]; [constructor|].
  destruct (bool_decide _); cbn; [repeat constructor; auto|].
  specialize (IH (S i) (definitions ++ [idx_def])).
  destruct (drop_index_loop env schema rest (S i) (definitions ++ [idx_def]))
    as [[t defs] ok].
  cbn in *. repeat constructor; auto.
Qed.

Lemma drop_non_pk_indexes_hook (env : RestoreEnv) (table_name schema : list Z) :
  Forall (fun e => hook_event drop_message e = true)
    (trace (_drop_non_pk_indexes env table_name schema)).
Proof.
  unfold _drop_non_pk_indexes.
  destruct (idx_rows env) as [rows|].
  - pose proof (drop_index_loop_hook env schema rows 0%nat []) as H.
    destruct (drop_index_loop env schema rows 0 []) as [[t defs] ok]. cbn in H.
    trace_forall; auto; constructor; auto; apply Forall_app;
      (split; [exact H|]); try destruct ok; repeat constructor; auto.
  - trace_forall; auto; repeat constructor; auto.
Qed.

Lemma rebuild_loop_hook (env : RestoreEnv) (definitions : list (list Z)) :
  forall i,
    Forall (fun e => hook_event rebuild_message e = true)
      (trace (rebuild_loop env definitions i)).
Proof.
  induction definitions as [|defn rest IH]; intros i; cbn [rebuild_loop];
    trace_forall; auto.
Qed.

Lemma rebuild_indexes_hook (env : RestoreEnv) (definitions : list (list Z)) :
  Forall (fun e => hook_event rebuild_message e = true)
    (trace (_rebuild_indexes env definitions)).
Proof.
  unfold _rebuild_indexes. trace_forall; auto using rebuild_loop_hook.
Qed.

Lemma pre_restore_hook (env : RestoreEnv) (dir : TableDir)
    (settings : DumpSettings.t) (table_name : list Z) (has_schema : bool) :
  Forall (fun e => hook_event pre_message e = true)
    (trace (_pre_restore env dir settings table_name has_schema)).
Proof. unfold _pre_restore. trace_forall; auto. Qed.

Lemma apply_attempt_retry_event (env : RestoreEnv) (settings : DumpSettings.t)
    (table_name col_list dump_mode : list Z) (chunk_idx attempt : Z)
    (raw_data : list Z) :
  Forall (fun e => retry_event (list_Z_eqb dump_mode (lit "insert")) e = true)
    (trace (apply_attempt env settings table_name col_list dump_mode
              chunk_idx attempt raw_data)).
Proof.
  unfold apply_attempt. trace_forall; auto;
    cbn [retry_event];
    match goal with H : list_Z_eqb _ _ = _ |- _ => rewrite H end; reflexivity.
Qed.

Lemma apply_with_retry_retry_event (env : RestoreEnv) (settings : DumpSettings.t)
    (table_name col_list dump_mode : list Z) (attempts : list Z) (chunk_idx : Z)
    (raw_data : list Z) (chunk_row_count rows_restored : Z) :
  Forall (fun e => retry_event (list_Z_eqb dump_mode (lit "insert")) e = true)
    (trace (apply_with_retry env settings table_name col_list dump_mode
              attempts chunk_idx raw_data chunk_row_count rows_restored)).
Proof.
  induction attempts as [|attempt rest IH]; cbn [apply_with_retry];
    trace_forall; auto using apply_attempt_retry_event.
Qed.

Lemma retry_loop_event (insert : bool) (e : event) :
  retry_event insert e = true -> loop_event insert e = true.
Proof. destruct e as [[]| | | | | | | | | | | | | | | | | | | | | |]; auto. Qed.

Lemma restore_loop_loop_event (env : RestoreEnv) (dir : TableDir)
    (settings : DumpSettings.t) (table_name col_list dump_mode : list Z)
    (compressed : bool) (idxs : list Z) :
  forall rows_restored,
    Forall (fun e => loop_event (list_Z_eqb dump_mode (lit "insert")) e = true)
      (trace (restore_loop env dir settings table_name col_list dump_mode
                compressed idxs rows_restored)).
Proof.
  induction idxs as [|chunk_idx rest IH]; intros rows_restored;
    cbn [restore_loop]; trace_forall; auto.
  eapply Forall_impl; [apply apply_with_retry_retry_event|].
  intros e. apply retry_loop_event.
Qed.

(** X6: a restore that resumes (the state file records a positive
    [chunks_restored]) runs neither [_pre_restore] nor
    [_drop_non_pk_indexes] nor [_rebuild_indexes]: it sends no catalog
    query, prints none of their messages, and in copy mode executes no
    SQL statement at all.  Indexes dropped by the run it resumes are not
    rebuilt by it. *)
Theorem restore_resumed_skips_hooks (env : RestoreEnv) (dir : TableDir)
    (settings : DumpSettings.t) (manifest : ManifestDoc.t) (s : Z) :
  manifest_json dir = Some manifest ->
  restore_state_json dir = Some (Some s) ->
  0 < s ->
  Forall (fun e =>
            (forall q, e <> Query q)
            /\ (forall m, e = ConsolePrint m -> hook_message m = false)
            /\ (default (lit "copy") (ManifestDoc.dump_mode manifest) <> lit "insert" ->
                forall sql, e <> Execute sql))
    (trace (restore_table env dir settings)).
Proof.
  intros Hm Hs Hpos.
  set (P := fun e : event =>
              (forall q, e <> Query q)
              /\ (forall m, e = ConsolePrint m -> hook_message m = false)
              /\ (default (lit "copy") (ManifestDoc.dump_mode manifest) <> lit "insert" ->
                  forall sql, e <> Execute sql)).
  assert (P_loop : forall e,
             loop_event (list_Z_eqb (default (lit "copy") (ManifestDoc.dump_mode manifest))
                           (lit "insert")) e = true -> P e).
  { intros e He. subst P. cbv beta.
    split; [intros q ->; discriminate He|].
    split; [intros m ->; cbn in He; destruct m; try discriminate He; reflexivity|].
    intros Hmode sql ->. cbn in He. unfold list_Z_eqb in He.
    rewrite bool_decide_eq_false_2 in He by exact Hmode. discriminate He. }
  assert (P_other : forall e,
             (forall q, e <> Query q) -> (forall sql, e <> Execute sql) ->
             (forall m, e = ConsolePrint m -> hook_message m = false) -> P e).
  { intros e H1 H2 H3. subst P. cbv beta. auto. }
  unfold restore_table. rewrite Hm, Hs.
  change (default 0 (Some s)) with s.
  assert (Egt : (s >? 0) = true) by (apply Z.gtb_lt; lia).
  assert (Eeq : (s =? 0) = false) by (apply Z.eqb_neq; lia).
  rewrite Egt.
  destruct (ManifestDoc.total_rows manifest =? 0).
  { cbn. constructor; [|constructor]. apply P_other; try discriminate.
    intros m [= <-]. reflexivity. }
  destruct (s >=? ManifestDoc.chunks_total manifest).
  { cbn. constructor; [|constructor]. apply P_other; try discriminate.
    intros m [= <-]. reflexivity. }
  rewrite trace_bind. apply Forall_app. split.
  { cbn. constructor; [|constructor]. apply P_other; try discriminate.
    intros m [= <-]. reflexivity. }
  cbn [outcome bind emit ret snd].
  unfold restore_from. rewrite Eeq, andb_false_r.
  trace_forall;
    try (apply P_other; try discriminate; intros m [= <-]; reflexivity).
  all: try match goal with H : negb (bool_decide _) && _ = true |- _ =>
             rewrite bool_decide_eq_true_2 in H by reflexivity; discriminate H end.
  eapply Forall_impl; [apply restore_loop_loop_event|]. exact P_loop.
Qed.

Lemma restore_resumed_skips_hooks_witness :
  Forall (fun e =>
            (forall q, e <> Query q)
            /\ (forall m, e = ConsolePrint m -> hook_message m = false)
            /\ (default (lit "copy")
                  (ManifestDoc.dump_mode (doc_of_manifest sample_manifest_done))
                <> lit "insert" ->
                forall sql, e <> Execute sql))
    (trace (restore_table (restore_env_with (fun _ _ => Succeeds)) sample_dir_resumed
              (sample_settings (lit "copy") true false false true))).
Proof.
  apply (restore_resumed_skips_hooks (restore_env_with (fun _ _ => Succeeds))
           sample_dir_resumed (sample_settings (lit "copy") true false false true)
           (doc_of_manifest sample_manifest_done) 1);
    [reflexivity|reflexivity|lia].
Defined.

(** ** The recorded progress of a restore *)

Lemma apply_with_retry_state (env : RestoreEnv) (settings : DumpSettings.t)
    (table_name col_list dump_mode : list Z) (attempts : list Z) (chunk_idx : Z)
    (raw_data : list Z) (chunk_row_count rows_restored : Z) :
  Forall (fun e => forall n, e = WriteState n -> n = chunk_idx)
    (trace (apply_with_retry env settings table_name col_list dump_mode
              attempts chunk_idx raw_data chunk_row_count rows_restored)).
Proof.
  induction attempts as [|attempt rest IH]; cbn [apply_with_retry];
    trace_forall; auto; try (intros n [= <-]; reflexivity); try discriminate.
  unfold apply_attempt. trace_forall; discriminate.
Qed.

Lemma restore_loop_state (env : RestoreEnv) (dir : TableDir)
    (settings : DumpSettings.t) (table_name col_list dump_mode : list Z)
    (compressed : bool) (a b : Z) (idxs : list Z) :
  Forall (fun i => a <= i < b) idxs ->
  forall rows_restored,
    Forall (fun e => forall n, e = WriteState n -> a <= n <= b)
      (trace (restore_loop env dir settings table_name col_list dump_mode
                compressed idxs rows_restored)).
Proof.
  induction 1 as [|chunk_idx rest Hk Hrest IH]; intros rows_restored;
    cbn [restore_loop]; trace_forall; auto; try discriminate.
  - eapply Forall_impl; [apply apply_with_retry_state|].
    cbv beta. intros e He n Hn. rewrite (He n Hn). lia.
  - intros n [= <-]. lia.
Qed.

Lemma range_bounds (a b : Z) : Forall (fun i => a <= i < b) (range a b).
Proof. rewrite List.Forall_forall. intros i Hi. apply range_In, Hi. Qed.

Lemma restore_from_state (env : RestoreEnv) (dir : TableDir)
    (settings : DumpSettings.t) (manifest : ManifestDoc.t) (start_chunk : Z) :
  Forall (fun e => forall n, e = WriteState n ->
                     start_chunk <= n <= ManifestDoc.chunks_total manifest)
    (trace (restore_from env dir settings manifest start_chunk)).
Proof.
  assert (Hhook : forall msgs t,
                    Forall (fun e => hook_event msgs e = true) t ->
                    Forall (fun e => forall n, e = WriteState n ->
                              start_chunk <= n <= ManifestDoc.chunks_total manifest) t).
  { intros msgs t H. eapply Forall_impl; [exact H|].
    intros e He n ->. discriminate He. }
  unfold restore_from.
  trace_forall; try discriminate;
    eauto using pre_restore_hook, drop_non_pk_indexes_hook, rebuild_indexes_hook.
  all: apply restore_loop_state, range_bounds.
Qed.

Lemma apply_events_state (Q : Z -> Prop) (t : list event) :
  Forall (fun e => forall n, e = WriteState n -> Q n) t ->
  forall d,
    restore_state_json (apply_events d t) = restore_state_json d
    \/ exists n, restore_state_json (apply_events d t) = Some (Some n) /\ Q n.
Proof.
  induction 1 as [|e t He _ IH]; intros d; [left; reflexivity|].
  cbn [apply_events fold_left]. fold (apply_events (apply_event d e) t).
  destruct (IH (apply_event d e)) as [E|E]; [|right; exact E].
  rewrite E. destruct e; try (left; reflexivity).
  right. eexists. split; [reflexivity|]. apply He. reflexivity.
Qed.

(** X7: every [chunks_restored] value a restore writes lies between
    the value it started from and [chunks_total]; so the recorded
    progress never moves backwards, and when the run changes it, it does
    not pass [chunks_total]. *)
Theorem restore_progress_bounds (env : RestoreEnv) (dir : TableDir)
    (settings : DumpSettings.t) (manifest : ManifestDoc.t) :
  manifest_json dir = Some manifest ->
  let run := restore_table env dir settings in
  Forall (fun e => forall n, e = WriteState n ->
                     restore_start_chunk dir <= n <= ManifestDoc.chunks_total manifest)
    (trace run)
  /\ restore_start_chunk dir <= restore_start_chunk (apply_events dir (trace run))
  /\ (restore_state_json (apply_events dir (trace run)) = restore_state_json dir
      \/ restore_start_chunk (apply_events dir (trace run))
         <= ManifestDoc.chunks_total manifest).
Proof.
  intros Hm run.
  assert (H : Forall (fun e => forall n, e = WriteState n ->
                restore_start_chunk dir <= n <= ManifestDoc.chunks_total manifest)
              (trace run)).
  { subst run. unfold restore_table, restore_start_chunk. rewrite Hm.
    destruct (ManifestDoc.total_rows manifest =? 0);
      [cbn; repeat constructor; discriminate|].
    destruct (restore_state_json dir) as [state|].
    - destruct (default 0 state >=? ManifestDoc.chunks_total manifest);
        [cbn; repeat constructor; discriminate|].
      destruct (default 0 state >? 0).
      + rewrite trace_bind. apply Forall_app. split;
          [cbn; repeat constructor; discriminate|].
        cbn [outcome bind emit ret snd]. apply restore_from_state.
      + rewrite trace_bind. apply Forall_app. split; [constructor|].
        cbn [outcome bind emit ret snd]. apply restore_from_state.
    - rewrite trace_bind. apply Forall_app. split; [constructor|].
      cbn [outcome bind emit ret snd]. apply restore_from_state. }
  split; [exact H|].
  destruct (apply_events_state _ _ H dir) as [E|(n & E & Hn)].
  - assert (E' : restore_start_chunk (apply_events dir (trace run))
                 = restore_start_chunk dir)
      by (unfold restore_start_chunk; rewrite E; reflexivity).
    split; [lia|left; exact E].
  - assert (E' : restore_start_chunk (apply_events dir (trace run)) = n)
      by (unfold restore_start_chunk; rewrite E; reflexivity).
    split; [lia|right; lia].
Qed.

Lemma restore_progress_bounds_witness :
  restore_start_chunk sample_dir_resumed
  <= restore_start_chunk
       (apply_events sample_dir_resumed
          (trace (restore_table (restore_env_with (fun _ _ => ExecuteFails))
                    sample_dir_resumed
                    (sample_settings (lit "copy") true false false false)))).
Proof.
  apply (restore_progress_bounds (restore_env_with (fun _ _ => ExecuteFails))
           sample_dir_resumed (sample_settings (lit "copy") true false false false)
           (doc_of_manifest sample_manifest_done)).
  reflexivity.
Defined.

(** ** A chunk file that is missing *)

Lemma Forall_or_Exists_bool {A} (p : A -> bool) (t : list A) :
  Forall (fun e => p e = false) t \/ Exists (fun e => p e = true) t.
Proof.
  induction t as [|e t [IH|IH]]; [left; constructor| |right; constructor 2; exact IH].
  destruct (p e) eqn:E; [right; constructor 1; exact E|left; constructor; assumption].
Qed.

Lemma Forall_not_Exists_bool {A} (p : A -> bool) (t : list A) :
  Forall (fun e => p e = false) t -> ~ Exists (fun e => p e = true) t.
Proof.
  intros H He. apply List.Exists_exists in He as (e & Hin & Hp).
  rewrite List.Forall_forall in H. rewrite (H e Hin) in Hp. discriminate Hp.
Qed.

Lemma restore_loop_missing (env : RestoreEnv) (dir : TableDir)
    (settings : DumpSettings.t) (table_name col_list dump_mode : list Z)
    (compressed : bool) (idxs : list Z) :
  forall rows_restored,
    Exists (fun e => is_missing_chunk e = true)
      (trace (restore_loop env dir settings table_name col_list dump_mode
                compressed idxs rows_restored)) ->
    exists pre f r,
      chunk_files dir !! f = None
      /\ Forall (fun e => is_missing_chunk e = false) pre
      /\ restore_loop env dir settings table_name col_list dump_mode compressed
           idxs rows_restored
         = (pre ++ [ConsolePrint (MsgMissingChunk f)], Ok (LoopReturn, r)).
Proof.
  induction idxs as [|chunk_idx rest IH]; intros rows_restored H.
  - cbn in H. inversion H.
  - cbn [restore_loop] in H |- *.
    destruct (restore_interrupted_at env chunk_idx).
    { cbn in H. inversion H as [? ? Hx|? ? Hx]; [discriminate Hx|inversion Hx]. }
    revert H.
    destruct (chunk_files dir
              !! restore_chunk_filename table_name dump_mode compressed chunk_idx)
      as [raw_data|] eqn:Efile; intros H.
    2:{ exists [], (restore_chunk_filename table_name dump_mode compressed chunk_idx),
          rows_restored.
        split; [exact Efile|]. split; [constructor|reflexivity]. }
    set (run := apply_with_retry env settings table_name col_list dump_mode
                  (range 1 (DumpSettings.max_retries settings + 1)) chunk_idx
                  raw_data (_count_rows_for_mode raw_data dump_mode) rows_restored)
      in *.
    assert (Hrun : Forall (fun e => is_missing_chunk e = false) (trace run)).
    { eapply Forall_impl; [apply apply_with_retry_retry_event|].
      intros e He. destruct e as [[]| | | | | | | | | | | | | | | | | | | | | |];
        try reflexivity; discriminate He. }
    rewrite trace_bind in H. apply Exists_app in H as [H|H];
      [apply Forall_not_Exists_bool in Hrun; contradiction|].
    destruct run as [t [rows|e|]] eqn:Erun; cbn [outcome snd] in H;
      try (inversion H; fail).
    rewrite !trace_bind in H. cbn [trace outcome emit fst snd app] in H.
    inversion H as [? ? Hx|? ? Hx]; [discriminate Hx|].
    inversion Hx as [? ? Hy|? ? Hy]; [discriminate Hy|].
    destruct (IH rows Hy) as (pre & f & r & Hf & Hpre & E).
    exists (t ++ [WriteState (chunk_idx + 1); ProgressUpdate rows (chunk_idx + 1)]
            ++ pre), f, r.
    split; [exact Hf|]. split.
    + apply Forall_app. split; [exact Hrun|]. repeat constructor. exact Hpre.
    + cbn [bind emit]. rewrite E. cbn. rewrite <- !app_assoc. reflexivity.
Qed.

Lemma hook_not_missing (msgs : message -> bool) (t : list event) :
  (forall f, msgs (MsgMissingChunk f) = false) ->
  Forall (fun e => hook_event msgs e = true) t ->
  Forall (fun e => is_missing_chunk e = false) t.
Proof.
  intros Hm Ht. eapply Forall_impl; [exact Ht|]. intros e He.
  destruct e as [m| | | | | | | | | | | | | | | | | | | | | |]; try reflexivity.
  destruct m; try reflexivity. cbn in He. rewrite Hm in He. discriminate He.
Qed.

Lemma hook_not_rebuild (msgs : message -> bool) (t : list event) :
  (forall m, msgs m = true -> rebuild_message m = false) ->
  Forall (fun e => hook_event msgs e = true) t ->
  Forall (fun e => forall m, e = ConsolePrint m -> rebuild_message m = false) t.
Proof.
  intros Hm Ht. eapply Forall_impl; [exact Ht|]. intros e He m ->.
  apply Hm. exact He.
Qed.

Lemma restore_from_missing (env : RestoreEnv) (dir : TableDir)
    (settings : DumpSettings.t) (manifest : ManifestDoc.t) (start_chunk : Z) :
  Exists (fun e => is_missing_chunk e = true)
    (trace (restore_from env dir settings manifest start_chunk)) ->
  exists pre f,
    chunk_files dir !! f = None
    /\ Forall (fun e => is_missing_chunk e = false) pre
    /\ Forall (fun e => forall m, e = ConsolePrint m -> rebuild_message m = false) pre
    /\ restore_from env dir settings manifest start_chunk
       = (pre ++ [ConsolePrint (MsgMissingChunk f); ProgressEnd], Ok tt).
Proof.
  unfold restore_from.
  set (hooks := if start_chunk =? 0 then _pre_restore _ _ _ _ _ else ret tt).
  set (drops := if _ && _ then _drop_non_pk_indexes _ _ _ else ret []).
  set (loop := restore_loop _ _ _ _ _ _ _ _ _).
  assert (Hh : Forall (fun e => hook_event pre_message e = true) (trace hooks)).
  { subst hooks. destruct (start_chunk =? 0); [|constructor].
    apply pre_restore_hook. }
  assert (Hd : Forall (fun e => hook_event drop_message e = true) (trace drops)).
  { subst drops. destruct (_ && _); [|constructor].
    apply drop_non_pk_indexes_hook. }
  assert (Hl : Forall (fun e => loop_event
                                  (list_Z_eqb
                                     (default (lit "copy") (ManifestDoc.dump_mode manifest))
                                     (lit "insert")) e = true) (trace loop))
    by apply restore_loop_loop_event.
  assert (Mh := hook_not_missing _ _ (fun f => eq_refl) Hh).
  assert (Md := hook_not_missing _ _ (fun f => eq_refl) Hd).
  assert (Rh : Forall (fun e => forall m, e = ConsolePrint m -> rebuild_message m = false)
                 (trace hooks)).
  { apply (hook_not_rebuild _ _) in Hh; [exact Hh|]. intros []; auto; discriminate. }
  assert (Rd : Forall (fun e => forall m, e = ConsolePrint m -> rebuild_message m = false)
                 (trace drops)).
  { apply (hook_not_rebuild _ _) in Hd; [exact Hd|]. intros []; auto; discriminate. }
  assert (Rl : Forall (fun e => forall m, e = ConsolePrint m -> rebuild_message m = false)
                 (trace loop)).
  { eapply Forall_impl; [exact Hl|]. intros e He m ->.
    destruct m; try reflexivity; discriminate He. }
  intros H.
  destruct (Forall_or_Exists_bool is_missing_chunk (trace loop)) as [Hclean|Hmiss].
  - exfalso. revert H. apply Forall_not_Exists_bool.
    trace_forall; auto.
    all: eapply hook_not_missing; [|apply rebuild_indexes_hook]; reflexivity.
  - destruct (restore_loop_missing _ _ _ _ _ _ _ _ _ Hmiss)
      as (pre & f & r & Hf & Hpre & E).
    fold loop in E. rewrite E in H, Rl |- *.
    cbn [trace fst] in Rl. apply Forall_app in Rl as [Rl _].
    destruct hooks as [t1 [[]|e1|]]; cbn [trace fst] in Mh, Rh;
      try (cbn in H; apply Forall_not_Exists_bool in Mh; contradiction).
    destruct drops as [t2 [dropped|e2|]]; cbn [trace fst] in Md, Rd;
      try (cbn in H; rewrite ?app_nil_r in H; apply Exists_app in H as [H|H];
           [apply Forall_not_Exists_bool in Mh|apply Forall_not_Exists_bool in Md];
           contradiction).
    exists (t1 ++ t2 ++ [ProgressBegin start_chunk (ManifestDoc.chunks_total manifest)]
            ++ pre), f.
    split; [exact Hf|]. split; [|split].
    + repeat (apply Forall_app; split); auto; repeat constructor.
    + repeat (apply Forall_app; split); auto; repeat constructor; discriminate.
    + cbn. rewrite <- !app_assoc. reflexivity.
Qed.

(** X8: when a chunk file is missing, [restore_table] reports it and
    returns at once without an exception: the report is the last thing it
    does before the progress display closes, so no later chunk is
    applied, and no index is rebuilt even if indexes were dropped before
    the loop. *)
Theorem restore_missing_chunk_stops (env : RestoreEnv) (dir : TableDir)
    (settings : DumpSettings.t) :
  Exists (fun e => is_missing_chunk e = true)
    (trace (restore_table env dir settings)) ->
  exists pre f,
    chunk_files dir !! f = None
    /\ Forall (fun e => is_missing_chunk e = false) pre
    /\ Forall (fun e => forall m, e = ConsolePrint m -> rebuild_message m = false) pre
    /\ restore_table env dir settings
       = (pre ++ [ConsolePrint (MsgMissingChunk f); ProgressEnd], Ok tt).
Proof.
  unfold restore_table.
  destruct (manifest_json dir) as [manifest|];
    [|intros H; cbn in H; inversion H as [? ? Hx|? ? Hx];
      [discriminate Hx|inversion Hx]].
  destruct (ManifestDoc.total_rows manifest =? 0) eqn:Ez;
    [intros H; cbn in H; inversion H as [? ? Hx|? ? Hx];
     [discriminate Hx|inversion Hx]|].
  assert (Hgo : forall (t0 : list event) start_chunk,
             Forall (fun e => is_missing_chunk e = false) t0 ->
             Forall (fun e => forall m, e = ConsolePrint m -> rebuild_message m = false)
               t0 ->
             Exists (fun e => is_missing_chunk e = true)
               (trace (bind (t0, Ok (Some start_chunk))
                         (fun start =>
                            match start with
                            | None => ret tt
                            | Some start_chunk =>
                                restore_from env dir settings manifest start_chunk
                            end))) ->
             exists pre f,
               chunk_files dir !! f = None
               /\ Forall (fun e => is_missing_chunk e = false) pre
               /\ Forall (fun e => forall m, e = ConsolePrint m ->
                                     rebuild_message m = false) pre
               /\ bind (t0, Ok (Some start_chunk))
                    (fun start =>
                       match start with
                       | None => ret tt
                       | Some start_chunk =>
                           restore_from env dir settings manifest start_chunk
                       end)
                  = (pre ++ [ConsolePrint (MsgMissingChunk f); ProgressEnd], Ok tt)).
  { intros t0 start_chunk Ht0 Rt0 H. rewrite trace_bind in H.
    cbn [trace outcome fst snd] in H.
    apply Exists_app in H as [H|H];
      [apply Forall_not_Exists_bool in Ht0; contradiction|].
    destruct (restore_from_missing env dir settings manifest start_chunk H)
      as (pre & f & Hf & Hpre & Rpre & E).
    exists (t0 ++ pre), f.
    split; [exact Hf|].
    split; [apply Forall_app; split; assumption|].
    split; [apply Forall_app; split; assumption|].
    cbn [bind]. rewrite E. rewrite <- app_assoc. reflexivity. }
  destruct (restore_state_json dir) as [state|].
  - destruct (default 0 state >=? ManifestDoc.chunks_total manifest).
    + intros H. cbn in H. inversion H as [? ? Hx|? ? Hx];
        [discriminate Hx|inversion Hx].
    + destruct (default 0 state >? 0).
      * intros H.
        exact (Hgo [ConsolePrint (MsgResumingRestore (ManifestDoc.table manifest)
                             (default 0 state))]
                 (default 0 state) ltac:(repeat constructor)
                 ltac:(repeat constructor; intros m [= <-]; reflexivity) H).
      * intros H. exact (Hgo [] (default 0 state) ltac:(constructor)
                           ltac:(constructor) H).
  - intros H. exact (Hgo [] 0 ltac:(constructor) ltac:(constructor) H).
Qed.

Lemma restore_missing_chunk_stops_witness :
  exists pre f,
    chunk_files sample_dir_incomplete !! f = None
    /\ Forall (fun e => is_missing_chunk e = false) pre
    /\ Forall (fun e => forall m, e = ConsolePrint m -> rebuild_message m = false) pre
    /\ restore_table (restore_env_with (fun _ _ => Succeeds)) sample_dir_incomplete
         (sample_settings (lit "copy") true false false true)
       = (pre ++ [ConsolePrint (MsgMissingChunk f); ProgressEnd], Ok tt).
Proof.
  apply (restore_missing_chunk_stops (restore_env_with (fun _ _ => Succeeds))
           sample_dir_incomplete (sample_settings (lit "copy") true false false true)).
  apply List.Exists_exists.
  exists (ConsolePrint (MsgMissingChunk (lit "t_chunk_000001.csv"))).
  split; [|reflexivity].
  vm_compute. repeat (first [left; reflexivity | right]).
Defined.

(** ** More on ranges *)

Lemma range_empty (a b : Z) : b <= a -> range a b = [].
Proof. intros H. unfold range. replace (Z.to_nat (b - a)) with O by lia. reflexivity. Qed.

Lemma range_cons (a b : Z) : a < b -> range a b = a :: range (a + 1) b.
Proof.
  intros H. unfold range.
  replace (Z.to_nat (b - a)) with (S (Z.to_nat (b - (a + 1)))) by lia.
  cbn [seq List.map]. f_equal; [lia|].
  rewrite <- seq_shift, List.map_map. apply List.map_ext. intros i. lia.
Qed.

Lemma range_split (a b c : Z) : a <= b <= c -> range a c = range a b ++ range b c.
Proof.
  remember (Z.to_nat (b - a)) as n eqn:En. revert a En.
  induction n as [|n IH]; intros a En H.
  - assert (a = b) as -> by lia. rewrite (range_empty b b) by lia. reflexivity.
  - rewrite (range_cons a c), (range_cons a b) by lia.
    rewrite (IH (a + 1)) by lia. reflexivity.
Qed.

(** ** A chunk that is applied after failed attempts *)

Lemma connections_app (t1 t2 : list event) :
  connections (t1 ++ t2) = (connections t1 + connections t2)%nat.
Proof. unfold connections. rewrite List.filter_app, length_app. reflexivity. Qed.

Section RetrySuccess.
Variable env : RestoreEnv.
Variable settings : DumpSettings.t.
Variables table_name col_list dump_mode : list Z.
Variable k : Z.
Variable raw_data : list Z.
Variable chunk_row_count : Z.

Local Abbreviation attempt i :=
  (apply_attempt env settings table_name col_list dump_mode k i raw_data).
Local Abbreviation retry attempts rows_restored :=
  (apply_with_retry env settings table_name col_list dump_mode attempts k raw_data
     chunk_row_count rows_restored).

Lemma failed_attempts_connections (l : list Z) :
  (forall i, In i l -> i < DumpSettings.max_retries settings) ->
  connections
    (List.flat_map (fun i => trace (attempt i) ++ after_failed_attempt settings k i) l)
  = length l.
Proof.
  induction l as [|i l IH]; intros Hl; [reflexivity|].
  cbn [List.flat_map length]. rewrite !connections_app, attempt_connections.
  rewrite IH by (intros j Hj; apply Hl; right; exact Hj).
  unfold after_failed_attempt.
  replace (i <? DumpSettings.max_retries settings) with true
    by (symmetry; apply Z.ltb_lt, Hl; left; reflexivity).
  reflexivity.
Qed.

Lemma failed_attempts_waits (l : list Z) :
  (forall i, In i l -> i < DumpSettings.max_retries settings) ->
  List.flat_map (fun i => trace (attempt i) ++ after_failed_attempt settings k i) l
  = List.flat_map
      (fun i =>
         trace (attempt i)
         ++ [ConsolePrint (MsgRetry k i (DumpSettings.retry_backoff settings ^ i));
             Sleep (DumpSettings.retry_backoff settings ^ i)]) l.
Proof.
  induction l as [|i l IH]; intros Hl; [reflexivity|].
  cbn [List.flat_map]. rewrite IH by (intros j Hj; apply Hl; right; exact Hj).
  unfold after_failed_attempt at 1.
  replace (i <? DumpSettings.max_retries settings) with true
    by (symmetry; apply Z.ltb_lt, Hl; left; reflexivity).
  reflexivity.
Qed.

(** X9: when the attempts before attempt [j] fail and attempt [j]
    succeeds, with [j] at most [max_retries], and each of the failed
    attempts is reportable (the console takes the text of its error and
    [retry_backoff ** i] is a length [time.sleep] accepts), the chunk is
    applied by exactly [j] attempts: each failed attempt [i] is followed
    by the retry message and a sleep of [retry_backoff ** i] seconds, the
    successful attempt ends the loop, [rows_restored] grows by the rows
    of the chunk, and [j] connections are opened. *)
Theorem retry_succeeds_at (j rows_restored : Z) :
  1 <= j <= DumpSettings.max_retries settings ->
  (forall i, 1 <= i < j -> reportable env settings k i) ->
  (forall i, 1 <= i < j -> outcome (attempt i) <> Ok tt) ->
  outcome (attempt j) = Ok tt ->
  retry (range 1 (DumpSettings.max_retries settings + 1)) rows_restored
  = (List.flat_map
       (fun i =>
          trace (attempt i)
          ++ [ConsolePrint (MsgRetry k i (DumpSettings.retry_backoff settings ^ i));
              Sleep (DumpSettings.retry_backoff settings ^ i)])
       (range 1 j)
     ++ trace (attempt j),
     Ok (rows_restored + chunk_row_count))
  /\ connections
       (trace (retry (range 1 (DumpSettings.max_retries settings + 1)) rows_restored))
     = Z.to_nat j.
Proof.
  intros Hj Hrep Hfail Hok.
  assert (Hl : forall i, In i (range 1 j) -> i < DumpSettings.max_retries settings).
  { intros i Hi. apply range_In in Hi. lia. }
  assert (E : retry (range 1 (DumpSettings.max_retries settings + 1)) rows_restored
              = (List.flat_map
                   (fun i => trace (attempt i) ++ after_failed_attempt settings k i)
                   (range 1 j)
                 ++ trace (attempt j),
                 Ok (rows_restored + chunk_row_count))).
  { rewrite (range_split 1 j (DumpSettings.max_retries settings + 1)) by lia.
    rewrite (range_cons j) by lia.
    rewrite retry_failing_prefix.
    2:{ intros i Hi. split; [apply Hl, Hi|]. apply range_In in Hi.
        split; [apply Hrep|apply Hfail]; lia. }
    rewrite retry_cons, Hok. reflexivity. }
  split.
  - rewrite E, failed_attempts_waits by exact Hl. reflexivity.
  - rewrite E. cbn [trace fst].
    rewrite connections_app, failed_attempts_connections by exact Hl.
    rewrite attempt_connections, range_length. lia.
Qed.
End RetrySuccess.

Lemma retry_succeeds_at_witness :
  connections
    (trace (apply_with_retry
              (restore_env_with (fun _ i => if i <? 2 then ExecuteFails else Succeeds))
              (sample_settings (lit "copy") true false false false)
              (lit "t") (lit "id, s") (lit "copy") (range 1 (3 + 1)) 0
              sample_copy_data 2 0))
  = 2%nat.
Proof.
  apply (retry_succeeds_at
           (restore_env_with (fun _ i => if i <? 2 then ExecuteFails else Succeeds))
           (sample_settings (lit "copy") true false false false)
           (lit "t") (lit "id, s") (lit "copy") 0 sample_copy_data 2 2 0).
  - cbn. lia.
  - intros i Hi. assert (i = 1) as -> by lia.
    split; [reflexivity|]. intros _. unfold sleep_max. cbn. lia.
  - intros i Hi. assert (i = 1) as -> by lia. vm_compute. discriminate.
  - reflexivity.
Defined.

(** ** A restore that is allowed no attempt *)

(** X10: with [max_retries] zero or negative the range of attempts is
    empty: for every chunk whose file is there the loop sends nothing to
    the database and still records the chunk as restored, and it ends
    with [rows_restored] unchanged. *)
Theorem restore_loop_without_attempts (env : RestoreEnv) (dir : TableDir)
    (settings : DumpSettings.t) (table_name col_list dump_mode : list Z)
    (compressed : bool) (idxs : list Z) (rows_restored : Z) :
  DumpSettings.max_retries settings <= 0 ->
  Forall (fun i =>
            restore_interrupted_at env i = false
            /\ is_Some (chunk_files dir
                        !! restore_chunk_filename table_name dump_mode compressed i))
    idxs ->
  restore_loop env dir settings table_name col_list dump_mode compressed idxs
    rows_restored
  = (List.flat_map
       (fun i => [WriteState (i + 1); ProgressUpdate rows_restored (i + 1)]) idxs,
     Ok (LoopDone, rows_restored)).
Proof.
  intros Hmax Hidx.
  induction Hidx as [|i rest [Hint [raw Hfile]] _ IH]; [reflexivity|].
  cbn [restore_loop List.flat_map]. rewrite Hint, Hfile.
  rewrite (range_empty 1) by lia.
  cbn [apply_with_retry bind ret emit app]. rewrite IH. reflexivity.
Qed.

Lemma restore_loop_without_attempts_witness :
  restore_loop (restore_env_with (fun _ _ => Succeeds)) sample_dir
    (sample_settings_retries 0) (lit "t") (lit "id, s") (lit "copy") false [0; 1] 0
  = ([WriteState 1; ProgressUpdate 0 1; WriteState 2; ProgressUpdate 0 2],
     Ok (LoopDone, 0)).
Proof.
  apply (restore_loop_without_attempts (restore_env_with (fun _ _ => Succeeds))
           sample_dir (sample_settings_retries 0) (lit "t") (lit "id, s")
           (lit "copy") false [0; 1] 0).
  - cbn. lia.
  - repeat constructor; vm_compute; eauto.
Defined.

(** ** A dump in which nothing fails *)

Lemma flat_map_ext_In {A B} (f g : A -> list B) (l : list A) :
  (forall a, In a l -> f a = g a) -> List.flat_map f l = List.flat_map g l.
Proof.
  induction l as [|a l IH]; intros H; [reflexivity|].
  cbn [List.flat_map]. rewrite (H a) by (left; reflexivity).
  rewrite IH by (intros b Hb; apply H; right; exact Hb). reflexivity.
Qed.

Lemma rows_through_cons (copy : Z -> list Z) (a b : Z) :
  a < b -> rows_through copy a b = count_records (copy a) + rows_through copy (a + 1) b.
Proof.
  intros H. unfold rows_through. rewrite (range_cons a b H). reflexivity.
Qed.

Lemma rows_through_empty (copy : Z -> list Z) (a b : Z) :
  b <= a -> rows_through copy a b = 0.
Proof. intros H. unfold rows_through. rewrite range_empty by exact H. reflexivity. Qed.

Lemma bind_ret {A B} (a : A) (f : A -> M B) : bind (ret a) f = f a.
Proof. unfold bind, ret. destruct (f a). reflexivity. Qed.

Lemma bind_assoc {A B C} (m : M A) (f : A -> M B) (g : B -> M C) :
  bind (bind m f) g = bind m (fun a => bind (f a) g).
Proof.
  destruct m as [t [a| |]]; cbn [bind]; try reflexivity.
  destruct (f a) as [t' [b| |]]; cbn [bind]; try reflexivity.
  destruct (g b) as [t'' r]. rewrite app_assoc. reflexivity.
Qed.

Section DumpRun.
Variable env : DumpEnv.
Variable db_cfg : DBConfig.t.
Variable dbname : list Z.
Variable table : TableInfo.t.
Variable settings : DumpSettings.t.
Variable copy : Z -> list Z.
Hypothesis copy_ok : forall i, copy_result env i = CopyData (copy i).
Hypothesis write_ok : forall i, chunk_write env i = WriteOk.
Hypothesis not_interrupted : forall i, dump_interrupted_at env i = false.
Hypothesis mode_copy : DumpSettings.dump_mode settings <> lit "insert".

Lemma dump_chunk_run (schema_ddl : option (list Z))
    (index_defs : list (list Z * list Z)) (start_chunk chunks_total : Z)
    (chunk_idx rows_dumped : Z) (manifest : DumpManifest.t) :
  dump_chunk env table settings schema_ddl index_defs start_chunk chunks_total
    (DumpSettings.chunk_rows settings) (col_list_of (TableInfo.columns table))
    (order_clause_of table) chunk_idx rows_dumped manifest
  = (chunk_turn table settings manifest chunk_idx (copy chunk_idx)
       (rows_dumped + count_records (copy chunk_idx)),
     Ok (rows_dumped + count_records (copy chunk_idx), chunk_idx + 1,
         DumpManifest.set_chunks_completed manifest (chunk_idx + 1))).
Proof.
  unfold dump_chunk, _write_manifest, chunk_turn, list_Z_eqb.
  rewrite copy_ok, write_ok, bool_decide_eq_false_2 by exact mode_copy.
  reflexivity.
Qed.

Lemma dump_loop_run (schema_ddl : option (list Z))
    (index_defs : list (list Z * list Z)) (start_chunk chunks_total : Z)
    (fuel : nat) :
  forall chunk_idx rows_dumped manifest,
    (Z.to_nat (chunks_total - chunk_idx) <= fuel)%nat ->
    dump_loop env table settings schema_ddl index_defs start_chunk chunks_total
      (DumpSettings.chunk_rows settings) (col_list_of (TableInfo.columns table))
      (order_clause_of table) fuel chunk_idx rows_dumped manifest
    = (List.flat_map
         (fun i => chunk_turn table settings manifest i (copy i)
                     (rows_dumped + rows_through copy chunk_idx (i + 1)))
         (range chunk_idx chunks_total),
       Ok (rows_dumped + rows_through copy chunk_idx chunks_total,
           Z.max chunk_idx chunks_total,
           if chunk_idx <? chunks_total
           then DumpManifest.set_chunks_completed manifest chunks_total
           else manifest)).
Proof.
  induction fuel as [|fuel IH]; intros chunk_idx rows_dumped manifest Hf;
    cbn [dump_loop]; rewrite not_interrupted;
    destruct (Z.ltb_spec chunk_idx chunks_total) as [Hlt|Hge]; cbn [andb negb];
    try lia.
  - rewrite range_empty, rows_through_empty by lia.
    rewrite Z.max_l, Z.add_0_r by lia. reflexivity.
  - rewrite dump_chunk_run. cbn [bind fst snd].
    rewrite IH by lia.
    rewrite (range_cons chunk_idx chunks_total Hlt). cbn [List.flat_map].
    f_equal.
    + f_equal.
      * rewrite (rows_through_cons copy chunk_idx (chunk_idx + 1)) by lia.
        rewrite rows_through_empty by lia. f_equal. lia.
      * apply flat_map_ext_In. intros i Hi. apply range_In in Hi.
        rewrite (rows_through_cons copy chunk_idx (i + 1)) by lia.
        rewrite Z.add_assoc.
        unfold chunk_turn. rewrite set_chunks_completed_filename. reflexivity.
    + f_equal. f_equal; [f_equal|].
      * rewrite (rows_through_cons copy chunk_idx chunks_total) by lia. lia.
      * lia.
      * destruct (Z.ltb_spec (chunk_idx + 1) chunks_total); [reflexivity|].
        assert (chunk_idx + 1 = chunks_total) as -> by lia. reflexivity.
  - rewrite range_empty, rows_through_empty by lia.
    rewrite Z.max_l, Z.add_0_r by lia. reflexivity.
Qed.

Variable total_rows : Z.
Hypothesis count_is : count_result env = Some total_rows.
Hypothesis rows_pos : 0 < total_rows.
Hypothesis chunk_rows_pos : 1 <= DumpSettings.chunk_rows settings.
Hypothesis not_interrupted_end : dump_interrupted_end env = false.
Hypothesis connect_ok : dump_connect_ok env = true.

Local Abbreviation chunks_total :=
  ((total_rows + DumpSettings.chunk_rows settings - 1)
   / DumpSettings.chunk_rows settings).

Local Abbreviation first_manifest start_chunk has_schema :=
  (_make_manifest (now_manifest env) db_cfg dbname table settings total_rows
     start_chunk chunks_total has_schema false).

Local Abbreviation last_manifest start_chunk has_schema :=
  (DumpManifest.set_finished_at
     (DumpManifest.set_chunks_completed (first_manifest start_chunk has_schema)
        (Z.max start_chunk chunks_total))
     (now_finished env)).

Lemma dump_with_cursor_run (schema_ddl : option (list Z)) (has_schema : bool)
    (index_defs : list (list Z * list Z)) (start_chunk : Z) :
  dump_with_cursor env db_cfg dbname table settings schema_ddl has_schema
    index_defs start_chunk
  = ([ConsolePrint (MsgCounting (TableInfo.name table));
      Query (CountRows (TableInfo.name table));
      ConsolePrint (MsgCount total_rows);
      ProgressBegin start_chunk chunks_total]
     ++ List.flat_map
          (fun i =>
             chunk_turn table settings (first_manifest start_chunk has_schema) i
               (copy i)
               (start_chunk * DumpSettings.chunk_rows settings
                + rows_through copy start_chunk (i + 1)))
          (range start_chunk chunks_total)
     ++ [ProgressEnd;
         WriteManifest (last_manifest start_chunk has_schema);
         ConsolePrint
           (MsgDumpDone (TableInfo.name table)
              (start_chunk * DumpSettings.chunk_rows settings
               + rows_through copy start_chunk chunks_total)
              (Z.max start_chunk chunks_total))],
     Ok tt).
Proof.
  unfold dump_with_cursor, _write_manifest. rewrite count_is.
  cbn [bind emit ret app].
  destruct (Z.eqb_spec total_rows 0) as [|_]; [lia|].
  destruct (Z.eqb_spec (DumpSettings.chunk_rows settings) 0) as [|_]; [lia|].
  cbn [bind emit ret app].
  pose proof (dump_loop_run schema_ddl index_defs start_chunk chunks_total
                (Z.to_nat (chunks_total - start_chunk)) start_chunk
                (start_chunk * DumpSettings.chunk_rows settings)
                (first_manifest start_chunk has_schema) (Nat.le_refl _)) as E.
  unfold col_list_of, order_clause_of in E. rewrite E. clear E.
  cbn [try_finally emit]. rewrite not_interrupted_end.
  cbn [negb bind emit fst snd app]. rewrite <- !app_assoc. cbn [app].
  repeat f_equal.
  destruct (Z.ltb_spec start_chunk chunks_total); [rewrite Z.max_r by lia|
                                                   rewrite Z.max_l by lia];
    reflexivity.
Qed.

Lemma dump_table_from (start_chunk : Z) :
  exists pre has_schema,
    Forall (fun e => prepare_event e = true) pre
    /\ (sd <- dump_schema_step env table settings ;;
        let schema_ddl := fst sd in
        let has_schema := snd sd in
        index_defs <- dump_index_step env table settings ;;
        emit Connect ;;;
        (if dump_connect_ok env then ret tt else raise ConnectError) ;;;
        try_finally
          (try_except
             (try_except_interrupt
                (dump_with_cursor env db_cfg dbname table settings schema_ddl
                   has_schema index_defs start_chunk)
                (emit (ConsolePrint (MsgForceStopped (TableInfo.name table))) ;;;
                 raise KeyboardInterrupt))
             (fun e =>
                emit (ConsolePrint (MsgDumpFailed (TableInfo.name table))) ;;; raise e))
          (emit Close))
       = (pre
          ++ List.flat_map
               (fun i =>
                  chunk_turn table settings (first_manifest start_chunk has_schema) i
                    (copy i)
                    (start_chunk * DumpSettings.chunk_rows settings
                     + rows_through copy start_chunk (i + 1)))
               (range start_chunk chunks_total)
          ++ [ProgressEnd;
              WriteManifest (last_manifest start_chunk has_schema);
              ConsolePrint
                (MsgDumpDone (TableInfo.name table)
                   (start_chunk * DumpSettings.chunk_rows settings
                    + rows_through copy start_chunk chunks_total)
                   (Z.max start_chunk chunks_total));
              Close],
          Ok tt).
Proof.
  destruct (dump_schema_step_returns env table settings) as (t1 & [ddl has_schema] & E1).
  assert (Ht1 : Forall (fun e => prepare_event e = true) t1).
  { change t1 with (trace (t1, @Ok (option (list Z) * bool) (ddl, has_schema))).
    rewrite <- E1. unfold dump_schema_step. trace_forall; reflexivity. }
  exists (t1 ++ [Connect;
                 ConsolePrint (MsgCounting (TableInfo.name table));
                 Query (CountRows (TableInfo.name table));
                 ConsolePrint (MsgCount total_rows);
                 ProgressBegin start_chunk chunks_total]), has_schema.
  split.
  { apply Forall_app; split; auto. repeat constructor. }
  rewrite E1.
  unfold dump_index_step, list_Z_eqb.
  rewrite bool_decide_eq_false_2 by exact mode_copy.
  rewrite connect_ok.
  cbn [andb bind emit ret fst snd app].
  rewrite dump_with_cursor_run.
  cbn [andb bind emit ret fst snd try_finally try_except try_except_interrupt app].
  rewrite <- !app_assoc. reflexivity.
Qed.

Lemma dump_table_run (existing : option ManifestDoc.t) (resume : bool) :
  dump_skipped resume existing = false ->
  let start_chunk := dump_start_chunk resume existing in
  exists pre has_schema,
    Forall (fun e => prepare_event e = true) pre
    /\ dump_table env existing db_cfg dbname table settings resume
       = (pre
          ++ List.flat_map
               (fun i =>
                  chunk_turn table settings (first_manifest start_chunk has_schema) i
                    (copy i)
                    (start_chunk * DumpSettings.chunk_rows settings
                     + rows_through copy start_chunk (i + 1)))
               (range start_chunk chunks_total)
          ++ [ProgressEnd;
              WriteManifest (last_manifest start_chunk has_schema);
              ConsolePrint
                (MsgDumpDone (TableInfo.name table)
                   (start_chunk * DumpSettings.chunk_rows settings
                    + rows_through copy start_chunk chunks_total)
                   (Z.max start_chunk chunks_total));
              Close],
          Ok tt).
Proof.
  intros Hskip start_chunk.
  destruct (dump_table_from start_chunk) as (pre & has_schema & Hpre & E).
  subst start_chunk. unfold dump_table, dump_skipped, dump_start_chunk in *.
  destruct (if resume then existing else None) as [ex|].
  - destruct (ManifestDoc.finished_at ex) as [[|c s]|]; try discriminate Hskip;
      destruct (default 0 (ManifestDoc.chunks_completed ex) >? 0);
      rewrite ?bind_assoc, ?bind_ret; cbv beta iota; rewrite E;
      cbn [bind emit ret app];
      eexists; exists has_schema;
      (split; [|rewrite !app_comm_cons; reflexivity]);
      repeat (constructor; [reflexivity|]); exact Hpre.
  - rewrite ?bind_assoc, ?bind_ret; cbv beta iota; rewrite E.
    cbn [bind emit ret app].
    eexists; exists has_schema;
      (split; [|rewrite !app_comm_cons; reflexivity]);
      repeat (constructor; [reflexivity|]); exact Hpre.
Qed.
End DumpRun.

(** ** The directory after a dump *)

Lemma apply_events_prepare (t : list event) :
  Forall (fun e => prepare_event e = true) t ->
  forall d,
    manifest_json (apply_events d t) = manifest_json d
    /\ restore_state_json (apply_events d t) = restore_state_json d
    /\ chunk_files (apply_events d t) = chunk_files d.
Proof.
  induction 1 as [|e t He _ IH]; intros d; [auto|].
  cbn [apply_events fold_left]. fold (apply_events (apply_event d e) t).
  destruct (IH (apply_event d e)) as (-> & -> & ->).
  destruct e; try discriminate He; auto.
Qed.

Lemma apply_events_turns (table : TableInfo.t) (settings : DumpSettings.t)
    (m : DumpManifest.t) (copy : Z -> list Z) (rows : Z -> Z) (l : list Z) :
  forall d,
    restore_state_json
      (apply_events d
         (List.flat_map (fun i => chunk_turn table settings m i (copy i) (rows i)) l))
    = restore_state_json d
    /\ chunk_files
         (apply_events d
            (List.flat_map (fun i => chunk_turn table settings m i (copy i) (rows i)) l))
       = fold_left (fun acc i => <[DumpManifest.chunk_filename m i := copy i]> acc) l
           (chunk_files d).
Proof.
  induction l as [|i l IH]; intros d; [auto|].
  cbn [List.flat_map]. rewrite apply_events_app.
  destruct (IH (apply_events d (chunk_turn table settings m i (copy i) (rows i))))
    as [-> ->].
  split; reflexivity.
Qed.

Lemma fold_insert_other (key : Z -> list Z) (copy : Z -> list Z) (f : list Z)
    (l : list Z) :
  (forall i, In i l -> f <> key i) ->
  forall acc : gmap (list Z) (list Z),
    fold_left (fun acc i => <[key i := copy i]> acc) l acc !! f = acc !! f.
Proof.
  induction l as [|a l IH]; intros Hf acc; [reflexivity|].
  cbn [fold_left]. rewrite IH by (intros i Hi; apply Hf; right; exact Hi).
  apply lookup_insert_ne. intros E. apply (Hf a); [left; reflexivity|].
  symmetry. exact E.
Qed.

Lemma fold_insert_lookup (key : Z -> list Z) (copy : Z -> list Z) (l : list Z) :
  (forall i j, key i = key j -> i = j) ->
  forall (acc : gmap (list Z) (list Z)) i,
    In i l ->
    fold_left (fun acc i => <[key i := copy i]> acc) l acc !! key i = Some (copy i).
Proof.
  intros Hinj. induction l as [|a l IH]; intros acc i Hi; [contradiction|].
  cbn [fold_left].
  destruct (in_dec Z.eq_dec i l) as [Hin|Hout]; [apply IH, Hin|].
  destruct Hi as [->|Hi]; [|contradiction].
  rewrite fold_insert_other.
  - apply lookup_insert_eq.
  - intros j Hj E. apply Hinj in E. subst j. contradiction.
Qed.

Lemma chunk_filename_inj (m : DumpManifest.t) (i j : Z) :
  DumpManifest.chunk_filename m i = DumpManifest.chunk_filename m j -> i = j.
Proof.
  unfold DumpManifest.chunk_filename, format_06d. intros E.
  apply app_inv_head in E. apply app_inv_head in E.
  apply app_inv_tail in E. apply format_0d_inj in E. exact E.
Qed.

Section DumpDirectory.
Variable env : DumpEnv.
Variable db_cfg : DBConfig.t.
Variable dbname : list Z.
Variable table : TableInfo.t.
Variable settings : DumpSettings.t.
Variable copy : Z -> list Z.
Variable total_rows : Z.
Hypothesis copy_ok : forall i, copy_result env i = CopyData (copy i).
Hypothesis write_ok : forall i, chunk_write env i = WriteOk.
Hypothesis not_interrupted : forall i, dump_interrupted_at env i = false.
Hypothesis not_interrupted_end : dump_interrupted_end env = false.
Hypothesis connect_ok : dump_connect_ok env = true.
Hypothesis mode_copy : DumpSettings.dump_mode settings <> lit "insert".
Hypothesis count_is : count_result env = Some total_rows.
Hypothesis rows_pos : 0 < total_rows.
Hypothesis chunk_rows_pos : 1 <= DumpSettings.chunk_rows settings.

Local Abbreviation chunks_total :=
  ((total_rows + DumpSettings.chunk_rows settings - 1)
   / DumpSettings.chunk_rows settings).

Local Abbreviation chunk_file i :=
  (restore_chunk_filename (TableInfo.name table) (DumpSettings.dump_mode settings)
     (DumpSettings.compress settings) i).

Lemma dump_table_directory (existing : option ManifestDoc.t) (resume : bool)
    (d : TableDir) :
  dump_skipped resume existing = false ->
  let start_chunk := dump_start_chunk resume existing in
  let run := dump_table env existing db_cfg dbname table settings resume in
  let d' := apply_events d (trace run) in
  outcome run = Ok tt
  /\ (exists has_schema,
        manifest_json d'
        = Some (doc_of_manifest
                  (DumpManifest.set_finished_at
                     (_make_manifest (now_manifest env) db_cfg dbname table settings
                        total_rows (Z.max start_chunk chunks_total) chunks_total
                        has_schema false)
                     (now_finished env))))
  /\ (forall i, start_chunk <= i < chunks_total ->
                chunk_files d' !! chunk_file i = Some (copy i))
  /\ (forall f, (forall i, start_chunk <= i < chunks_total -> f <> chunk_file i) ->
                chunk_files d' !! f = chunk_files d !! f)
  /\ restore_state_json d' = restore_state_json d.
Proof.
  intros Hskip start_chunk run d'.
  destruct (dump_table_run env db_cfg dbname table settings copy copy_ok write_ok
              not_interrupted mode_copy total_rows count_is rows_pos chunk_rows_pos
              not_interrupted_end connect_ok existing resume Hskip)
    as (pre & has_schema & Hpre & E).
  fold start_chunk in E. fold run in E.
  subst d'. rewrite E. cbn [trace outcome fst snd].
  split; [reflexivity|].
  rewrite !apply_events_app.
  destruct (apply_events_prepare pre Hpre d) as (_ & Hs & Hc).
  set (d1 := apply_events d pre) in *.
  set (m0 := _make_manifest (now_manifest env) db_cfg dbname table settings
               total_rows start_chunk chunks_total has_schema false).
  destruct (apply_events_turns table settings m0 copy
              (fun i => start_chunk * DumpSettings.chunk_rows settings
                        + rows_through copy start_chunk (i + 1))
              (range start_chunk chunks_total) d1) as [Hs2 Hc2].
  set (d2 := apply_events d1 _) in *.
  cbn [apply_events fold_left apply_event manifest_json chunk_files
         restore_state_json].
  split; [exists has_schema; reflexivity|].
  rewrite Hc2, Hc, Hs2, Hs.
  split; [|split; [|reflexivity]].
  - intros i Hi.
    change (chunk_file i) with (DumpManifest.chunk_filename m0 i).
    apply fold_insert_lookup; [apply chunk_filename_inj|].
    apply range_In. exact Hi.
  - intros f Hf. apply fold_insert_other. intros i Hi. apply range_In in Hi.
    exact (Hf i Hi).
Qed.
End DumpDirectory.

(** ** A restore in which nothing fails *)

Section RestoreRun.
Variable env : RestoreEnv.
Variable dir : TableDir.
Variable settings : DumpSettings.t.
Variable table_name : list Z.
Variable columns : list (list Z).
Variable dump_mode : list Z.
Variable compressed : bool.
Variable copy : Z -> list Z.
Hypothesis first_attempt_ok : forall i, apply_result env i 1 = Succeeds.
Hypothesis not_interrupted : forall i, restore_interrupted_at env i = false.
Hypothesis retries_pos : 1 <= DumpSettings.max_retries settings.
Hypothesis mode_copy : dump_mode <> lit "insert".

Lemma apply_attempt_run (chunk_idx : Z) (raw_data : list Z) :
  apply_attempt env settings table_name (col_list_of columns) dump_mode chunk_idx 1
    raw_data
  = ([Connect; CopyIn (copy_in_sql table_name columns) raw_data; Commit; Close],
     Ok tt).
Proof.
  unfold apply_attempt, list_Z_eqb.
  rewrite first_attempt_ok, bool_decide_eq_false_2 by exact mode_copy.
  destruct (DumpSettings.use_transactions settings); reflexivity.
Qed.

Lemma apply_with_retry_run (chunk_idx : Z) (raw_data : list Z)
    (chunk_row_count rows_restored : Z) :
  apply_with_retry env settings table_name (col_list_of columns) dump_mode
    (range 1 (DumpSettings.max_retries settings + 1)) chunk_idx raw_data
    chunk_row_count rows_restored
  = ([Connect; CopyIn (copy_in_sql table_name columns) raw_data; Commit; Close],
     Ok (rows_restored + chunk_row_count)).
Proof.
  rewrite (range_cons 1) by lia. rewrite retry_cons, apply_attempt_run.
  reflexivity.
Qed.

Lemma restore_loop_run (n : nat) :
  forall a b rows_restored,
    Z.to_nat (b - a) = n ->
    (forall i, a <= i < b ->
               chunk_files dir !! restore_chunk_filename table_name dump_mode compressed i
               = Some (copy i)) ->
    restore_loop env dir settings table_name (col_list_of columns) dump_mode compressed
      (range a b) rows_restored
    = (List.flat_map
         (fun i => restore_turn table_name columns i (copy i)
                     (rows_restored + rows_through copy a (i + 1)))
         (range a b),
       Ok (LoopDone, rows_restored + rows_through copy a b)).
Proof.
  induction n as [|n IH]; intros a b rows_restored Hn Hfiles.
  - rewrite range_empty, rows_through_empty by lia. rewrite Z.add_0_r. reflexivity.
  - assert (Hlt : a < b) by lia.
    rewrite (range_cons a b Hlt). cbn [restore_loop List.flat_map].
    rewrite not_interrupted, (Hfiles a) by lia.
    assert (Ec : _count_rows_for_mode (copy a) dump_mode = count_records (copy a)).
    { unfold _count_rows_for_mode, count_records, list_Z_eqb.
      rewrite bool_decide_eq_false_2 by exact mode_copy. reflexivity. }
    rewrite Ec, apply_with_retry_run. cbn [bind emit ret].
    rewrite (IH (a + 1) b) by (try lia; intros i Hi; apply Hfiles; lia).
    cbn [fst snd app].
    f_equal.
    + replace (rows_through copy a (a + 1)) with (count_records (copy a)).
      2:{ rewrite rows_through_cons, rows_through_empty by lia. lia. }
      unfold restore_turn at 2. cbn [app]. do 6 f_equal.
      apply flat_map_ext_In. intros i Hi. apply range_In in Hi.
      rewrite (rows_through_cons copy a (i + 1)) by lia.
      rewrite Z.add_assoc. reflexivity.
    + rewrite (rows_through_cons copy a b) by lia. rewrite Z.add_assoc. reflexivity.
Qed.
End RestoreRun.

Lemma pre_restore_returns (env : RestoreEnv) (dir : TableDir)
    (settings : DumpSettings.t) (table_name : list Z) (has_schema : bool) :
  pre_connect_ok env = true -> pre_drop_ok env = true -> pre_schema_ok env = true ->
  exists t, _pre_restore env dir settings table_name has_schema = (t, Ok tt).
Proof.
  intros H1 H2 H3. unfold _pre_restore, ensure. rewrite H1, H2, H3.
  destruct (DumpSettings.drop_on_restore settings);
    destruct (DumpSettings.recreate_schema settings && has_schema);
    destruct (schema_sql dir);
    destruct (DumpSettings.truncate_before_restore settings);
    destruct (pre_truncate_ok env); cbn; eauto.
Qed.

Lemma drop_non_pk_indexes_returns (env : RestoreEnv) (table_name schema : list Z) :
  idx_connect_ok env = true ->
  exists t definitions,
    _drop_non_pk_indexes env table_name schema = (t, Ok definitions).
Proof.
  intros H. unfold _drop_non_pk_indexes, ensure. rewrite H.
  destruct (idx_rows env) as [rows|]; [|cbn; eauto].
  destruct (drop_index_loop env schema rows 0 []) as [[t defs] ok].
  destruct (ok && idx_commit_ok env); cbn; eauto.
Qed.

Lemma rebuild_loop_outcome (env : RestoreEnv) (definitions : list (list Z)) :
  forall i,
    outcome (rebuild_loop env definitions i) = Ok tt
    \/ outcome (rebuild_loop env definitions i) = Raise DatabaseError.
Proof.
  induction definitions as [|defn rest IH]; intros i; [left; reflexivity|].
  cbn [rebuild_loop]. rewrite !outcome_bind. cbn [outcome emit snd].
  unfold ensure. destruct (negb _); cbn [outcome ret raise snd]; [apply IH|].
  right. reflexivity.
Qed.

Lemma rebuild_indexes_returns (env : RestoreEnv) (definitions : list (list Z)) :
  rebuild_connect_ok env = true ->
  exists t, _rebuild_indexes env definitions = (t, Ok tt).
Proof.
  intros H. unfold _rebuild_indexes, ensure. rewrite H.
  destruct (rebuild_loop_outcome env definitions 0) as [E|E];
    destruct (rebuild_loop env definitions 0) as [t r]; cbn [outcome snd] in E;
    subst r; destruct (rebuild_commit_ok env); cbn; eauto.
Qed.

Lemma filter_none {A} (p : A -> bool) (t : list A) :
  Forall (fun e => p e = false) t -> List.filter p t = [].
Proof.
  induction 1 as [|e t He _ IH]; [reflexivity|].
  cbn [List.filter]. rewrite He. exact IH.
Qed.

Lemma hook_not_copy_in (msgs : message -> bool) (t : list event) :
  Forall (fun e => hook_event msgs e = true) t ->
  Forall (fun e => is_copy_in e = false) t.
Proof.
  intros H. eapply Forall_impl; [exact H|]. intros e He.
  destruct e; try reflexivity; discriminate He.
Qed.

Lemma hook_preserves_state (msgs : message -> bool) (t : list event) :
  Forall (fun e => hook_event msgs e = true) t ->
  forall d, restore_state_json (apply_events d t) = restore_state_json d.
Proof.
  induction 1 as [|e t He _ IH]; intros d; [reflexivity|].
  cbn [apply_events fold_left]. fold (apply_events (apply_event d e) t).
  rewrite IH. destruct e; try reflexivity; discriminate He.
Qed.

Lemma filter_restore_turns (table_name : list Z) (columns : list (list Z))
    (copy : Z -> list Z) (rows : Z -> Z) (l : list Z) :
  List.filter is_copy_in
    (List.flat_map (fun i => restore_turn table_name columns i (copy i) (rows i)) l)
  = List.map (fun i => CopyIn (copy_in_sql table_name columns) (copy i)) l.
Proof.
  induction l as [|i l IH]; [reflexivity|].
  cbn [List.flat_map List.map]. rewrite List.filter_app, IH. reflexivity.
Qed.

Lemma state_after_restore_turns (table_name : list Z) (columns : list (list Z))
    (copy : Z -> list Z) (rows : Z -> Z) (l : list Z) :
  forall d,
    restore_state_json
      (apply_events d
         (List.flat_map (fun i => restore_turn table_name columns i (copy i) (rows i)) l))
    = match last l with
      | Some i => Some (Some (i + 1))
      | None => restore_state_json d
      end.
Proof.
  induction l as [|i l IH]; intros d; [reflexivity|].
  cbn [List.flat_map]. rewrite apply_events_app, IH.
  destruct l as [|j l]; [reflexivity|].
  rewrite last_cons_cons.
  destruct (proj2 (last_is_Some (j :: l)) ltac:(discriminate)) as [x Hx].
  rewrite Hx. reflexivity.
Qed.

Section RestoreTable.
Variable env : RestoreEnv.
Variable dir : TableDir.
Variable settings : DumpSettings.t.
Variable manifest : ManifestDoc.t.
Variable copy : Z -> list Z.
Hypothesis manifest_is : manifest_json dir = Some manifest.
Hypothesis rows_nonzero : ManifestDoc.total_rows manifest <> 0.
Hypothesis fresh : restore_state_json dir = None.
Hypothesis first_attempt_ok : forall i, apply_result env i 1 = Succeeds.
Hypothesis not_interrupted : forall i, restore_interrupted_at env i = false.
Hypothesis not_interrupted_end : restore_interrupted_end env = false.
Hypothesis retries_pos : 1 <= DumpSettings.max_retries settings.
Hypothesis mode_copy :
  default (lit "copy") (ManifestDoc.dump_mode manifest) <> lit "insert".
Hypothesis hooks_ok :
  pre_connect_ok env = true /\ pre_drop_ok env = true /\ pre_schema_ok env = true
  /\ idx_connect_ok env = true /\ rebuild_connect_ok env = true.
Hypothesis files :
  forall i, 0 <= i < ManifestDoc.chunks_total manifest ->
    chunk_files dir
    !! restore_chunk_filename (ManifestDoc.table manifest)
         (default (lit "copy") (ManifestDoc.dump_mode manifest))
         (default true (ManifestDoc.compressed manifest)) i
    = Some (copy i).

Lemma restore_table_run :
  exists pre post,
    Forall (fun e => hook_event hook_message e = true) pre
    /\ Forall (fun e => hook_event hook_message e = true) post
    /\ restore_table env dir settings
       = (pre
          ++ ProgressBegin 0 (ManifestDoc.chunks_total manifest)
          :: List.flat_map
               (fun i =>
                  restore_turn (ManifestDoc.table manifest)
                    (ManifestDoc.columns manifest) i (copy i)
                    (rows_through copy 0 (i + 1)))
               (range 0 (ManifestDoc.chunks_total manifest))
          ++ ProgressEnd
          :: post
          ++ [ConsolePrint
                (MsgRestoreDone (ManifestDoc.table manifest)
                   (rows_through copy 0 (ManifestDoc.chunks_total manifest))
                   (ManifestDoc.chunks_total manifest))],
          Ok tt).
Proof.
  destruct hooks_ok as (H1 & H2 & H3 & H4 & H5).
  unfold restore_table. rewrite manifest_is, fresh.
  destruct (Z.eqb_spec (ManifestDoc.total_rows manifest) 0) as [|_]; [contradiction|].
  rewrite bind_ret. cbv beta iota.
  unfold restore_from.
  change (0 =? 0) with true. cbv iota. rewrite andb_true_r.
  destruct (pre_restore_returns env dir settings (ManifestDoc.table manifest)
              (default false (ManifestDoc.has_schema manifest)) H1 H2 H3)
    as (t1 & E1).
  pose proof (pre_restore_hook env dir settings (ManifestDoc.table manifest)
                (default false (ManifestDoc.has_schema manifest))) as Ht1.
  rewrite E1 in Ht1 |- *. cbn [trace fst] in Ht1.
  assert (Hdrop : exists t2 dropped,
             Forall (fun e => hook_event drop_message e = true) t2
             /\ (if DumpSettings.disable_indexes_on_restore settings
                 then _drop_non_pk_indexes env (ManifestDoc.table manifest)
                        (default (lit "public") (ManifestDoc.schema manifest))
                 else ret [])
                = (t2, Ok dropped)).
  { destruct (DumpSettings.disable_indexes_on_restore settings).
    - destruct (drop_non_pk_indexes_returns env (ManifestDoc.table manifest)
                  (default (lit "public") (ManifestDoc.schema manifest)) H4)
        as (t2 & dropped & E2).
      exists t2, dropped. split; [|exact E2].
      change t2 with (trace (t2, @Ok (list (list Z)) dropped)). rewrite <- E2.
      apply drop_non_pk_indexes_hook.
    - exists [], []. split; [constructor|reflexivity]. }
  destruct Hdrop as (t2 & dropped & Ht2 & E2). rewrite E2.
  pose proof (restore_loop_run env dir settings (ManifestDoc.table manifest)
                (ManifestDoc.columns manifest)
                (default (lit "copy") (ManifestDoc.dump_mode manifest))
                (default true (ManifestDoc.compressed manifest)) copy
                first_attempt_ok not_interrupted retries_pos mode_copy
                (Z.to_nat (ManifestDoc.chunks_total manifest - 0))
                0 (ManifestDoc.chunks_total manifest)
                (0 * ManifestDoc.chunk_rows manifest) eq_refl files) as EL.
  unfold col_list_of in EL. 
  assert (Hreb : exists t3,
             Forall (fun e => hook_event rebuild_message e = true) t3
             /\ (if negb (bool_decide (dropped = []))
                    && negb (restore_interrupted_end env)
                 then _rebuild_indexes env dropped
                 else ret tt)
                = (t3, Ok tt)).
  { destruct (negb (bool_decide (dropped = [])) && negb (restore_interrupted_end env)).
    - destruct (rebuild_indexes_returns env dropped H5) as (t3 & E3).
      exists t3. split; [|exact E3].
      change t3 with (trace (t3, @Ok unit tt)). rewrite <- E3.
      apply rebuild_indexes_hook.
    - exists []. split; [constructor|reflexivity]. }
  destruct Hreb as (t3 & Ht3 & E3).
  exists (t1 ++ t2), t3.
  split; [|split].
  - apply Forall_app. split.
    + eapply Forall_impl; [exact Ht1|]. intros e He.
      destruct e as [m| | | | | | | | | | | | | | | | | | | | | |]; auto.
      cbn in He |- *. unfold hook_message. rewrite He. reflexivity.
    + eapply Forall_impl; [exact Ht2|]. intros e He.
      destruct e as [m| | | | | | | | | | | | | | | | | | | | | |]; auto.
      cbn in He |- *. unfold hook_message. rewrite He.
      rewrite orb_true_r. reflexivity.
  - eapply Forall_impl; [exact Ht3|]. intros e He.
    destruct e as [m| | | | | | | | | | | | | | | | | | | | | |]; auto.
    cbn in He |- *. unfold hook_message. rewrite He.
    rewrite !orb_true_r. reflexivity.
  - cbn [bind emit ret app]. 
    rewrite EL. cbn [try_finally emit fst snd bind].
    rewrite E3, not_interrupted_end.
    cbn [negb bind emit ret app fst snd].
    rewrite Z.mul_0_l, Z.add_0_l. rewrite <- !app_assoc. cbn [app].
    reflexivity.
Qed.
End RestoreTable.

(** ** A dump followed by a restore *)

Lemma restore_chunk_filename_inj (table_name dump_mode : list Z) (compressed : bool)
    (i j : Z) :
  restore_chunk_filename table_name dump_mode compressed i
  = restore_chunk_filename table_name dump_mode compressed j -> i = j.
Proof.
  unfold restore_chunk_filename, format_06d. intros E.
  apply app_inv_head in E. apply app_inv_head in E.
  apply app_inv_tail in E. apply format_0d_inj in E. exact E.
Qed.

Lemma last_range (a b : Z) : a < b -> last (range a b) = Some (b - 1).
Proof.
  intros H. replace b with (b - 1 + 1) at 1 by lia.
  rewrite range_snoc by lia. apply last_snoc.
Qed.

Section DumpRestore.
Variable denv : DumpEnv.
Variable renv : RestoreEnv.
Variable db_cfg : DBConfig.t.
Variable dbname : list Z.
Variable table : TableInfo.t.
Variable dsettings rsettings : DumpSettings.t.
Variable copy : Z -> list Z.
Variable total_rows : Z.
Hypothesis copy_ok : forall i, copy_result denv i = CopyData (copy i).
Hypothesis write_ok : forall i, chunk_write denv i = WriteOk.
Hypothesis dump_not_interrupted :
  (forall i, dump_interrupted_at denv i = false) /\ dump_interrupted_end denv = false.
Hypothesis connect_ok : dump_connect_ok denv = true.
Hypothesis mode_copy : DumpSettings.dump_mode dsettings <> lit "insert".
Hypothesis count_is : count_result denv = Some total_rows.
Hypothesis rows_pos : 0 < total_rows.
Hypothesis chunk_rows_pos : 1 <= DumpSettings.chunk_rows dsettings.
Hypothesis first_attempt_ok : forall i, apply_result renv i 1 = Succeeds.
Hypothesis restore_not_interrupted :
  (forall i, restore_interrupted_at renv i = false)
  /\ restore_interrupted_end renv = false.
Hypothesis retries_pos : 1 <= DumpSettings.max_retries rsettings.
Hypothesis hooks_ok :
  pre_connect_ok renv = true /\ pre_drop_ok renv = true /\ pre_schema_ok renv = true
  /\ idx_connect_ok renv = true /\ rebuild_connect_ok renv = true.

Local Abbreviation chunks_total :=
  ((total_rows + DumpSettings.chunk_rows dsettings - 1)
   / DumpSettings.chunk_rows dsettings).

Local Abbreviation chunk_file i :=
  (restore_chunk_filename (TableInfo.name table) (DumpSettings.dump_mode dsettings)
     (DumpSettings.compress dsettings) i).

(** X11: a copy-mode dump in which nothing fails, followed by a restore
    of the directory it leaves in which the first attempt of every chunk
    succeeds: the restore sends to the server, in chunk order, exactly
    the buffers the dump received from it, each with the [COPY ... FROM
    STDIN] statement of the dumped table and columns; it returns
    normally, records [chunks_restored = chunks_total], and ends with the
    message that reports as many rows as the dump counted.  The restore
    takes the mode and the compression from the manifest, not from its
    own settings. *)
Theorem dump_then_restore_copy (existing : option ManifestDoc.t) (resume : bool)
    (d : TableDir) :
  dump_skipped resume existing = false ->
  restore_state_json d = None ->
  (forall i, 0 <= i < dump_start_chunk resume existing ->
             chunk_files d !! chunk_file i = Some (copy i)) ->
  let d' :=
    apply_events d
      (trace (dump_table denv existing db_cfg dbname table dsettings resume)) in
  let run := restore_table renv d' rsettings in
  outcome run = Ok tt
  /\ List.filter is_copy_in (trace run)
     = List.map
         (fun i =>
            CopyIn (copy_in_sql (TableInfo.name table) (TableInfo.columns table))
              (copy i))
         (range 0 chunks_total)
  /\ restore_state_json (apply_events d' (trace run)) = Some (Some chunks_total)
  /\ last (trace run)
     = Some (ConsolePrint
               (MsgRestoreDone (TableInfo.name table)
                  (rows_through copy 0 chunks_total) chunks_total)).
Proof.
  intros Hskip Hfresh Hold d' run.
  destruct dump_not_interrupted as [Hdi Hde].
  destruct restore_not_interrupted as [Hri Hre].
  destruct (dump_table_directory denv db_cfg dbname table dsettings copy total_rows
              copy_ok write_ok Hdi Hde connect_ok mode_copy count_is rows_pos
              chunk_rows_pos existing resume d Hskip)
    as (_ & (has_schema & Hm) & Hnew & Hother & Hstate).
  fold d' in Hm, Hnew, Hother, Hstate.
  set (manifest := doc_of_manifest _) in Hm.
  assert (Htotal : 1 <= chunks_total).
  { apply Z.div_le_lower_bound; lia. }
  assert (Hfiles : forall i, 0 <= i < ManifestDoc.chunks_total manifest ->
             chunk_files d'
             !! restore_chunk_filename (ManifestDoc.table manifest)
                  (default (lit "copy") (ManifestDoc.dump_mode manifest))
                  (default true (ManifestDoc.compressed manifest)) i
             = Some (copy i)).
  { intros i Hi. change (chunk_files d' !! chunk_file i = Some (copy i)).
    change (ManifestDoc.chunks_total manifest) with chunks_total in Hi.
    destruct (Z.le_gt_cases (dump_start_chunk resume existing) i) as [Hge|Hlt].
    - apply Hnew. lia.
    - rewrite Hother; [apply Hold; lia|].
      intros j Hj E. apply restore_chunk_filename_inj in E. lia. }
  destruct (restore_table_run renv d' rsettings manifest copy Hm
              ltac:(change (total_rows <> 0); lia)
              ltac:(rewrite Hstate; exact Hfresh)
              first_attempt_ok Hri Hre retries_pos mode_copy hooks_ok Hfiles)
    as (pre & post & Hpre & Hpost & E).
  fold run in E.
  change (ManifestDoc.chunks_total manifest) with chunks_total in E.
  change (ManifestDoc.table manifest) with (TableInfo.name table) in E.
  change (ManifestDoc.columns manifest) with (TableInfo.columns table) in E.
  rewrite E. cbn [trace outcome fst snd].
  split; [reflexivity|]. split; [|split].
  - rewrite List.filter_app, (filter_none _ pre (hook_not_copy_in _ _ Hpre)).
    cbn [List.filter is_copy_in app].
    rewrite List.filter_app, filter_restore_turns.
    cbn [List.filter is_copy_in].
    rewrite List.filter_app, (filter_none _ post (hook_not_copy_in _ _ Hpost)).
    cbn [List.filter is_copy_in app]. rewrite app_nil_r. reflexivity.
  - rewrite apply_events_app.
    change (ProgressBegin 0 chunks_total :: ?t)
      with ([ProgressBegin 0 chunks_total] ++ t).
    rewrite !apply_events_app.
    change (ProgressEnd :: ?t) with ([ProgressEnd] ++ t).
    rewrite !apply_events_app.
    cbn [apply_events fold_left apply_event restore_state_json].
    rewrite (hook_preserves_state _ post Hpost).
    cbn [apply_events fold_left apply_event restore_state_json].
    rewrite state_after_restore_turns, last_range by lia.
    do 2 f_equal. lia.
  - rewrite app_comm_cons, app_assoc, app_comm_cons, app_assoc.
    apply last_snoc.
Qed.
End DumpRestore.

(** ** The windows a dump extracts *)

Lemma trace_try_finally {A} (m : M A) (fin : M unit) :
  trace (try_finally m fin)
  = trace m ++ match outcome m with Fuel => [] | _ => trace fin end.
Proof.
  destruct m as [t [a|e|]], fin as [t' r']; cbn; rewrite ?app_nil_r; reflexivity.
Qed.

Lemma outcome_try_finally_Fuel {A} (m : M A) (fin : M unit) :
  outcome m <> Fuel -> outcome fin <> Fuel -> outcome (try_finally m fin) <> Fuel.
Proof.
  destruct m as [t [a|e|]], fin as [t' [[]|e'|]]; cbn; intros H1 H2; congruence.
Qed.

Lemma trace_try_except {A} (m : M A) (h : exn -> M A) :
  trace (try_except m h)
  = trace m ++ match outcome m with
               | Raise e => if is_Exception e then trace (h e) else []
               | _ => []
               end.
Proof.
  destruct m as [t [a|e|]]; cbn; rewrite ?app_nil_r; try reflexivity.
  destruct (is_Exception e); [destruct (h e)|]; cbn; rewrite ?app_nil_r; reflexivity.
Qed.

Lemma trace_try_except_interrupt {A} (m h : M A) :
  trace (try_except_interrupt m h)
  = trace m ++ match outcome m with
               | Raise KeyboardInterrupt => trace h
               | _ => []
               end.
Proof.
  destruct m as [t [a|[]|]], h as [t' r']; cbn; rewrite ?app_nil_r; reflexivity.
Qed.

Section Filter.
Variable p : event -> bool.

Lemma filter_bind_clean_l {A B} (m : M A) (f : A -> M B) :
  Forall (fun e => p e = false) (trace m) ->
  List.filter p (trace (bind m f))
  = match outcome m with Ok a => List.filter p (trace (f a)) | _ => [] end.
Proof.
  intros H. rewrite trace_bind, List.filter_app, (filter_none p _ H).
  destruct (outcome m); reflexivity.
Qed.

Lemma filter_bind_clean_r {A B} (m : M A) (f : A -> M B) :
  (forall a, Forall (fun e => p e = false) (trace (f a))) ->
  List.filter p (trace (bind m f)) = List.filter p (trace m).
Proof.
  intros H. rewrite trace_bind, List.filter_app.
  destruct (outcome m) as [a| |]; cbn [List.filter]; rewrite ?app_nil_r; try reflexivity.
  rewrite (filter_none p _ (H a)). apply app_nil_r.
Qed.

Lemma filter_try_finally_clean {A} (m : M A) (fin : M unit) :
  Forall (fun e => p e = false) (trace fin) ->
  List.filter p (trace (try_finally m fin)) = List.filter p (trace m).
Proof.
  intros H. rewrite trace_try_finally, List.filter_app.
  destruct (outcome m); cbn [List.filter]; rewrite ?(filter_none p _ H);
    apply app_nil_r.
Qed.

Lemma filter_try_except_clean {A} (m : M A) (h : exn -> M A) :
  (forall e, Forall (fun e => p e = false) (trace (h e))) ->
  List.filter p (trace (try_except m h)) = List.filter p (trace m).
Proof.
  intros H. rewrite trace_try_except, List.filter_app.
  destruct (outcome m) as [a|e|]; cbn [List.filter]; rewrite ?app_nil_r;
    try reflexivity.
  destruct (is_Exception e); cbn [List.filter]; rewrite ?(filter_none p _ (H e));
    apply app_nil_r.
Qed.

Lemma filter_try_except_interrupt_clean {A} (m h : M A) :
  Forall (fun e => p e = false) (trace h) ->
  List.filter p (trace (try_except_interrupt m h)) = List.filter p (trace m).
Proof.
  intros H. rewrite trace_try_except_interrupt, List.filter_app.
  destruct (outcome m) as [a|[]|]; cbn [List.filter]; rewrite ?(filter_none p _ H);
    apply app_nil_r.
Qed.
End Filter.

Section Windows.
Variable env : DumpEnv.
Variable table : TableInfo.t.
Variable settings : DumpSettings.t.

Local Abbreviation window i :=
  (CopyOut (col_list_of (TableInfo.columns table)) (order_clause_of table)
     (DumpSettings.chunk_rows settings) (i * DumpSettings.chunk_rows settings)).

Lemma dump_chunk_copy_out (schema_ddl : option (list Z))
    (index_defs : list (list Z * list Z)) (start_chunk chunks_total : Z)
    (chunk_idx rows_dumped : Z) (manifest : DumpManifest.t) :
  List.filter is_copy_out
    (trace (dump_chunk env table settings schema_ddl index_defs start_chunk
              chunks_total (DumpSettings.chunk_rows settings)
              (col_list_of (TableInfo.columns table)) (order_clause_of table)
              chunk_idx rows_dumped manifest))
  = [window chunk_idx].
Proof.
  unfold dump_chunk, _write_manifest. rewrite trace_bind.
  cbn [trace outcome emit fst snd app List.filter is_copy_out]. f_equal.
  apply filter_none. trace_forall; reflexivity.
Qed.

Lemma dump_loop_copy_out (schema_ddl : option (list Z))
    (index_defs : list (list Z * list Z)) (start_chunk chunks_total : Z)
    (fuel : nat) :
  forall chunk_idx rows_dumped manifest,
    exists n : nat,
      List.filter is_copy_out
        (trace (dump_loop env table settings schema_ddl index_defs start_chunk
                  chunks_total (DumpSettings.chunk_rows settings)
                  (col_list_of (TableInfo.columns table)) (order_clause_of table)
                  fuel chunk_idx rows_dumped manifest))
      = List.map (fun i => window i) (range chunk_idx (chunk_idx + Z.of_nat n))
      /\ (n = 0%nat \/ chunk_idx + Z.of_nat n <= chunks_total).
Proof.
  induction fuel as [|fuel IH]; intros chunk_idx rows_dumped manifest;
    cbn [dump_loop];
    destruct (Z.ltb_spec chunk_idx chunks_total) as [Hlt|Hge]; cbn [andb];
    try (exists 0%nat; rewrite Z.add_0_r, range_empty by lia;
         split; [reflexivity|left; reflexivity]);
    destruct (negb (dump_interrupted_at env chunk_idx));
    try (exists 0%nat; rewrite Z.add_0_r, range_empty by lia;
         split; [reflexivity|left; reflexivity]).
  rewrite trace_bind, List.filter_app, dump_chunk_copy_out.
  destruct (dump_chunk_outcome env table settings schema_ddl index_defs start_chunk
              chunks_total (DumpSettings.chunk_rows settings)
              (col_list_of (TableInfo.columns table)) (order_clause_of table)
              chunk_idx rows_dumped manifest) as [_ Hi].
  destruct (outcome (dump_chunk _ _ _ _ _ _ _ _ _ _ _ _ _)) as [st|e|].
  - rewrite (Hi st eq_refl).
    destruct (IH (chunk_idx + 1) (fst (fst st)) (snd st)) as (n & E & Hn).
    exists (S n). rewrite E. split.
    + rewrite (range_cons chunk_idx) by lia. cbn [List.map app].
      do 3 f_equal. lia.
    + right. destruct Hn as [->|Hn]; lia.
  - exists 1%nat. rewrite (range_cons chunk_idx), range_empty by lia.
    split; [reflexivity|right; lia].
  - exists 1%nat. rewrite (range_cons chunk_idx), range_empty by lia.
    split; [reflexivity|right; lia].
Qed.
End Windows.

Lemma outcome_try_except_Fuel {A} (m : M A) (h : exn -> M A) :
  outcome m <> Fuel -> (forall e, outcome (h e) <> Fuel) ->
  outcome (try_except m h) <> Fuel.
Proof.
  destruct m as [t [a|e|]]; cbn; intros H1 H2; try congruence.
  destruct (is_Exception e); [|cbn; congruence].
  specialize (H2 e). destruct (h e) as [t' r']. exact H2.
Qed.

Lemma outcome_try_except_interrupt_Fuel {A} (m h : M A) :
  outcome m <> Fuel -> outcome h <> Fuel ->
  outcome (try_except_interrupt m h) <> Fuel.
Proof.
  destruct m as [t [a|[]|]], h as [t' r']; cbn; intros H1 H2; congruence.
Qed.

Section WindowsTable.
Variable env : DumpEnv.
Variable db_cfg : DBConfig.t.
Variable dbname : list Z.
Variable table : TableInfo.t.
Variable settings : DumpSettings.t.

Local Abbreviation window i :=
  (CopyOut (col_list_of (TableInfo.columns table)) (order_clause_of table)
     (DumpSettings.chunk_rows settings) (i * DumpSettings.chunk_rows settings)).

Local Abbreviation windows_for c t start_chunk :=
  (exists n : nat,
     List.filter is_copy_out t
     = List.map (fun i => window i) (range start_chunk (start_chunk + Z.of_nat n))
     /\ (n = 0%nat
         \/ exists total_rows,
              c = Some total_rows
              /\ start_chunk + Z.of_nat n
                 <= (total_rows + DumpSettings.chunk_rows settings - 1)
                    / DumpSettings.chunk_rows settings)).

Local Abbreviation windows t start_chunk :=
  (windows_for (count_result env) t start_chunk).

Lemma windows_none (c : option Z) (t : list event) (start_chunk : Z) :
  List.filter is_copy_out t = [] -> windows_for c t start_chunk.
Proof.
  intros E. exists 0%nat. rewrite E, Z.add_0_r, range_empty by lia.
  split; [reflexivity|left; reflexivity].
Qed.

Lemma dump_with_cursor_copy_out (schema_ddl : option (list Z)) (has_schema : bool)
    (index_defs : list (list Z * list Z)) (start_chunk : Z) :
  windows (trace (dump_with_cursor env db_cfg dbname table settings schema_ddl
                    has_schema index_defs start_chunk)) start_chunk.
Proof.
  unfold dump_with_cursor, _write_manifest.
  rewrite !filter_bind_clean_l by (repeat constructor).
  cbn [outcome emit snd].
  destruct (count_result env) as [total_rows|];
    [|apply windows_none; reflexivity].
  rewrite filter_bind_clean_l by constructor. cbn [outcome ret snd].
  rewrite filter_bind_clean_l by (repeat constructor). cbn [outcome emit snd].
  destruct (total_rows =? 0).
  { apply windows_none. apply filter_none. repeat constructor. }
  destruct (DumpSettings.chunk_rows settings =? 0).
  { apply windows_none. reflexivity. }
  rewrite filter_bind_clean_l by constructor. cbn [outcome ret snd].
  rewrite filter_bind_clean_l by (repeat constructor). cbn [outcome emit snd].
  rewrite filter_bind_clean_r.
  2:{ intros st. destruct (negb (dump_interrupted_end env)); repeat constructor. }
  rewrite filter_try_finally_clean by (repeat constructor).
  destruct (dump_loop_copy_out env table settings schema_ddl index_defs start_chunk
              ((total_rows + DumpSettings.chunk_rows settings - 1)
               / DumpSettings.chunk_rows settings)
              (Z.to_nat ((total_rows + DumpSettings.chunk_rows settings - 1)
                         / DumpSettings.chunk_rows settings - start_chunk))
              start_chunk (start_chunk * DumpSettings.chunk_rows settings)
              (_make_manifest (now_manifest env) db_cfg dbname table settings
                 total_rows start_chunk
                 ((total_rows + DumpSettings.chunk_rows settings - 1)
                  / DumpSettings.chunk_rows settings) has_schema false))
    as (n & E & Hn).
  unfold col_list_of, order_clause_of in E.
  exists n. split; [exact E|].
  destruct Hn as [Hn|Hn]; [left; exact Hn|right].
  exists total_rows. split; [reflexivity|exact Hn].
Qed.

Lemma dump_with_cursor_no_fuel (schema_ddl : option (list Z)) (has_schema : bool)
    (index_defs : list (list Z * list Z)) (start_chunk : Z) :
  outcome (dump_with_cursor env db_cfg dbname table settings schema_ddl
             has_schema index_defs start_chunk) <> Fuel.
Proof.
  unfold dump_with_cursor, _write_manifest.
  rewrite !outcome_bind. cbn [outcome emit snd].
  destruct (count_result env) as [total_rows|]; [|discriminate].
  cbn [outcome ret snd]. rewrite outcome_bind. cbn [outcome emit snd].
  destruct (total_rows =? 0); [discriminate|].
  rewrite outcome_bind.
  destruct (DumpSettings.chunk_rows settings =? 0); [discriminate|].
  cbn [outcome ret snd]. rewrite !outcome_bind. cbn [outcome emit snd].
  match goal with
  | |- match outcome (try_finally ?l ?f) with _ => _ end <> _ =>
      pose proof (outcome_try_finally_Fuel l f) as Hf;
      destruct (outcome (try_finally l f)) as [st|e|]
  end.
  - destruct (negb (dump_interrupted_end env)); rewrite ?outcome_bind; discriminate.
  - discriminate.
  - exfalso. apply Hf; [|discriminate|reflexivity].
    apply dump_loop_no_fuel. lia.
Qed.

(** X12: in every run of [dump_table], whatever fails, the [COPY]
    statements it sends are those of consecutive chunk indices starting
    at the chunk it resumes from, each with [LIMIT chunk_rows] and
    [OFFSET index * chunk_rows]: no window is skipped or extracted twice,
    and none lies at or beyond [chunks_total].  The loop ends within
    [chunks_total - start_chunk] turns. *)
Theorem dump_copy_windows (existing : option ManifestDoc.t) (resume : bool) :
  let start_chunk := dump_start_chunk resume existing in
  let run := dump_table env existing db_cfg dbname table settings resume in
  (exists n : nat,
     List.filter is_copy_out (trace run)
     = List.map
         (fun i =>
            CopyOut (col_list_of (TableInfo.columns table)) (order_clause_of table)
              (DumpSettings.chunk_rows settings)
              (i * DumpSettings.chunk_rows settings))
         (range start_chunk (start_chunk + Z.of_nat n))
     /\ (n = 0%nat
         \/ exists total_rows,
              count_result env = Some total_rows
              /\ start_chunk + Z.of_nat n
                 <= (total_rows + DumpSettings.chunk_rows settings - 1)
                    / DumpSettings.chunk_rows settings))
  /\ outcome run <> Fuel.
Proof.
  intros start_chunk run. subst run start_chunk.
  unfold dump_table, dump_start_chunk.
  assert (Hgo : forall s,
    windows
      (trace
         (sd <- dump_schema_step env table settings ;;
          let schema_ddl := fst sd in
          let has_schema := snd sd in
          index_defs <- dump_index_step env table settings ;;
          emit Connect ;;;
          (if dump_connect_ok env then ret tt else raise ConnectError) ;;;
          try_finally
            (try_except
               (try_except_interrupt
                  (dump_with_cursor env db_cfg dbname table settings schema_ddl
                     has_schema index_defs s)
                  (emit (ConsolePrint (MsgForceStopped (TableInfo.name table))) ;;;
                   raise KeyboardInterrupt))
               (fun e =>
                  emit (ConsolePrint (MsgDumpFailed (TableInfo.name table))) ;;;
                  raise e))
            (emit Close))) s
    /\ outcome
         (sd <- dump_schema_step env table settings ;;
          let schema_ddl := fst sd in
          let has_schema := snd sd in
          index_defs <- dump_index_step env table settings ;;
          emit Connect ;;;
          (if dump_connect_ok env then ret tt else raise ConnectError) ;;;
          try_finally
            (try_except
               (try_except_interrupt
                  (dump_with_cursor env db_cfg dbname table settings schema_ddl
                     has_schema index_defs s)
                  (emit (ConsolePrint (MsgForceStopped (TableInfo.name table))) ;;;
                   raise KeyboardInterrupt))
               (fun e =>
                  emit (ConsolePrint (MsgDumpFailed (TableInfo.name table))) ;;;
                  raise e))
            (emit Close)) <> Fuel).
  { intros s.
    destruct (dump_schema_step_returns env table settings) as (t1 & sd & E1).
    assert (Ht1 : Forall (fun e => is_copy_out e = false) t1).
    { change t1 with (trace (t1, @Ok (option (list Z) * bool) sd)).
      rewrite <- E1. unfold dump_schema_step. trace_forall; reflexivity. }
    destruct (dump_index_step_returns env table settings) as (t2 & idx & E2).
    assert (Ht2 : Forall (fun e => is_copy_out e = false) t2).
    { change t2 with (trace (t2, @Ok (list (list Z * list Z)) idx)).
      rewrite <- E2. unfold dump_index_step. trace_forall; reflexivity. }
    rewrite E1, E2. split.
    - rewrite filter_bind_clean_l by exact Ht1. cbn [outcome snd].
      rewrite filter_bind_clean_l by exact Ht2. cbn [outcome snd].
      rewrite filter_bind_clean_l by (repeat constructor). cbn [outcome emit snd].
      destruct (dump_connect_ok env); [|apply windows_none; reflexivity].
      rewrite filter_bind_clean_l by constructor. cbn [outcome ret snd].
      rewrite filter_try_finally_clean by (repeat constructor).
      rewrite filter_try_except_clean by (intros e; repeat constructor).
      rewrite filter_try_except_interrupt_clean by (repeat constructor).
      apply dump_with_cursor_copy_out.
    - destruct (dump_connect_ok env);
        repeat (rewrite outcome_bind; cbn [outcome emit ret raise snd]);
        [|discriminate].
      apply outcome_try_finally_Fuel; [|discriminate].
      apply outcome_try_except_Fuel; [|intros e; discriminate].
      apply outcome_try_except_interrupt_Fuel; [|discriminate].
      apply dump_with_cursor_no_fuel. }
  rewrite filter_bind_clean_l by (repeat constructor).
  rewrite outcome_bind. cbn [outcome emit snd].
  assert (Hmsg : forall (msg : message) s,
    windows
      (trace
         (start <- (emit (ConsolePrint msg) ;;; ret (Some s)) ;;
          match start with
          | None => ret tt
          | Some start_chunk =>
              sd <- dump_schema_step env table settings ;;
              let schema_ddl := fst sd in
              let has_schema := snd sd in
              index_defs <- dump_index_step env table settings ;;
              emit Connect ;;;
              (if dump_connect_ok env then ret tt else raise ConnectError) ;;;
              try_finally
                (try_except
                   (try_except_interrupt
                      (dump_with_cursor env db_cfg dbname table settings schema_ddl
                         has_schema index_defs start_chunk)
                      (emit (ConsolePrint (MsgForceStopped (TableInfo.name table))) ;;;
                       raise KeyboardInterrupt))
                   (fun e =>
                      emit (ConsolePrint (MsgDumpFailed (TableInfo.name table))) ;;;
                      raise e))
                (emit Close)
          end)) s
    /\ outcome
         (start <- (emit (ConsolePrint msg) ;;; ret (Some s)) ;;
          match start with
          | None => ret tt
          | Some start_chunk =>
              sd <- dump_schema_step env table settings ;;
              let schema_ddl := fst sd in
              let has_schema := snd sd in
              index_defs <- dump_index_step env table settings ;;
              emit Connect ;;;
              (if dump_connect_ok env then ret tt else raise ConnectError) ;;;
              try_finally
                (try_except
                   (try_except_interrupt
                      (dump_with_cursor env db_cfg dbname table settings schema_ddl
                         has_schema index_defs start_chunk)
                      (emit (ConsolePrint (MsgForceStopped (TableInfo.name table))) ;;;
                       raise KeyboardInterrupt))
                   (fun e =>
                      emit (ConsolePrint (MsgDumpFailed (TableInfo.name table))) ;;;
                      raise e))
                (emit Close)
          end) <> Fuel).
  { intros msg s. rewrite bind_assoc.
    rewrite filter_bind_clean_l by (repeat constructor).
    rewrite outcome_bind. cbn [outcome emit snd].
    rewrite bind_ret. apply Hgo. }
  destruct (if resume then existing else None) as [ex|].
  - destruct (ManifestDoc.finished_at ex) as [[|c s]|].
    + destruct (default 0 (ManifestDoc.chunks_completed ex) >? 0);
        [apply Hmsg|].
      rewrite bind_assoc, !bind_ret. apply Hgo.
    + rewrite bind_assoc.
      split; [apply windows_none; reflexivity|discriminate].
    + destruct (default 0 (ManifestDoc.chunks_completed ex) >? 0);
        [apply Hmsg|].
      rewrite bind_assoc, !bind_ret. apply Hgo.
  - rewrite bind_ret. apply Hgo.
Qed.
End WindowsTable.

(** ** Running a dump again *)

Lemma bind_emit {B} (e : event) (f : unit -> M B) :
  bind (emit e) f = (e :: trace (f tt), outcome (f tt)).
Proof. cbn [bind emit]. destruct (f tt). reflexivity. Qed.

Lemma bind_Ok {A B} (t : list event) (a : A) (f : A -> M B) :
  bind (t, Ok a) f = (t ++ trace (f a), outcome (f a)).
Proof. cbn [bind]. destruct (f a). reflexivity. Qed.

Section DumpFinishes.
Variable env : DumpEnv.
Variable db_cfg : DBConfig.t.
Variable dbname : list Z.
Variable table : TableInfo.t.
Variable settings : DumpSettings.t.
Hypothesis not_interrupted_end : dump_interrupted_end env = false.

Local Abbreviation finishing m :=
  (DumpManifest.finished_at m = Some (now_manifest env)
   \/ DumpManifest.finished_at m = Some (now_finished env)).

Lemma dump_with_cursor_finishes (schema_ddl : option (list Z)) (has_schema : bool)
    (index_defs : list (list Z * list Z)) (start_chunk : Z) :
  outcome (dump_with_cursor env db_cfg dbname table settings schema_ddl has_schema
             index_defs start_chunk) = Ok tt ->
  exists pre m post,
    dump_with_cursor env db_cfg dbname table settings schema_ddl has_schema
      index_defs start_chunk
    = (pre ++ WriteManifest m :: post, Ok tt)
    /\ finishing m
    /\ Forall (fun e => prepare_event e = true) post.
Proof.
  unfold dump_with_cursor, _write_manifest.
  destruct (count_result env) as [total_rows|]; [|intros H; discriminate H].
  cbn [bind emit ret app].
  destruct (total_rows =? 0).
  { intros _. cbn [bind emit ret app].
    eexists [_; _; _; _], _, []. split; [reflexivity|].
    split; [left; reflexivity|constructor]. }
  destruct (DumpSettings.chunk_rows settings =? 0); [intros H; discriminate H|].
  cbn [bind emit ret app].
  destruct (dump_loop _ _ _ _ _ _ _ _ _ _ _ _ _ _) as [tl [st|e|]];
    cbn [try_finally emit bind fst snd]; try (intros H; discriminate H).
  rewrite not_interrupted_end. cbn [negb bind emit app]. intros _.
  exists ([ConsolePrint (MsgCounting (TableInfo.name table));
           Query (CountRows (TableInfo.name table));
           ConsolePrint (MsgCount total_rows);
           ProgressBegin start_chunk
             ((total_rows + DumpSettings.chunk_rows settings - 1)
              / DumpSettings.chunk_rows settings)]
          ++ tl ++ [ProgressEnd]),
    (DumpManifest.set_finished_at (snd st) (now_finished env)),
    [ConsolePrint (MsgDumpDone (TableInfo.name table) (fst (fst st)) (snd (fst st)))].
  split; [rewrite <- !app_assoc; reflexivity|].
  split; [right; reflexivity|repeat constructor].
Qed.

Lemma dump_table_finishes (existing : option ManifestDoc.t) (resume : bool) :
  dump_skipped resume existing = false ->
  outcome (dump_table env existing db_cfg dbname table settings resume) = Ok tt ->
  exists pre m post,
    dump_table env existing db_cfg dbname table settings resume
    = (pre ++ WriteManifest m :: post, Ok tt)
    /\ finishing m
    /\ Forall (fun e => prepare_event e = true) post.
Proof.
  intros Hskip.
  assert (Hgo : forall s,
    outcome
      (sd <- dump_schema_step env table settings ;;
       let schema_ddl := fst sd in
       let has_schema := snd sd in
       index_defs <- dump_index_step env table settings ;;
       emit Connect ;;;
       (if dump_connect_ok env then ret tt else raise ConnectError) ;;;
       try_finally
         (try_except
            (try_except_interrupt
               (dump_with_cursor env db_cfg dbname table settings schema_ddl
                  has_schema index_defs s)
               (emit (ConsolePrint (MsgForceStopped (TableInfo.name table))) ;;;
                raise KeyboardInterrupt))
            (fun e =>
               emit (ConsolePrint (MsgDumpFailed (TableInfo.name table))) ;;;
               raise e))
         (emit Close)) = Ok tt ->
    exists pre m post,
      (sd <- dump_schema_step env table settings ;;
       let schema_ddl := fst sd in
       let has_schema := snd sd in
       index_defs <- dump_index_step env table settings ;;
       emit Connect ;;;
       (if dump_connect_ok env then ret tt else raise ConnectError) ;;;
       try_finally
         (try_except
            (try_except_interrupt
               (dump_with_cursor env db_cfg dbname table settings schema_ddl
                  has_schema index_defs s)
               (emit (ConsolePrint (MsgForceStopped (TableInfo.name table))) ;;;
                raise KeyboardInterrupt))
            (fun e =>
               emit (ConsolePrint (MsgDumpFailed (TableInfo.name table))) ;;;
               raise e))
         (emit Close))
      = (pre ++ WriteManifest m :: post, Ok tt)
      /\ finishing m
      /\ Forall (fun e => prepare_event e = true) post).
  { intros s.
    destruct (dump_schema_step_returns env table settings) as (t1 & sd & E1).
    destruct (dump_index_step_returns env table settings) as (t2 & idx & E2).
    rewrite E1, E2. cbn [bind emit ret app fst snd].
    destruct (dump_connect_ok env); [|intros H; discriminate H].
    cbn [bind emit ret app fst snd].
    pose proof (dump_with_cursor_finishes (fst sd) (snd sd) idx s) as Hc.
    destruct (dump_with_cursor _ _ _ _ _ _ _ _ _) as [tc [[]|e|]].
    - destruct (Hc eq_refl) as (pre & m & post & [= -> ] & Hm & Hpost).
      intros _. cbn [try_finally try_except try_except_interrupt emit app].
      exists (t1 ++ t2 ++ Connect :: pre), m, (post ++ [Close]).
      split; [rewrite <- !app_assoc; cbn [app]; rewrite <- ?app_assoc; reflexivity|].
      split; [exact Hm|]. apply Forall_app. split; [exact Hpost|repeat constructor].
    - destruct e; cbn; intros H; discriminate H.
    - cbn; intros H; discriminate H. }
  assert (Hfin : forall (t0 : list event) s,
    outcome (bind (emit Mkdir)
               (fun _ => bind (t0, Ok (Some s))
                  (fun start =>
                     match start with
                     | None => ret tt
                     | Some start_chunk =>
                         sd <- dump_schema_step env table settings ;;
                         let schema_ddl := fst sd in
                         let has_schema := snd sd in
                         index_defs <- dump_index_step env table settings ;;
                         emit Connect ;;;
                         (if dump_connect_ok env then ret tt else raise ConnectError) ;;;
                         try_finally
                           (try_except
                              (try_except_interrupt
                                 (dump_with_cursor env db_cfg dbname table settings
                                    schema_ddl has_schema index_defs start_chunk)
                                 (emit (ConsolePrint
                                          (MsgForceStopped (TableInfo.name table))) ;;;
                                  raise KeyboardInterrupt))
                              (fun e =>
                                 emit (ConsolePrint
                                         (MsgDumpFailed (TableInfo.name table))) ;;;
                                 raise e))
                           (emit Close)
                     end))) = Ok tt ->
    exists pre m post,
      bind (emit Mkdir)
        (fun _ => bind (t0, Ok (Some s))
           (fun start =>
              match start with
              | None => ret tt
              | Some start_chunk =>
                  sd <- dump_schema_step env table settings ;;
                  let schema_ddl := fst sd in
                  let has_schema := snd sd in
                  index_defs <- dump_index_step env table settings ;;
                  emit Connect ;;;
                  (if dump_connect_ok env then ret tt else raise ConnectError) ;;;
                  try_finally
                    (try_except
                       (try_except_interrupt
                          (dump_with_cursor env db_cfg dbname table settings
                             schema_ddl has_schema index_defs start_chunk)
                          (emit (ConsolePrint
                                   (MsgForceStopped (TableInfo.name table))) ;;;
                           raise KeyboardInterrupt))
                       (fun e =>
                          emit (ConsolePrint
                                  (MsgDumpFailed (TableInfo.name table))) ;;;
                          raise e))
                    (emit Close)
              end))
      = (pre ++ WriteManifest m :: post, Ok tt)
      /\ finishing m
      /\ Forall (fun e => prepare_event e = true) post).
  { intros t0 s. rewrite !outcome_bind. cbn [outcome emit snd]. intros H.
    destruct (Hgo s H) as (pre & m & post & E & Hm & Hpost).
    exists (Mkdir :: t0 ++ pre), m, post.
    split; [|split; assumption].
    rewrite bind_emit, bind_Ok. cbv beta iota zeta. cbv zeta in E. rewrite E.
    cbn [trace outcome fst snd app]. rewrite <- app_assoc. reflexivity. }
  unfold dump_table, dump_skipped in *.
  destruct (if resume then existing else None) as [ex|].
  - destruct (ManifestDoc.finished_at ex) as [[|c s]|]; try discriminate Hskip;
      destruct (default 0 (ManifestDoc.chunks_completed ex) >? 0); apply Hfin.
  - apply Hfin.
Qed.
End DumpFinishes.

(** X13: after a run of [dump_table] that returned normally without
    being interrupted, the manifest it leaves has [finished_at] set, so a
    later run with [resume] on the same directory does nothing but create
    the directory and print that the table is already completed,
    whatever its settings. *)
Theorem dump_rerun_is_skipped (env env' : DumpEnv) (db_cfg db_cfg' : DBConfig.t)
    (dbname dbname' : list Z) (table : TableInfo.t)
    (settings settings' : DumpSettings.t) (resume : bool) (d : TableDir) :
  let run := dump_table env (manifest_json d) db_cfg dbname table settings resume in
  dump_skipped resume (manifest_json d) = false ->
  outcome run = Ok tt ->
  dump_interrupted_end env = false ->
  now_manifest env <> [] ->
  now_finished env <> [] ->
  dump_table env' (manifest_json (apply_events d (trace run))) db_cfg' dbname' table
    settings' true
  = ([Mkdir; ConsolePrint (MsgSkipCompleted (TableInfo.name table))], Ok tt).
Proof.
  intros run Hskip Hok Hend Hn1 Hn2.
  destruct (dump_table_finishes env db_cfg dbname table settings Hend
              (manifest_json d) resume Hskip Hok)
    as (pre & m & post & E & Hm & Hpost).
  fold run in E. rewrite E. cbn [trace fst].
  rewrite apply_events_app. cbn [apply_events fold_left].
  fold (apply_events (apply_event (apply_events d pre) (WriteManifest m)) post).
  destruct (apply_events_prepare post Hpost
              (apply_event (apply_events d pre) (WriteManifest m))) as (-> & _ & _).
  cbn [apply_event manifest_json]. unfold dump_table.
  cbn [doc_of_manifest ManifestDoc.finished_at].
  destruct Hm as [-> | ->].
  - destruct (now_manifest env); [contradiction|reflexivity].
  - destruct (now_finished env); [contradiction|reflexivity].
Qed.

Lemma filter_chunk_turns (table : TableInfo.t) (settings : DumpSettings.t)
    (m : DumpManifest.t) (copy : Z -> list Z) (rows : Z -> Z) (l : list Z) :
  List.filter is_chunk_write
    (List.flat_map (fun i => chunk_turn table settings m i (copy i) (rows i)) l)
  = List.map
      (fun i =>
         WriteChunk (DumpManifest.chunk_filename m i) (copy i)
           (if DumpSettings.compress settings
            then Some (DumpSettings.compress_level settings) else None)) l.
Proof.
  induction l as [|i l IH]; [reflexivity|].
  cbn [List.flat_map List.map]. rewrite List.filter_app, IH. reflexivity.
Qed.

Lemma prepare_not_chunk_write (t : list event) :
  Forall (fun e => prepare_event e = true) t ->
  Forall (fun e => is_chunk_write e = false) t.
Proof.
  intros H. eapply Forall_impl; [exact H|]. intros e He.
  destruct e; try reflexivity; discriminate He.
Qed.

Section DumpComplete.
Variable env : DumpEnv.
Variable db_cfg : DBConfig.t.
Variable dbname : list Z.
Variable table : TableInfo.t.
Variable settings : DumpSettings.t.
Variable copy : Z -> list Z.
Variable total_rows : Z.
Hypothesis copy_ok : forall i, copy_result env i = CopyData (copy i).
Hypothesis write_ok : forall i, chunk_write env i = WriteOk.
Hypothesis not_interrupted :
  (forall i, dump_interrupted_at env i = false) /\ dump_interrupted_end env = false.
Hypothesis connect_ok : dump_connect_ok env = true.
Hypothesis mode_copy : DumpSettings.dump_mode settings <> lit "insert".
Hypothesis count_is : count_result env = Some total_rows.
Hypothesis rows_pos : 0 < total_rows.
Hypothesis chunk_rows_pos : 1 <= DumpSettings.chunk_rows settings.

Local Abbreviation chunks_total :=
  ((total_rows + DumpSettings.chunk_rows settings - 1)
   / DumpSettings.chunk_rows settings).

Local Abbreviation chunk_file i :=
  (restore_chunk_filename (TableInfo.name table) (DumpSettings.dump_mode settings)
     (DumpSettings.compress settings) i).

(** X14: a copy-mode dump in which nothing fails writes one chunk file
    for every index from the chunk it starts at up to [chunks_total], in
    order, each holding the buffer the server sent for it; the manifest
    it leaves has [finished_at] set and [chunks_completed =
    chunks_total] (when it started below it); the chunk files of earlier
    runs and the restore state are left as they were. *)
Theorem dump_complete_run (existing : option ManifestDoc.t) (resume : bool)
    (d : TableDir) :
  dump_skipped resume existing = false ->
  let start_chunk := dump_start_chunk resume existing in
  let run := dump_table env existing db_cfg dbname table settings resume in
  let d' := apply_events d (trace run) in
  outcome run = Ok tt
  /\ List.filter is_chunk_write (trace run)
     = List.map
         (fun i =>
            WriteChunk (chunk_file i) (copy i)
              (if DumpSettings.compress settings
               then Some (DumpSettings.compress_level settings) else None))
         (range start_chunk chunks_total)
  /\ (exists has_schema,
        manifest_json d'
        = Some (doc_of_manifest
                  (DumpManifest.set_finished_at
                     (_make_manifest (now_manifest env) db_cfg dbname table settings
                        total_rows (Z.max start_chunk chunks_total) chunks_total
                        has_schema false)
                     (now_finished env))))
  /\ (forall i, start_chunk <= i < chunks_total ->
                chunk_files d' !! chunk_file i = Some (copy i))
  /\ (forall f, (forall i, start_chunk <= i < chunks_total -> f <> chunk_file i) ->
                chunk_files d' !! f = chunk_files d !! f)
  /\ restore_state_json d' = restore_state_json d.
Proof.
  intros Hskip start_chunk run d'.
  destruct not_interrupted as [Hi He].
  destruct (dump_table_directory env db_cfg dbname table settings copy total_rows
              copy_ok write_ok Hi He connect_ok mode_copy count_is rows_pos
              chunk_rows_pos existing resume d Hskip)
    as (Hok & Hm & Hnew & Hother & Hstate).
  split; [exact Hok|]. split; [|repeat split; assumption].
  destruct (dump_table_run env db_cfg dbname table settings copy copy_ok write_ok
              Hi mode_copy total_rows count_is rows_pos chunk_rows_pos He connect_ok
              existing resume Hskip)
    as (pre & has_schema & Hpre & E).
  fold start_chunk in E. fold run in E. rewrite E. cbn [trace fst].
  rewrite !List.filter_app, filter_chunk_turns.
  rewrite (filter_none _ pre (prepare_not_chunk_write pre Hpre)).
  cbn [List.filter is_chunk_write app]. rewrite app_nil_r. reflexivity.
Qed.
End DumpComplete.

Lemma dump_complete_run_witness :
  List.filter is_chunk_write
    (trace (dump_table (dump_env_with 3 sample_copy) None sample_db (lit "index")
              sample_table (sample_settings (lit "copy") true false false false)
              true))
  = [WriteChunk (lit "t_chunk_000000.csv") sample_copy_data None;
     WriteChunk (lit "t_chunk_000001.csv") (lit "3" ++ [9] ++ lit "c" ++ [10]) None].
Proof.
  apply (dump_complete_run (dump_env_with 3 sample_copy) sample_db (lit "index")
           sample_table (sample_settings (lit "copy") true false false false)
           sample_copy 3
           ltac:(intros; reflexivity) ltac:(intros; reflexivity)
           ltac:(split; [intros; reflexivity|reflexivity]) ltac:(reflexivity)
           ltac:(discriminate) ltac:(reflexivity) ltac:(lia) ltac:(cbn; lia)
           None true empty_dir).
  reflexivity.
Defined.

Lemma dump_then_restore_copy_witness :
  List.filter is_copy_in
    (trace (restore_table (restore_env_with (fun _ _ => Succeeds))
              (apply_events empty_dir
                 (trace (dump_table (dump_env_with 3 sample_copy) None sample_db
                           (lit "index") sample_table
                           (sample_settings (lit "copy") true false false false)
                           true)))
              (sample_settings (lit "copy") true false false true)))
  = [CopyIn (copy_in_sql (lit "t") [lit "id"; lit "s"]) sample_copy_data;
     CopyIn (copy_in_sql (lit "t") [lit "id"; lit "s"])
       (lit "3" ++ [9] ++ lit "c" ++ [10])].
Proof.
  apply (dump_then_restore_copy (dump_env_with 3 sample_copy)
           (restore_env_with (fun _ _ => Succeeds)) sample_db (lit "index")
           sample_table (sample_settings (lit "copy") true false false false)
           (sample_settings (lit "copy") true false false true)
           sample_copy 3
           ltac:(intros; reflexivity) ltac:(intros; reflexivity)
           ltac:(split; [intros; reflexivity|reflexivity]) ltac:(reflexivity)
           ltac:(discriminate) ltac:(reflexivity) ltac:(lia) ltac:(cbn; lia)
           ltac:(intros; reflexivity)
           ltac:(split; [intros; reflexivity|reflexivity]) ltac:(cbn; lia)
           ltac:(repeat split; reflexivity)
           None true empty_dir).
  - reflexivity.
  - reflexivity.
  - cbn. intros i Hi. lia.
Defined.

Lemma dump_rerun_is_skipped_witness :
  dump_table (dump_env_with 0 sample_copy)
    (manifest_json
       (apply_events empty_dir
          (trace (dump_table (dump_env_with 3 sample_copy) (manifest_json empty_dir)
                    sample_db (lit "index") sample_table
                    (sample_settings (lit "copy") true false false false) true))))
    sample_db (lit "index") sample_table
    (sample_settings (lit "insert") true false false false) true
  = ([Mkdir; ConsolePrint (MsgSkipCompleted (lit "t"))], Ok tt).
Proof.
  apply (dump_rerun_is_skipped (dump_env_with 3 sample_copy)
           (dump_env_with 0 sample_copy) sample_db sample_db (lit "index")
           (lit "index") sample_table
           (sample_settings (lit "copy") true false false false)
           (sample_settings (lit "insert") true false false false) true empty_dir).
  - reflexivity.
  - vm_compute. reflexivity.
  - reflexivity.
  - discriminate.
  - discriminate.
Defined.

(** ** What the manifest writes of a dump record *)

Lemma manifests_ok_app (P : option event -> TableDir -> DumpManifest.t -> Prop)
    (t1 t2 : list event) :
  forall prev d,
    manifests_ok P prev d t1 ->
    (forall prev', manifests_ok P prev' (apply_events d t1) t2) ->
    manifests_ok P prev d (t1 ++ t2).
Proof.
  induction t1 as [|e t1 IH]; intros prev d H1 H2; [apply H2|].
  cbn [app manifests_ok] in *. destruct H1 as [He H1]. split; [exact He|].
  apply IH; [exact H1|]. exact H2.
Qed.

Lemma manifests_ok_clean (P : option event -> TableDir -> DumpManifest.t -> Prop)
    (t : list event) :
  Forall (fun e => forall m, e <> WriteManifest m) t ->
  forall prev d, manifests_ok P prev d t.
Proof.
  induction 1 as [|e t He _ IH]; intros prev d; [exact I|].
  cbn [manifests_ok]. split; [|apply IH].
  destruct e; try exact I. destruct (He _ eq_refl).
Qed.

Lemma manifests_ok_split (P : option event -> TableDir -> DumpManifest.t -> Prop)
    (pre post : list event) (m : DumpManifest.t) :
  forall prev d,
    manifests_ok P prev d (pre ++ WriteManifest m :: post) ->
    P (match last pre with Some e => Some e | None => prev end)
      (apply_events d pre) m.
Proof.
  induction pre as [|e pre IH]; intros prev d H.
  - cbn in H. destruct H as [H _]. exact H.
  - cbn [app manifests_ok] in H. destruct H as [_ H].
    specialize (IH (Some e) (apply_event d e) H).
    cbn [apply_events fold_left]. fold (apply_events (apply_event d e) pre).
    destruct pre as [|e' pre']; [exact IH|].
    rewrite last_cons_cons. destruct (last (e' :: pre')) eqn:E; [exact IH|].
    exfalso. clear -E. revert e' E. induction pre'; intros e' E; [discriminate|].
    rewrite last_cons_cons in E. eauto.
Qed.

(** A dump removes no chunk file. *)
Lemma chunk_file_kept (t : list event) (f : list Z) :
  forall d,
    is_Some (chunk_files d !! f) -> is_Some (chunk_files (apply_events d t) !! f).
Proof.
  induction t as [|e t IH]; intros d H; [exact H|].
  cbn [apply_events fold_left]. fold (apply_events (apply_event d e) t).
  apply IH. destruct e; cbn [apply_event chunk_files]; try exact H.
  all: destruct (decide (file = f)) as [->|Hne];
    [rewrite lookup_insert_eq; eauto|rewrite lookup_insert_ne by exact Hne; exact H].
Qed.

Lemma chunks_recorded_app (t1 t2 : list event) :
  chunks_recorded t1 -> chunks_recorded t2 -> chunks_recorded (t1 ++ t2).
Proof.
  intros H1 H2. induction t1 as [|e t1 IH]; [exact H2|].
  cbn [app chunks_recorded] in *. destruct H1 as [He H1].
  split; [|apply IH; exact H1].
  destruct e; try exact I. destruct t1 as [|e' t1']; [destruct He|exact He].
Qed.

Lemma chunks_recorded_clean (t : list event) :
  Forall (fun e => forall f d l, e <> WriteChunk f d l) t -> chunks_recorded t.
Proof.
  induction 1 as [|e t He _ IH]; [exact I|].
  cbn [chunks_recorded]. split; [|exact IH].
  destruct e; try exact I. destruct (He _ _ _ eq_refl).
Qed.

Lemma chunks_recorded_split (pre post : list event) (f d : list Z) (l : option Z) :
  chunks_recorded (pre ++ WriteChunk f d l :: post) ->
  exists m post', post = WriteManifest m :: post'.
Proof.
  induction pre as [|e pre IH]; intros H.
  - cbn in H. destruct H as [H _].
    destruct post as [|[] post']; try destruct H. eauto.
  - cbn [app chunks_recorded] in H. apply IH, H.
Qed.

(** Predicates on traces that hold of the empty trace and of the
    concatenation of two traces they hold of, through the combinators. *)
Section Closed.
Variable C : list event -> Prop.
Hypothesis C_nil : C [].
Hypothesis C_app : forall t1 t2, C t1 -> C t2 -> C (t1 ++ t2).

Lemma closed_bind {A B} (m : M A) (f : A -> M B) :
  C (trace m) -> (forall a, outcome m = Ok a -> C (trace (f a))) ->
  C (trace (bind m f)).
Proof.
  intros Hm Hf. rewrite trace_bind. apply C_app; [exact Hm|].
  destruct (outcome m); [apply Hf; reflexivity|exact C_nil|exact C_nil].
Qed.

Lemma closed_try_finally {A} (m : M A) (fin : M unit) :
  C (trace m) -> C (trace fin) -> C (trace (try_finally m fin)).
Proof.
  intros Hm Hf. rewrite trace_try_finally. apply C_app; [exact Hm|].
  destruct (outcome m); auto.
Qed.

Lemma closed_try_except {A} (m : M A) (h : exn -> M A) :
  C (trace m) -> (forall e, C (trace (h e))) -> C (trace (try_except m h)).
Proof.
  intros Hm Hh. rewrite trace_try_except. apply C_app; [exact Hm|].
  destruct (outcome m) as [a|e|]; auto. destruct (is_Exception e); auto.
Qed.

Lemma closed_try_except_interrupt {A} (m h : M A) :
  C (trace m) -> C (trace h) -> C (trace (try_except_interrupt m h)).
Proof.
  intros Hm Hh. rewrite trace_try_except_interrupt. apply C_app; [exact Hm|].
  destruct (outcome m) as [a|[]|]; auto.
Qed.
End Closed.

Lemma manifests_closed_app (P : option event -> TableDir -> DumpManifest.t -> Prop)
    (t1 t2 : list event) :
  manifests_closed P t1 -> manifests_closed P t2 -> manifests_closed P (t1 ++ t2).
Proof. intros H1 H2 prev d. apply manifests_ok_app; auto. Qed.

Lemma manifests_closed_nil (P : option event -> TableDir -> DumpManifest.t -> Prop) :
  manifests_closed P [].
Proof. intros prev d. exact I. Qed.

(** Goes through a run built from the combinators, for a predicate as
    in the section above; leaves the events and the loops. *)
Ltac trace_closed Cnil Capp :=
  repeat
    match goal with
    | |- _ (trace (bind _ _)) =>
        apply (closed_bind _ Cnil Capp);
        [|let a := fresh "a" in
          let Ha := fresh "Ha" in
          intros a Ha;
          try (lazymatch type of Ha with
               | outcome (ret _) = Ok _ =>
                   cbv [outcome ret snd] in Ha; injection Ha as <-
               end)]
    | |- _ (trace (try_finally _ _)) => apply (closed_try_finally _ Cnil Capp)
    | |- _ (trace (try_except_interrupt _ _)) =>
        apply (closed_try_except_interrupt _ Cnil Capp)
    | |- _ (trace (try_except _ _)) =>
        apply (closed_try_except _ Cnil Capp); [|intros ?]
    | |- _ (trace (ret _)) => exact Cnil
    | |- _ (trace (raise _)) => exact Cnil
    | |- _ (trace (if ?b then _ else _)) => destruct b eqn:?
    | |- _ (trace (match ?x with _ => _ end)) => destruct x eqn:?
    end.

(** One turn of the loop of the dump: it raises before it writes the
    chunk file in full, or it writes the chunk file, then the manifest,
    and goes on to the next chunk. *)
Lemma dump_chunk_cases (env : DumpEnv) (table : TableInfo.t)
    (settings : DumpSettings.t) (schema_ddl : option (list Z))
    (index_defs : list (list Z * list Z)) (start_chunk chunks_total chunk_rows : Z)
    (col_list order_clause : list Z) (chunk_idx rows_dumped : Z)
    (manifest : DumpManifest.t) :
  let run := dump_chunk env table settings schema_ddl index_defs start_chunk
               chunks_total chunk_rows col_list order_clause chunk_idx rows_dumped
               manifest in
  (exists e,
     outcome run = Raise e
     /\ Forall (fun ev => (forall m, ev <> WriteManifest m)
                          /\ forall f d l, ev <> WriteChunk f d l)
          (trace run))
  \/ (exists raw data level,
        run = ([CopyOut col_list order_clause chunk_rows (chunk_idx * chunk_rows);
                WriteChunk (DumpManifest.chunk_filename manifest chunk_idx) data level;
                WriteManifest
                  (DumpManifest.set_chunks_completed manifest (chunk_idx + 1));
                ProgressUpdate (rows_dumped + count_records raw) (chunk_idx + 1)],
               Ok (rows_dumped + count_records raw, chunk_idx + 1,
                   DumpManifest.set_chunks_completed manifest (chunk_idx + 1)))).
Proof.
  cbn zeta. unfold dump_chunk, _write_manifest.
  destruct (copy_result env chunk_idx) as [raw| |]; cbn.
  2,3: left; eexists; split; [reflexivity|];
    repeat constructor; intros; discriminate.
  destruct (list_Z_eqb _ _);
    [destruct (_build_sql_chunk _ _ _ _ _ _ _ _)|]; cbn;
    try (left; eexists; split; [reflexivity|];
         repeat constructor; intros; discriminate);
    destruct (chunk_write env chunk_idx); cbn;
    try (left; eexists; split; [reflexivity|];
         repeat constructor; intros; discriminate);
    right; eauto.
Qed.

Section DumpManifests.
Variable env : DumpEnv.
Variable table : TableInfo.t.
Variable settings : DumpSettings.t.
Variable schema_ddl : option (list Z).
Variable index_defs : list (list Z * list Z).
Variables start_chunk chunks_total chunk_rows : Z.
Variables col_list order_clause : list Z.

Local Abbreviation loop fuel chunk_idx rows_dumped manifest :=
  (dump_loop env table settings schema_ddl index_defs start_chunk chunks_total
     chunk_rows col_list order_clause fuel chunk_idx rows_dumped manifest).

Lemma dump_loop_recorded (fuel : nat) :
  forall chunk_idx rows_dumped manifest,
    chunks_recorded (trace (loop fuel chunk_idx rows_dumped manifest)).
Proof.
  induction fuel as [|fuel IH]; intros chunk_idx rows_dumped manifest;
    cbn [dump_loop]; destruct (_ && _); try exact I.
  apply (closed_bind _ I chunks_recorded_app); [|intros st _; apply IH].
  destruct (dump_chunk_cases env table settings schema_ddl index_defs start_chunk
              chunks_total chunk_rows col_list order_clause chunk_idx rows_dumped
              manifest) as [(e & _ & Hc)|(raw & data & level & E)].
  - apply chunks_recorded_clean. eapply Forall_impl; [exact Hc|].
    intros ev [_ H]. exact H.
  - rewrite E. cbn. tauto.
Qed.

Lemma dump_loop_manifests (fuel : nat) :
  forall chunk_idx rows_dumped manifest prev d,
    DumpManifest.chunks_completed manifest = chunk_idx ->
    DumpManifest.chunks_total manifest = chunks_total ->
    DumpManifest.finished_at manifest = None ->
    start_chunk <= chunk_idx ->
    (start_chunk < chunk_idx ->
     is_Some (chunk_files d
              !! DumpManifest.chunk_filename manifest (chunk_idx - 1))) ->
    manifests_ok (manifest_write_ok start_chunk) prev d
      (trace (loop fuel chunk_idx rows_dumped manifest))
    /\ forall st,
         outcome (loop fuel chunk_idx rows_dumped manifest) = Ok st ->
         snd st = DumpManifest.set_chunks_completed manifest (snd (fst st))
         /\ chunk_idx <= snd (fst st) <= Z.max chunk_idx chunks_total
         /\ (start_chunk < snd (fst st) ->
             is_Some (chunk_files
                        (apply_events d (trace (loop fuel chunk_idx rows_dumped
                                                  manifest)))
                      !! DumpManifest.chunk_filename manifest (snd (fst st) - 1))).
Proof.
  induction fuel as [|fuel IH];
    intros chunk_idx rows_dumped manifest prev d Hcc Hct Hfin Hstart Hfile;
    cbn [dump_loop];
    destruct (Z.ltb_spec chunk_idx chunks_total) as [Hlt|Hge]; cbn [andb].
  - destruct (negb _); (split; [exact I|]); [discriminate|].
    intros st [= <-]. cbn [fst snd trace apply_events fold_left].
    split; [subst chunk_idx; destruct manifest; reflexivity|].
    split; [lia|exact Hfile].
  - split; [exact I|]. intros st [= <-]. cbn [fst snd trace apply_events fold_left].
    split; [subst chunk_idx; destruct manifest; reflexivity|].
    split; [lia|exact Hfile].
  - destruct (negb _).
    2:{ split; [exact I|]. intros st [= <-].
        cbn [fst snd trace apply_events fold_left].
        split; [subst chunk_idx; destruct manifest; reflexivity|].
        split; [lia|exact Hfile]. }
    destruct (dump_chunk_cases env table settings schema_ddl index_defs start_chunk
                chunks_total chunk_rows col_list order_clause chunk_idx rows_dumped
                manifest) as [(e & Ho & Hc)|(raw & data & level & E)].
    + rewrite trace_bind, outcome_bind, Ho. rewrite app_nil_r.
      split; [|discriminate]. apply manifests_ok_clean.
      eapply Forall_impl; [exact Hc|]. intros ev [H _]. exact H.
    + rewrite E. rewrite bind_Ok. cbn [fst snd trace outcome].
      set (m1 := DumpManifest.set_chunks_completed manifest (chunk_idx + 1)).
      set (t1 := [CopyOut col_list order_clause chunk_rows (chunk_idx * chunk_rows);
                  WriteChunk (DumpManifest.chunk_filename manifest chunk_idx) data
                    level;
                  WriteManifest m1;
                  ProgressUpdate (rows_dumped + count_records raw) (chunk_idx + 1)]).
      assert (Hf1 : is_Some (chunk_files (apply_events d t1)
                             !! DumpManifest.chunk_filename m1 (chunk_idx + 1 - 1))).
      { replace (chunk_idx + 1 - 1) with chunk_idx by lia.
        subst t1 m1. cbn [apply_events fold_left apply_event chunk_files].
        rewrite set_chunks_completed_filename, lookup_insert_eq. eauto. }
      assert (IHn : forall prev',
                 manifests_ok (manifest_write_ok start_chunk) prev'
                   (apply_events d t1)
                   (trace (loop fuel (chunk_idx + 1)
                             (rows_dumped + count_records raw) m1))
                 /\ forall st,
                      outcome (loop fuel (chunk_idx + 1)
                                 (rows_dumped + count_records raw) m1) = Ok st ->
                      snd st = DumpManifest.set_chunks_completed m1 (snd (fst st))
                      /\ chunk_idx + 1 <= snd (fst st)
                                        <= Z.max (chunk_idx + 1) chunks_total
                      /\ (start_chunk < snd (fst st) ->
                          is_Some (chunk_files
                                     (apply_events (apply_events d t1)
                                        (trace (loop fuel (chunk_idx + 1)
                                                  (rows_dumped + count_records raw)
                                                  m1)))
                                   !! DumpManifest.chunk_filename m1
                                        (snd (fst st) - 1)))).
      { intros prev'. apply IH; try reflexivity; try assumption; try lia.
        intros _. exact Hf1. }
      split.
      * apply manifests_ok_app; [|intros prev'; apply IHn].
        subst t1. cbn [manifests_ok]. repeat split; try exact I.
        -- subst m1.
           cbn [DumpManifest.chunks_completed DumpManifest.set_chunks_completed].
           lia.
        -- subst m1.
           cbn [DumpManifest.chunks_completed DumpManifest.chunks_total
                  DumpManifest.set_chunks_completed]. lia.
        -- exists data, level. subst m1.
           rewrite set_chunks_completed_filename.
           cbn [DumpManifest.chunks_completed DumpManifest.set_chunks_completed].
           replace (chunk_idx + 1 - 1) with chunk_idx by lia.
           split; [reflexivity|].
           cbn [apply_event chunk_files]. apply lookup_insert_eq.
        -- right. subst m1.
           cbn [DumpManifest.chunks_completed DumpManifest.chunks_total
                  DumpManifest.set_chunks_completed].
           split; [lia|]. intros _. rewrite set_chunks_completed_filename.
           cbn [DumpManifest.chunks_completed DumpManifest.set_chunks_completed].
           replace (chunk_idx + 1 - 1) with chunk_idx by lia.
           cbn [apply_event chunk_files]. rewrite lookup_insert_eq. eauto.
      * intros st Hst. destruct (IHn None) as [_ Hpost].
        destruct (Hpost st Hst) as (Hm & Hb & Hf).
        split; [rewrite Hm; reflexivity|]. split; [lia|].
        intros Hs. rewrite apply_events_app. apply Hf, Hs.
  - split; [exact I|]. intros st [= <-]. cbn [fst snd trace apply_events fold_left].
    split; [subst chunk_idx; destruct manifest; reflexivity|].
    split; [lia|exact Hfile].
Qed.
End DumpManifests.

Lemma dump_with_cursor_recorded (env : DumpEnv) (db_cfg : DBConfig.t)
    (dbname : list Z) (table : TableInfo.t) (settings : DumpSettings.t)
    (schema_ddl : option (list Z)) (has_schema : bool)
    (index_defs : list (list Z * list Z)) (start_chunk : Z) :
  chunks_recorded
    (trace (dump_with_cursor env db_cfg dbname table settings schema_ddl has_schema
              index_defs start_chunk)).
Proof.
  unfold dump_with_cursor, _write_manifest.
  trace_closed I chunks_recorded_app;
    try (apply dump_loop_recorded); cbn; tauto.
Qed.

Lemma manifest_write_ok_finished (start_chunk : Z) (prev : option event)
    (d : TableDir) (m : DumpManifest.t) (s : list Z) :
  DumpManifest.finished_at m = Some s ->
  (DumpManifest.total_rows m = 0
   /\ DumpManifest.chunks_completed m = 0
   /\ DumpManifest.chunks_total m = 0
   \/ start_chunk <= DumpManifest.chunks_completed m
                  <= Z.max start_chunk (DumpManifest.chunks_total m)
      /\ (start_chunk < DumpManifest.chunks_completed m ->
          is_Some (chunk_files d
                   !! DumpManifest.chunk_filename m
                        (DumpManifest.chunks_completed m - 1)))) ->
  manifest_write_ok start_chunk prev d m.
Proof.
  intros Hf H. split; [|exact H]. rewrite Hf. intros E. discriminate E.
Qed.

Ltac split_writes :=
  cbn [manifests_ok];
  repeat match goal with
         | |- _ /\ _ => split
         | |- True => exact I
         end.

Lemma manifests_closed_emit (P : option event -> TableDir -> DumpManifest.t -> Prop)
    (e : event) :
  (forall m, e <> WriteManifest m) -> manifests_closed P (trace (emit e)).
Proof.
  intros H prev d. apply manifests_ok_clean. repeat constructor. exact H.
Qed.

Lemma dump_with_cursor_manifests (env : DumpEnv) (db_cfg : DBConfig.t)
    (dbname : list Z) (table : TableInfo.t) (settings : DumpSettings.t)
    (schema_ddl : option (list Z)) (has_schema : bool)
    (index_defs : list (list Z * list Z)) (start_chunk : Z) :
  manifests_closed (manifest_write_ok start_chunk)
    (trace (dump_with_cursor env db_cfg dbname table settings schema_ddl has_schema
              index_defs start_chunk)).
Proof.
  set (P := manifest_write_ok start_chunk).
  pose proof (manifests_closed_nil P) as Cnil.
  pose proof (manifests_closed_app P) as Capp.
  unfold dump_with_cursor, _write_manifest.
  do 2 (apply (closed_bind _ Cnil Capp);
        [apply manifests_closed_emit; discriminate|intros _ _]).
  apply (closed_bind _ Cnil Capp);
    [destruct (count_result env); exact Cnil|intros total_rows _].
  apply (closed_bind _ Cnil Capp);
    [apply manifests_closed_emit; discriminate|intros _ _].
  destruct (Z.eqb_spec total_rows 0) as [->|Hnz].
  { apply (closed_bind _ Cnil Capp);
      [apply manifests_closed_emit; discriminate|intros _ _].
    intros prev d. cbn [trace emit fst]. split_writes.
    eapply manifest_write_ok_finished; [reflexivity|]. left. auto. }
  apply (closed_bind _ Cnil Capp);
    [destruct (_ =? 0); exact Cnil|intros chunks_total Hct].
  destruct (DumpSettings.chunk_rows settings =? 0); [discriminate Hct|].
  cbv [outcome ret snd] in Hct. injection Hct as <-.
  apply (closed_bind _ Cnil Capp);
    [apply manifests_closed_emit; discriminate|intros _ _].
  intros prev d. rewrite trace_bind, trace_try_finally.
  match goal with
  | |- context [dump_loop ?a ?b ?c ?d1 ?e ?f ?g ?h ?i ?j ?k ?l ?m ?n] =>
      destruct (dump_loop_manifests a b c d1 e f g h i j k l m n prev d
                  eq_refl eq_refl eq_refl ltac:(lia) ltac:(lia)) as [Hok Hpost];
      remember (dump_loop a b c d1 e f g h i j k l m n) as run eqn:Erun
  end.
  destruct run as [tl [st|e|]]; cbn [trace outcome fst snd try_finally emit] in *.
  - destruct (Hpost st eq_refl) as (Hm & Hb & Hf). rewrite <- app_assoc.
    apply manifests_ok_app; [exact Hok|]. intros prev'.
    destruct (negb (dump_interrupted_end env)); cbn [trace bind emit fst app];
      split_writes.
    apply manifest_write_ok_finished with (s := now_finished env);
      [reflexivity|]. right. rewrite Hm.
    cbn [DumpManifest.chunks_completed DumpManifest.chunks_total
           DumpManifest.set_finished_at DumpManifest.set_chunks_completed
           _make_manifest apply_event].
    split; [lia|]. intros Hs. apply Hf, Hs.
  - rewrite app_nil_r. apply manifests_ok_app; [exact Hok|].
    intros prev'. split_writes.
  - rewrite !app_nil_r. exact Hok.
Qed.

Lemma dump_table_recorded (env : DumpEnv) (existing : option ManifestDoc.t)
    (db_cfg : DBConfig.t) (dbname : list Z) (table : TableInfo.t)
    (settings : DumpSettings.t) (resume : bool) :
  chunks_recorded (trace (dump_table env existing db_cfg dbname table settings resume)).
Proof.
  unfold dump_table, dump_schema_step, dump_index_step.
  trace_closed I chunks_recorded_app;
    try (apply dump_with_cursor_recorded); cbn; tauto.
Qed.

Lemma dump_table_manifests (env : DumpEnv) (existing : option ManifestDoc.t)
    (db_cfg : DBConfig.t) (dbname : list Z) (table : TableInfo.t)
    (settings : DumpSettings.t) (resume : bool) :
  manifests_closed (manifest_write_ok (dump_start_chunk resume existing))
    (trace (dump_table env existing db_cfg dbname table settings resume)).
Proof.
  set (P := manifest_write_ok (dump_start_chunk resume existing)).
  pose proof (manifests_closed_nil P) as Cnil.
  pose proof (manifests_closed_app P) as Capp.
  unfold dump_table.
  apply (closed_bind _ Cnil Capp);
    [apply manifests_closed_emit; discriminate|intros _ _].
  apply (closed_bind _ Cnil Capp).
  { trace_closed Cnil Capp; apply manifests_closed_emit; discriminate. }
  intros start Hstart.
  assert (Hs : start = None \/ start = Some (dump_start_chunk resume existing)).
  { unfold dump_start_chunk.
    destruct (if resume then existing else None) as [ex|].
    - destruct (ManifestDoc.finished_at ex) as [[|? ?]|];
        cbn zeta in Hstart; try destruct (Z.gtb _ 0); cbn in Hstart;
        injection Hstart as <-; auto.
    - cbn in Hstart. injection Hstart as <-. auto. }
  destruct Hs as [-> | ->]; [exact Cnil|].
  unfold dump_schema_step, dump_index_step.
  trace_closed Cnil Capp;
    try (apply dump_with_cursor_manifests);
    apply manifests_closed_emit; discriminate.
Qed.

(** ** The number of chunks *)

(** C5: when the table has rows, every manifest the dump writes records
    [chunks_total] as the ceiling of [total_rows / chunk_rows], which the
    integer expression of the source computes exactly for every
    [chunk_rows] of at least one; the dump writes the manifest right
    after every chunk file it writes in full; and a dump that is not
    skipped, returns, and is not interrupted at its end has written a
    manifest, which is the one on disk afterwards and records this
    number.  When the table has no rows the dump writes no chunk file,
    any manifest it writes has [chunks_total = 0] and [finished_at] set,
    and a dump that is not skipped and can connect writes that manifest
    and returns. *)
Theorem dump_chunks_total (env : DumpEnv) (existing : option ManifestDoc.t)
    (db_cfg : DBConfig.t) (dbname : list Z) (table : TableInfo.t)
    (settings : DumpSettings.t) (resume : bool) (total_rows : Z) (d : TableDir) :
  count_result env = Some total_rows ->
  0 <= total_rows ->
  1 <= DumpSettings.chunk_rows settings ->
  (0 < total_rows ->
   Forall (fun e => forall m, e = WriteManifest m ->
                      DumpManifest.total_rows m = total_rows
                      /\ DumpManifest.chunks_total m
                         = (total_rows + DumpSettings.chunk_rows settings - 1)
                           / DumpSettings.chunk_rows settings
                      /\ is_ceil_div total_rows (DumpSettings.chunk_rows settings)
                           (DumpManifest.chunks_total m))
     (trace (dump_table env existing db_cfg dbname table settings resume))
   /\ (forall pre file data level post,
         trace (dump_table env existing db_cfg dbname table settings resume)
         = pre ++ WriteChunk file data level :: post ->
         exists m post', post = WriteManifest m :: post')
   /\ (dump_skipped resume existing = false ->
       outcome (dump_table env existing db_cfg dbname table settings resume) = Ok tt ->
       dump_interrupted_end env = false ->
       exists m,
         In (WriteManifest m)
           (trace (dump_table env existing db_cfg dbname table settings resume))
         /\ manifest_json
              (apply_events d
                 (trace (dump_table env existing db_cfg dbname table settings
                           resume)))
            = Some (doc_of_manifest m)
         /\ DumpManifest.total_rows m = total_rows
         /\ DumpManifest.chunks_total m
            = (total_rows + DumpSettings.chunk_rows settings - 1)
              / DumpSettings.chunk_rows settings))
  /\ (total_rows = 0 ->
      Forall (fun e => is_chunk_write e = false
                       /\ forall m, e = WriteManifest m ->
                            DumpManifest.chunks_total m = 0
                            /\ DumpManifest.total_rows m = 0
                            /\ DumpManifest.finished_at m = Some (now_manifest env))
        (trace (dump_table env existing db_cfg dbname table settings resume))
      /\ (dump_skipped resume existing = false ->
          dump_connect_ok env = true ->
          exists pre has_schema,
            dump_table env existing db_cfg dbname table settings resume
            = (pre ++ [WriteManifest
                         (_make_manifest (now_manifest env) db_cfg dbname table
                            settings 0 0 0 has_schema true);
                       Close],
               Ok tt))).
Proof.
  intros Hcount Hnn Hcr. split.
  - intros Hpos.
    pose proof (dump_table_totals env db_cfg dbname table settings total_rows
                  Hcount Hpos Hcr existing resume) as Hall.
    split; [|split].
    + eapply Forall_impl; [exact Hall|].
      cbn beta. intros e He m Hm. destruct (He m Hm) as (Ht & _ & Hc).
      split; [exact Ht|]. split; [exact Hc|].
      rewrite Hc. apply ceil_div_formula; assumption.
    + intros pre file data level post E.
      pose proof (dump_table_recorded env existing db_cfg dbname table settings
                    resume) as Hrec.
      rewrite E in Hrec. exact (chunks_recorded_split _ _ _ _ _ Hrec).
    + intros Hskip Hok Hend.
      destruct (dump_table_finishes env db_cfg dbname table settings Hend
                  existing resume Hskip Hok)
        as (pre & m & post & E & _ & Hpost).
      exists m. rewrite E in Hall |- *. cbn [trace fst] in *.
      split; [apply in_or_app; right; left; reflexivity|]. split.
      * rewrite apply_events_app. cbn [apply_events fold_left].
        fold (apply_events (apply_event (apply_events d pre) (WriteManifest m)) post).
        destruct (apply_events_prepare post Hpost
                    (apply_event (apply_events d pre) (WriteManifest m)))
          as (-> & _ & _).
        reflexivity.
      * apply Forall_app in Hall as [_ Hall].
        apply List.Forall_cons_iff in Hall as [Hm _].
        destruct (Hm m eq_refl) as (Ht & _ & Hc). split; assumption.
  - intros ->. split.
    + apply dump_table_empty_events. exact Hcount.
    + intros Hskip Hconn. apply dump_table_empty_run; assumption.
Qed.

Lemma dump_chunks_total_witness :
  count_result (dump_env_with 3 sample_copy) = Some 3
  /\ outcome (dump_table (dump_env_with 3 sample_copy) None sample_db (lit "index")
                sample_table (sample_settings (lit "copy") true false false false)
                true) = Ok tt
  /\ exists m,
       In (WriteManifest m)
         (trace (dump_table (dump_env_with 3 sample_copy) None sample_db
                   (lit "index") sample_table
                   (sample_settings (lit "copy") true false false false) true))
       /\ manifest_json
            (apply_events empty_dir
               (trace (dump_table (dump_env_with 3 sample_copy) None sample_db
                         (lit "index") sample_table
                         (sample_settings (lit "copy") true false false false)
                         true)))
          = Some (doc_of_manifest m)
       /\ DumpManifest.total_rows m = 3
       /\ DumpManifest.chunks_total m = (3 + 2 - 1) / 2.
Proof.
  split; [reflexivity|]. split; [reflexivity|].
  apply (dump_chunks_total (dump_env_with 3 sample_copy) None sample_db (lit "index")
           sample_table (sample_settings (lit "copy") true false false false) true 3
           empty_dir eq_refl); cbn; try lia; reflexivity.
Defined.

(** ** The dump: progress is written after the chunk *)

(** The claim as first stated has every manifest written with
    [chunks_completed <= chunks_total] and with the chunk file of index
    [chunks_completed - 1] on disk.  A dump of the sample table, which
    has three rows and so two chunks, that resumes from a manifest with
    [chunks_completed = 5], in a directory that holds no chunk file,
    runs no turn of its loop and writes the final manifest with
    [chunks_completed = 5] and [chunks_total = 2]; the chunk file of
    index 4 is not there. *)
Lemma dump_resumed_past_total_counterexample :
  dump_start_chunk true (Some sample_manifest_five) = 5
  /\ exists pre m post,
       trace (dump_table (dump_env_with 3 sample_copy) (Some sample_manifest_five)
                sample_db (lit "index") sample_table
                (sample_settings (lit "copy") true false false false) true)
       = pre ++ WriteManifest m :: post
       /\ DumpManifest.chunks_completed m = 5
       /\ DumpManifest.chunks_total m = 2
       /\ ~ DumpManifest.chunks_completed m <= DumpManifest.chunks_total m
       /\ Forall (fun e => is_chunk_write e = false) pre
       /\ chunk_files (apply_events sample_dir_five (pre ++ [WriteManifest m]))
          !! DumpManifest.chunk_filename m (DumpManifest.chunks_completed m - 1)
          = None.
Proof.
  split; [reflexivity|].
  eexists [_; _; _; _; _; _; _; _; _; _; _], _, _.
  split; [reflexivity|]. split; [reflexivity|]. split; [reflexivity|].
  split; [vm_compute; intros H; apply H; reflexivity|].
  split; [repeat constructor|reflexivity].
Qed.

(** C6: a progress write of the loop, which is a manifest write with
    [finished_at] not set, comes right after the complete write of the
    chunk file it records: the event before it is the successful write
    of the file of index [chunks_completed - 1], that file is on disk
    with the whole chunk in it, and [chunks_completed] is above the chunk
    the dump started from and at most [chunks_total].  Every manifest
    written is that of a table without rows, with all counts zero, or
    has [start_chunk <= chunks_completed <= max start_chunk
    chunks_total]; so [0 <= chunks_completed <= chunks_total] when the
    dump starts from a chunk in that range.  When [chunks_completed] is
    positive the chunk file of index [chunks_completed - 1] is on disk,
    provided that it was there at the start in case the dump has written
    no chunk ([chunks_completed = start_chunk]). *)
Theorem dump_manifest_follows_chunk (env : DumpEnv) (existing : option ManifestDoc.t)
    (db_cfg : DBConfig.t) (dbname : list Z) (table : TableInfo.t)
    (settings : DumpSettings.t) (resume : bool) (d0 : TableDir)
    (pre post : list event) (m : DumpManifest.t) :
  trace (dump_table env existing db_cfg dbname table settings resume)
  = pre ++ WriteManifest m :: post ->
  let start_chunk := dump_start_chunk resume existing in
  let file :=
    DumpManifest.chunk_filename m (DumpManifest.chunks_completed m - 1) in
  let d := apply_events d0 (pre ++ [WriteManifest m]) in
  (DumpManifest.finished_at m = None ->
   start_chunk < DumpManifest.chunks_completed m <= DumpManifest.chunks_total m
   /\ exists pre' data level,
        pre = pre' ++ [WriteChunk file data level]
        /\ chunk_files d !! file = Some data)
  /\ (DumpManifest.total_rows m = 0
      /\ DumpManifest.chunks_completed m = 0
      /\ DumpManifest.chunks_total m = 0
      \/ start_chunk <= DumpManifest.chunks_completed m
                     <= Z.max start_chunk (DumpManifest.chunks_total m))
  /\ (0 <= start_chunk <= DumpManifest.chunks_total m ->
      0 <= DumpManifest.chunks_completed m <= DumpManifest.chunks_total m)
  /\ (0 < DumpManifest.chunks_completed m ->
      (DumpManifest.chunks_completed m = start_chunk ->
       is_Some (chunk_files d0 !! file)) ->
      is_Some (chunk_files d !! file)).
Proof.
  intros Ht. cbv zeta.
  pose proof (dump_table_manifests env existing db_cfg dbname table settings resume
                None d0) as H.
  rewrite Ht in H. apply manifests_ok_split in H. destruct H as [Hprog Hrest].
  set (start_chunk := dump_start_chunk resume existing) in *.
  set (file := DumpManifest.chunk_filename m (DumpManifest.chunks_completed m - 1))
    in *.
  set (d := apply_events d0 (pre ++ [WriteManifest m])).
  assert (Hd : chunk_files d = chunk_files (apply_events d0 pre)).
  { subst d. rewrite apply_events_app. reflexivity. }
  split; [|split; [|split]].
  - intros Hfin. destruct (Hprog Hfin) as (Hb & data & level & Hprev & Hlook).
    split; [exact Hb|].
    assert (Hlast : last pre = Some (WriteChunk file data level)).
    { destruct (last pre); [exact Hprev|discriminate Hprev]. }
    apply last_Some in Hlast as [pre' ->].
    exists pre', data, level. split; [reflexivity|]. rewrite Hd. exact Hlook.
  - destruct Hrest as [Hz|[Hb _]]; [left; exact Hz|right; exact Hb].
  - intros Hs. destruct Hrest as [(_ & -> & ->)|[Hb _]]; lia.
  - intros Hpos Hstart. rewrite Hd.
    destruct Hrest as [(_ & Hz & _)|[Hb Hf]]; [lia|].
    destruct (Z.eq_dec (DumpManifest.chunks_completed m) start_chunk) as [E|E].
    + apply chunk_file_kept, Hstart, E.
    + apply Hf. lia.
Qed.

Lemma dump_manifest_follows_chunk_witness :
  0 < DumpManifest.chunks_completed sample_manifest_next
    <= DumpManifest.chunks_total sample_manifest_next
  /\ chunk_files
       (apply_events empty_dir
          ([Mkdir; GetTableDDL;
            WriteSchema (lit "CREATE TABLE IF NOT EXISTS t (id integer, s text);");
            ConsolePrint (MsgSavedSchema (lit "t")); Connect; ConsolePrint (MsgCounting (lit "t"));
            Query (CountRows (lit "t")); ConsolePrint (MsgCount 3); ProgressBegin 0 2;
            CopyOut (quoted (lit "id") ++ lit ", " ++ quoted (lit "s"))
              (quoted (lit "id")) 2 0;
            WriteChunk (lit "t_chunk_000000.csv") sample_copy_data None]
           ++ [WriteManifest sample_manifest_next]))
     !! lit "t_chunk_000000.csv" = Some sample_copy_data.
Proof.
  destruct (dump_manifest_follows_chunk (dump_env_with 3 sample_copy) None sample_db
              (lit "index") sample_table
              (sample_settings (lit "copy") true false false false) true empty_dir
              ([Mkdir; GetTableDDL;
                WriteSchema (lit "CREATE TABLE IF NOT EXISTS t (id integer, s text);");
                ConsolePrint (MsgSavedSchema (lit "t")); Connect; ConsolePrint (MsgCounting (lit "t"));
                Query (CountRows (lit "t")); ConsolePrint (MsgCount 3); ProgressBegin 0 2;
                CopyOut (quoted (lit "id") ++ lit ", " ++ quoted (lit "s"))
                  (quoted (lit "id")) 2 0]
               ++ [WriteChunk (lit "t_chunk_000000.csv") sample_copy_data None])
              [ProgressUpdate 2 1;
               CopyOut (quoted (lit "id") ++ lit ", " ++ quoted (lit "s"))
                 (quoted (lit "id")) 2 2;
               WriteChunk (lit "t_chunk_000001.csv")
                 (lit "3" ++ [9] ++ lit "c" ++ [10]) None;
               WriteManifest (DumpManifest.set_chunks_completed sample_manifest_next 2);
               ProgressUpdate 3 2; ProgressEnd;
               WriteManifest
                 (DumpManifest.set_finished_at
                    (DumpManifest.set_chunks_completed sample_manifest_next 2)
                    (lit "2024-01-01T00:00:05"));
               ConsolePrint (MsgDumpDone (lit "t") 3 2); Close]
              sample_manifest_next eq_refl)
    as (Hprog & _).
  destruct (Hprog eq_refl) as (Hb & pre' & data & level & Hpre & Hfile).
  split; [exact Hb|].
  apply app_inj_tail in Hpre as [_ Hw]. injection Hw as <- _.
  exact Hfile.
Defined.
(** ** The interrupt flag *)

Lemma run_ops_snoc (g : Globals) (ops : list interrupt_op) (op : interrupt_op) :
  run_ops g (ops ++ [op]) = run_op (run_ops g ops) op.
Proof. unfold run_ops. rewrite fold_left_app. reflexivity. Qed.

Lemma run_ops_flag (g : Globals) (ops : list interrupt_op) :
  (ui_interrupted g = true <-> 1 <= ui_interrupt_count g) ->
  0 <= ui_interrupt_count g ->
  (ui_interrupted (run_ops g ops) = true <-> 1 <= ui_interrupt_count (run_ops g ops))
  /\ 0 <= ui_interrupt_count (run_ops g ops).
Proof.
  revert g. induction ops as [|op ops IH]; intros g Hg Hc; [auto|].
  cbn [run_ops fold_left]. fold (run_ops (run_op g op) ops). apply IH.
  - destruct op; cbn [run_op]; [|cbn; split; [discriminate|lia]].
    unfold _signal_handler.
    destruct (Z.eqb_spec (ui_interrupt_count g + 1) 1) as [E|E]; cbn.
    + split; [lia|reflexivity].
    + rewrite Hg. lia.
  - destruct op; cbn [run_op]; [|cbn; lia].
    unfold _signal_handler.
    destruct (Z.eqb_spec (ui_interrupt_count g + 1) 1); cbn; lia.
Qed.

(** X15: in every state the interrupt globals of ui.py reach from the
    program start by signals and resets, [interrupted] is set exactly
    when [_interrupt_count] is at least one; [_signal_handler] raises
    [KeyboardInterrupt] exactly when the flag is already set and returns
    normally exactly when it is not; the flag is set after it in both
    cases; and after [reset_interrupt] the next signal is absorbed. *)
Theorem signal_handler_two_stage (g0 : Globals) (ops : list interrupt_op) :
  let g := run_ops (program_start g0) ops in
  (ui_interrupted g = true <-> 1 <= ui_interrupt_count g)
  /\ (snd (_signal_handler g) = Raise KeyboardInterrupt <-> ui_interrupted g = true)
  /\ (snd (_signal_handler g) = Ok tt <-> ui_interrupted g = false)
  /\ ui_interrupted (fst (fst (_signal_handler g))) = true
  /\ snd (_signal_handler (reset_interrupt g)) = Ok tt.
Proof.
  intros g.
  destruct (run_ops_flag (program_start g0) ops) as [Hg Hc];
    [cbn; split; [discriminate|lia] | cbn; lia |].
  fold g in Hg, Hc.
  split; [exact Hg|].
  unfold _signal_handler.
  destruct (Z.eqb_spec (ui_interrupt_count g + 1) 1) as [E|E]; cbn [fst snd].
  - assert (Hf : ui_interrupted g = false).
    { destruct (ui_interrupted g); [|reflexivity]. destruct Hg as [Hg _].
      specialize (Hg eq_refl). lia. }
    rewrite Hf. repeat split; try discriminate; auto.
  - assert (Ht : ui_interrupted g = true) by (apply Hg; lia).
    rewrite Ht. repeat split; try discriminate; auto.
Qed.

Lemma run_ops_bound_names (g : Globals) (ops : list interrupt_op) :
  dump_interrupted (run_ops g ops) = dump_interrupted g
  /\ restore_interrupted (run_ops g ops) = restore_interrupted g
  /\ cli_interrupted (run_ops g ops) = cli_interrupted g.
Proof.
  revert g. induction ops as [|op ops IH]; intros g; [auto|].
  cbn [run_ops fold_left]. fold (run_ops (run_op g op) ops).
  destruct (IH (run_op g op)) as (-> & -> & ->).
  destruct op; cbn [run_op]; [|auto].
  unfold _signal_handler. destruct (_ =? 1); auto.
Qed.

(** X16: the name [interrupted] that dump.py, restore.py and cli.py
    bind with [from .ui import interrupted] keeps the value it had at
    import, [False]: neither [_signal_handler] nor [reset_interrupt]
    changes it.  After a first signal the flag of ui.py is set while the
    one the dump loop tests is not. *)
Theorem imported_flag_never_set (g0 : Globals) (ops : list interrupt_op) :
  let g := run_ops (program_start g0) ops in
  dump_interrupted g = false
  /\ restore_interrupted g = false
  /\ cli_interrupted g = false
  /\ ui_interrupted (run_op (reset_interrupt g) OpSigint) = true
  /\ dump_interrupted (run_op (reset_interrupt g) OpSigint) = false.
Proof.
  intros g. destruct (run_ops_bound_names (program_start g0) ops) as (Hd & Hr & Hc).
  fold g in Hd, Hr, Hc. rewrite Hd, Hr, Hc.
  repeat split; try reflexivity. cbn. exact Hd.
Qed.

(** ** The status column *)

Lemma restore_from_not_already (env : RestoreEnv) (dir : TableDir)
    (settings : DumpSettings.t) (manifest : ManifestDoc.t) (start_chunk : Z)
    (name : list Z) :
  ~ In (ConsolePrint (MsgAlreadyRestored name))
      (trace (restore_from env dir settings manifest start_chunk)).
Proof.
  intros Hin.
  assert (H : Forall (fun e => forall n, e <> ConsolePrint (MsgAlreadyRestored n))
                (trace (restore_from env dir settings manifest start_chunk))).
  { assert (Hhook : forall msgs t,
               (forall n, msgs (MsgAlreadyRestored n) = false) ->
               Forall (fun e => hook_event msgs e = true) t ->
               Forall (fun e => forall n, e <> ConsolePrint (MsgAlreadyRestored n)) t).
    { intros msgs t Hm Ht. eapply Forall_impl; [exact Ht|].
      intros e He n ->. cbn in He. rewrite Hm in He. discriminate He. }
    unfold restore_from. trace_forall; try discriminate.
    - apply (Hhook pre_message); [reflexivity|apply pre_restore_hook].
    - apply (Hhook drop_message); [reflexivity|apply drop_non_pk_indexes_hook].
    - eapply Forall_impl; [apply restore_loop_loop_event|].
      intros e He n ->. discriminate He.
    - apply (Hhook rebuild_message); [reflexivity|apply rebuild_indexes_hook].
    - apply (Hhook rebuild_message); [reflexivity|apply rebuild_indexes_hook]. }
  rewrite List.Forall_forall in H. exact (H _ Hin name eq_refl).
Qed.

(** X17: for a dump that is not empty, the status column shows the
    table as restored exactly when [restore_table] skips it as already
    restored: if [_restore_status] returns that text the restore prints
    the skip message and does nothing else, and if the restore prints the
    skip message the status is that text. *)
Theorem restore_status_agrees (env : RestoreEnv) (dir : TableDir)
    (settings : DumpSettings.t) (manifest : ManifestDoc.t) :
  manifest_json dir = Some manifest ->
  ManifestDoc.total_rows manifest <> 0 ->
  (_restore_status dir manifest = Some ([10003] ++ lit " restored") ->
   restore_table env dir settings
   = ([ConsolePrint (MsgAlreadyRestored (ManifestDoc.table manifest))], Ok tt))
  /\ (In (ConsolePrint (MsgAlreadyRestored (ManifestDoc.table manifest)))
        (trace (restore_table env dir settings)) ->
      _restore_status dir manifest = Some ([10003] ++ lit " restored")).
Proof.
  intros Hm Hrows. unfold _restore_status, restore_table. rewrite Hm.
  destruct (Z.eqb_spec (ManifestDoc.total_rows manifest) 0) as [|_]; [contradiction|].
  destruct (restore_state_json dir) as [state|].
  - destruct (default 0 state >=? ManifestDoc.chunks_total manifest).
    + split; reflexivity.
    + split; [intros H; discriminate H|].
      intros Hin. exfalso. rewrite trace_bind in Hin.
      apply in_app_or in Hin as [Hin|Hin].
      * destruct (default 0 state >? 0); cbn in Hin;
          [destruct Hin as [Hin|Hin]; [discriminate Hin|contradiction]|contradiction].
      * destruct (default 0 state >? 0); cbn [outcome bind emit ret snd] in Hin;
          exact (restore_from_not_already _ _ _ _ _ _ Hin).
  - split.
    + destruct (ManifestDoc.finished_at manifest) as [[|c s]|];
        try (intros H; discriminate H);
        destruct (ManifestDoc.chunks_completed manifest);
        intros H; discriminate H.
    + intros Hin. exfalso. rewrite bind_ret in Hin.
      exact (restore_from_not_already _ _ _ _ _ _ Hin).
Qed.

Lemma restore_status_agrees_witness :
  restore_table (restore_env_with (fun _ _ => Succeeds)) sample_dir_restored
    (sample_settings (lit "copy") true false false false)
  = ([ConsolePrint (MsgAlreadyRestored (lit "t"))], Ok tt).
Proof.
  apply (restore_status_agrees (restore_env_with (fun _ _ => Succeeds))
           sample_dir_restored (sample_settings (lit "copy") true false false false)
           (doc_of_manifest sample_manifest_done)).
  - reflexivity.
  - cbn. lia.
  - reflexivity.
Defined.

(** ** The schema DDL in the first chunk *)

Lemma fold_left_append (f : list Z -> list Z) (l : list (list Z)) :
  forall d0,
    fold_left (fun ddl x => ddl ++ f x) l d0 = d0 ++ List.concat (List.map f l).
Proof.
  induction l as [|x l IH]; intros d0; cbn [fold_left List.map List.concat].
  - rewrite app_nil_r. reflexivity.
  - rewrite IH, <- app_assoc. reflexivity.
Qed.

Lemma startswith_app (p s : list Z) : startswith p (p ++ s) = true.
Proof.
  induction p as [|a p IH]; [reflexivity|].
  cbn [startswith app]. rewrite Z.eqb_refl, IH. reflexivity.
Qed.

Lemma table_ddl_text (table : TableInfo.t) (cols : list ColumnRow)
    (indexdefs : list (list Z)) :
  table_ddl table cols indexdefs
  = lit "CREATE TABLE IF NOT EXISTS "
    ++ (if list_Z_eqb (TableInfo.schema table) (lit "public") then []
        else quoted (TableInfo.schema table) ++ lit ".")
    ++ quoted (TableInfo.name table) ++ lit " (" ++ [10]
    ++ join (lit "," ++ [10]) (List.map column_def cols)
    ++ match TableInfo.pk_columns table with
       | [] => []
       | _ :: _ =>
           lit "," ++ [10] ++ lit "    PRIMARY KEY ("
           ++ join (lit ", ") (List.map quoted (TableInfo.pk_columns table)) ++ lit ")"
       end
    ++ [10] ++ lit ");" ++ [10]
    ++ List.concat (List.map (fun indexdef => indexdef ++ lit ";" ++ [10]) indexdefs).
Proof.
  unfold table_ddl. cbv zeta.
  rewrite (fold_left_append (fun indexdef => indexdef ++ lit ";" ++ [10])).
  rewrite <- !app_assoc. reflexivity.
Qed.

Lemma build_sql_chunk_parts_layout (now copy_data : list Z) (table : TableInfo.t)
    (settings : DumpSettings.t) (schema_ddl : option (list Z))
    (index_defs : list (list Z * list Z)) (is_first is_last : bool) :
  _build_sql_chunk_parts now copy_data table settings schema_ddl index_defs
    is_first is_last
  = chunk_layout
      ((DumpSettings.recreate_schema settings || DumpSettings.drop_on_restore settings)
       && ddl_truthy schema_ddl)
      now copy_data table settings schema_ddl index_defs is_first is_last.
Proof.
  unfold _build_sql_chunk_parts, chunk_layout, section_header,
    section_drop_table, section_schema_when, section_truncate,
    section_drop_indexes, section_rebuild_indexes.
  destruct index_defs as [|d ds];
    [rewrite (bool_decide_eq_true_2 _ eq_refl)
    |rewrite bool_decide_eq_false_2 by discriminate];
    destruct is_first, is_last,
      (DumpSettings.drop_on_restore settings),
      (DumpSettings.recreate_schema settings),
      (ddl_truthy schema_ddl),
      (DumpSettings.truncate_before_restore settings),
      (DumpSettings.disable_indexes_on_restore settings),
      (DumpSettings.use_transactions settings);
    cbn [andb orb negb app]; rewrite <- ?app_assoc; reflexivity.
Qed.

(** X18: the text [get_table_ddl] returns starts with [CREATE TABLE IF
    NOT EXISTS] and so is never empty.  So in a chunk built with it the
    guards [and schema_ddl] hold, and the schema section is present in
    the first chunk exactly when [recreate_schema] or [drop_on_restore]
    is set. *)
Theorem table_ddl_schema_section (table : TableInfo.t) (cols : list ColumnRow)
    (indexdefs : list (list Z)) (now copy_data : list Z)
    (settings : DumpSettings.t) (index_defs : list (list Z * list Z))
    (is_first is_last : bool) :
  let ddl := table_ddl table cols indexdefs in
  startswith (lit "CREATE TABLE IF NOT EXISTS ") ddl = true
  /\ ddl_truthy (Some ddl) = true
  /\ _build_sql_chunk_parts now copy_data table settings (Some ddl) index_defs
       is_first is_last
     = chunk_layout
         (DumpSettings.recreate_schema settings || DumpSettings.drop_on_restore settings)
         now copy_data table settings (Some ddl) index_defs is_first is_last.
Proof.
  intros ddl.
  assert (E : exists rest, ddl = lit "CREATE TABLE IF NOT EXISTS " ++ rest).
  { subst ddl. rewrite table_ddl_text. eexists. reflexivity. }
  destruct E as (rest & E).
  assert (Ht : ddl_truthy (Some ddl) = true) by (rewrite E; reflexivity).
  split; [rewrite E; apply startswith_app|]. split; [exact Ht|].
  rewrite build_sql_chunk_parts_layout, Ht, andb_true_r. reflexivity.
Qed.
